(** * fiction-dl: the FlareSolverr client and the FFNet extractor

    A shallow embedding of [fiction_dl/Utilities/FlareSolverr.py] and
    [fiction_dl/Extractors/ExtractorFFNet.py].

    Python values that come out of [response.json()] are modelled by the
    type [json]; text is modelled by [string] (one character per byte, so
    the character classes below are the ASCII parts of Python's).  Code that
    talks to the network, sleeps, logs or mutates the module global and the
    extractor object runs in the monad [M], which threads a [state] and
    either returns a value or raises a Python exception. *)

From Stdlib Require Import ZArith NArith List String Ascii Bool Lia DecimalString.
Import ListNotations.
Open Scope string_scope.
Open Scope Z_scope.

(* ================================================================== *)
(** ** Python strings *)

Module Py.

Definition code (c : ascii) : N := N_of_ascii c.

Definition in_range (lo hi : N) (c : ascii) : bool :=
  (lo <=? code c)%N && (code c <=? hi)%N.

(** [\d] and [str.isdigit] on ASCII. *)
Definition is_digit (c : ascii) : bool := in_range 48 57 c.

Definition is_upper (c : ascii) : bool := in_range 65 90 c.
Definition is_lower (c : ascii) : bool := in_range 97 122 c.
Definition is_alpha (c : ascii) : bool := is_upper c || is_lower c.

(** [\s] and the characters [str.strip()] removes: TAB..CR, FS..US, SPACE. *)
Definition is_space (c : ascii) : bool :=
  in_range 9 13 c || in_range 28 32 c.

Definition lower_char (c : ascii) : ascii :=
  if is_upper c then ascii_of_N (code c + 32) else c.

(** [s.lower()] *)
Fixpoint lower (s : string) : string :=
  match s with
  | EmptyString => EmptyString
  | String c s' => String (lower_char c) (lower s')
  end.

Fixpoint lstrip (s : string) : string :=
  match s with
  | EmptyString => EmptyString
  | String c s' => if is_space c then lstrip s' else s
  end.

Fixpoint rstrip (s : string) : string :=
  match s with
  | EmptyString => EmptyString
  | String c s' =>
      match rstrip s' with
      | EmptyString => if is_space c then EmptyString else String c EmptyString
      | r => String c r
      end
  end.

(** [s.strip()] *)
Definition strip (s : string) : string := rstrip (lstrip s).

(** [sub in s] *)
Fixpoint contains (sub s : string) : bool :=
  prefix sub s ||
  match s with
  | EmptyString => false
  | String _ s' => contains sub s'
  end.

(** [s.split(sep)] for a one-character separator. *)
Fixpoint split (sep : ascii) (s : string) : list string :=
  match s with
  | EmptyString => [EmptyString]
  | String c s' =>
      if Ascii.eqb c sep then EmptyString :: split sep s'
      else match split sep s' with
           | [] => [String c EmptyString]
           | x :: xs => String c x :: xs
           end
  end.

(** [s.replace(old, new)] for a non-empty [old]: occurrences are replaced
    from the left and do not overlap; [skip] counts the characters of the
    occurrence being dropped. *)
Fixpoint replace_from (old new : string) (skip : nat) (s : string) : string :=
  match s with
  | EmptyString => EmptyString
  | String c s' =>
      match skip with
      | S k => replace_from old new k s'
      | O =>
          if prefix old s
          then new ++ replace_from old new (Nat.pred (String.length old)) s'
          else String c (replace_from old new O s')
      end
  end.

Definition replace (old new s : string) : string := replace_from old new O s.

(** [s[n:]] for [n >= 0] *)
Fixpoint drop (n : nat) (s : string) : string :=
  match n, s with
  | S k, String _ s' => drop k s'
  | _, _ => s
  end.

Definition digit_val (c : ascii) : Z := Z.of_N (code c) - 48.

(** The digits of an [int()] literal: digits, with single underscores
    allowed between two digits. *)
Fixpoint int_digits (s : string) (acc : Z) (after_digit : bool) : option Z :=
  match s with
  | EmptyString => if after_digit then Some acc else None
  | String c s' =>
      if is_digit c then int_digits s' (10 * acc + digit_val c) true
      else if Ascii.eqb c "_" && after_digit then int_digits s' acc false
      else None
  end.

(** [int(s)]: [None] stands for [ValueError]. *)
Definition int (s : string) : option Z :=
  match strip s with
  | EmptyString => None
  | String c r =>
      if Ascii.eqb c "+" then int_digits r 0 false
      else if Ascii.eqb c "-" then option_map Z.opp (int_digits r 0 false)
      else int_digits (String c r) 0 false
  end.

(** [str(n)] *)
Definition str (n : Z) : string := NilZero.string_of_int (Z.to_int n).

(** [l[i]] with Python's negative indices; [None] stands for [IndexError]. *)
Definition getitem {A} (l : list A) (i : Z) : option A :=
  let n := Z.of_nat (List.length l) in
  if (0 <=? i) && (i <? n) then nth_error l (Z.to_nat i)
  else if (- n <=? i) && (i <? 0) then nth_error l (Z.to_nat (n + i))
  else None.

(** Truth value of an optional string: [None] and [""] are false. *)
Definition truthy_str (o : option string) : bool :=
  match o with
  | Some (String _ _) => true
  | _ => false
  end.

(** [range(lo, hi)] *)
Definition range (lo hi : Z) : list Z :=
  map (fun i => lo + Z.of_nat i) (seq 0 (Z.to_nat (hi - lo))).

End Py.

(* ================================================================== *)
(** ** JSON values, as returned by [response.json()] *)

#[local] Set Warnings "-register-all".
Inductive json : Type :=
| JNull
| JBool (b : bool)
| JNum (n : Z)
| JStr (s : string)
| JArr (l : list json)
| JObj (items : list (string * json)).

Module Json.

(** Python's truth value: [None], [False], [0], [""], [[]] and [{}] are
    false. *)
Definition truthy (v : json) : bool :=
  match v with
  | JNull => false
  | JBool b => b
  | JNum n => negb (n =? 0)
  | JStr s => negb (s =? "")%string
  | JArr l => match l with [] => false | _ => true end
  | JObj l => match l with [] => false | _ => true end
  end.

Fixpoint lookup (key : string) (items : list (string * json)) : option json :=
  match items with
  | [] => None
  | (k, v) :: rest => if (k =? key)%string then Some v else lookup key rest
  end.

(** [d.get(key, default)] on the items of a dict *)
Definition get (key : string) (items : list (string * json)) (default : json)
  : json :=
  match lookup key items with
  | Some v => v
  | None => default
  end.

(** [v == s] for a string literal [s] *)
Definition eq_str (v : json) (s : string) : bool :=
  match v with
  | JStr t => (t =? s)%string
  | _ => false
  end.

End Json.

(* ================================================================== *)
(** ** Regular expressions: a backtracking matcher with Python's priorities

    Alternatives are tried left to right, [Star] is greedy, and the first
    way to match wins, as in [re].  The body of a [Star] is required to
    consume a character at each round (true of every pattern below). *)

Module Re.

Inductive re : Type :=
| Eps
| Cls (p : ascii -> bool)
| Seq (a b : re)
| Alt (a b : re)
| Star (a : re)
| Grp (i : nat) (a : re).

Definition groups := list (nat * string).

Section Matcher.

Context {R : Type}.

Fixpoint run (r : re) (s : string) (g : groups)
    (k : string -> groups -> option R) {struct r} : option R :=
    match r with
    | Eps => k s g
    | Cls p =>
        match s with
        | String c s' => if p c then k s' g else None
        | EmptyString => None
        end
    | Seq a b => run a s g (fun s1 g1 => run b s1 g1 k)
    | Alt a b =>
        match run a s g k with
        | Some x => Some x
        | None => run b s g k
        end
    | Star a =>
        (fix loop (n : nat) (s : string) (g : groups) {struct n} : option R :=
           match n with
           | O => k s g
           | S n' =>
               match run a s g
                       (fun s1 g1 =>
                          if (String.length s1 <? String.length s)%nat
                          then loop n' s1 g1 else None) with
               | Some x => Some x
               | None => k s g
               end
           end) (String.length s) s g
    | Grp i a =>
        run a s g
          (fun s1 g1 =>
             k s1 ((i, substring 0 (String.length s - String.length s1) s) :: g1))
    end.

End Matcher.

Definition chr (c : ascii) : re := Cls (Ascii.eqb c).

(** A literal, character by character. *)
Fixpoint lit (s : string) : re :=
  match s with
  | EmptyString => Eps
  | String c s' => Seq (chr c) (lit s')
  end.

(** A literal under [re.IGNORECASE]. *)
Definition chr_i (c : ascii) : re :=
  Cls (fun x => Ascii.eqb (Py.lower_char x) (Py.lower_char c)).

Fixpoint lit_i (s : string) : re :=
  match s with
  | EmptyString => Eps
  | String c s' => Seq (chr_i c) (lit_i s')
  end.

Definition plus (a : re) : re := Seq a (Star a).       (* a+ *)
Definition opt (a : re) : re := Alt a Eps.             (* a? *)

Fixpoint seq (l : list re) : re :=
  match l with
  | [] => Eps
  | [a] => a
  | a :: l' => Seq a (seq l')
  end.

Fixpoint alt (a : re) (l : list re) : re :=
  match l with
  | [] => a
  | b :: l' => Alt a (alt b l')
  end.

Definition digit : re := Cls Py.is_digit.              (* \d *)
Definition space : re := Cls Py.is_space.              (* \s *)
Definition range (lo hi : ascii) : re :=
  Cls (Py.in_range (Py.code lo) (Py.code hi)).         (* [lo-hi] *)

(** [re.match(r, s)]: the groups and the unmatched rest of [s]. *)
Definition match_ (r : re) (s : string) : option (groups * string) :=
  run r s [] (fun rest g => Some (g, rest)).

(** [re.search(r, s)]: the groups of the leftmost match. *)
Fixpoint search (r : re) (s : string) : option groups :=
  match run r s [] (fun _ g => Some g) with
  | Some g => Some g
  | None =>
      match s with
      | String _ s' => search r s'
      | EmptyString => None
      end
  end.

(** [m.group(i)] for a group that took part in the match. *)
Fixpoint group (i : nat) (g : groups) : option string :=
  match g with
  | [] => None
  | (j, s) :: g' => if Nat.eqb i j then Some s else group i g'
  end.

End Re.

(* ================================================================== *)
(** ** Python exceptions *)

Inductive exn : Type :=
| Timeout            (* requests.exceptions.Timeout *)
| ConnectionError    (* any other requests.exceptions.RequestException *)
| HTTPError          (* raised by raise_for_status() *)
| JSONDecodeError    (* raised by response.json() *)
| AttributeError
| TypeError
| ValueError
| IndexError
| KeyError
| OverflowError.

Inductive result (A : Type) : Type :=
| Ret (a : A)
| Raise (e : exn).

Arguments Ret {A} a.
Arguments Raise {A} e.

(* ================================================================== *)
(** ** Dates: [datetime.strptime], [strftime] and [fromtimestamp] *)

Module Dates.

Record date : Type := mkDate { year : Z; month : Z; day : Z }.

Definition is_leap (y : Z) : bool :=
  (y mod 4 =? 0) && (negb (y mod 100 =? 0) || (y mod 400 =? 0)).

Definition days_in_month (y m : Z) : Z :=
  if m =? 2 then (if is_leap y then 29 else 28)
  else if (m =? 4) || (m =? 6) || (m =? 9) || (m =? 11) then 30
  else 31.

(** The range checks of the [datetime] constructor (MINYEAR = 1,
    MAXYEAR = 9999); a date that fails them is a [ValueError]. *)
Definition valid (d : date) : bool :=
  (1 <=? year d) && (year d <=? 9999) &&
  (1 <=? month d) && (month d <=? 12) &&
  (1 <=? day d) && (day d <=? days_in_month (year d) (month d)).

Definition digit_char (n : Z) : ascii := ascii_of_N (Z.to_N (48 + n mod 10)).

Definition pad2 (n : Z) : string :=
  String (digit_char (n / 10)) (String (digit_char n) EmptyString).

Definition pad4 (n : Z) : string :=
  String (digit_char (n / 1000)) (String (digit_char (n / 100)) (pad2 n)).

(** [d.strftime("%Y-%m-%d")], the year written with four digits. *)
Definition strftime (d : date) : string :=
  pad4 (year d) ++ "-" ++ pad2 (month d) ++ "-" ++ pad2 (day d).

(** *** [strptime]

    [_strptime] turns the format into a regular expression, one named
    group per directive, compiled with [re.IGNORECASE]; a run of white
    space in the format becomes [\s+].  The groups are numbered here. *)

Definition gY : nat := 1.
Definition gy : nat := 2.
Definition gm : nat := 3.
Definition gd : nat := 4.
Definition gb : nat := 5.
Definition gB : nat := 6.

Definition a_month : list string :=
  ["jan"; "feb"; "mar"; "apr"; "may"; "jun";
   "jul"; "aug"; "sep"; "oct"; "nov"; "dec"].

Definition f_month : list string :=
  ["january"; "february"; "march"; "april"; "may"; "june"; "july";
   "august"; "september"; "october"; "november"; "december"].

(** [sorted(names, key=len, reverse=True)]: longest first, stable. *)
Fixpoint insert_by_len (x : string) (l : list string) : list string :=
  match l with
  | [] => [x]
  | y :: l' =>
      if (String.length y <? String.length x)%nat then x :: l
      else y :: insert_by_len x l'
  end.

Definition longest_first (l : list string) : list string :=
  fold_left (fun acc x => insert_by_len x acc) l [].

(** [__seqToRE]: an alternation of the names. *)
Definition seqToRE (names : list string) (g : nat) : Re.re :=
  match map Re.lit_i (longest_first names) with
  | [] => Re.Eps
  | a :: l => Re.Grp g (Re.alt a l)
  end.

Definition directive (d : ascii) : option Re.re :=
  if Ascii.eqb d "Y" then
    Some (Re.Grp gY (Re.seq [Re.digit; Re.digit; Re.digit; Re.digit]))
  else if Ascii.eqb d "y" then
    Some (Re.Grp gy (Re.seq [Re.digit; Re.digit]))
  else if Ascii.eqb d "m" then
    (* 1[0-2]|0[1-9]|[1-9] *)
    Some (Re.Grp gm (Re.alt (Re.Seq (Re.chr "1") (Re.range "0" "2"))
                       [Re.Seq (Re.chr "0") (Re.range "1" "9");
                        Re.range "1" "9"]))
  else if Ascii.eqb d "d" then
    (* 3[0-1]|[1-2]\d|0[1-9]|[1-9]| [1-9] *)
    Some (Re.Grp gd (Re.alt (Re.Seq (Re.chr "3") (Re.range "0" "1"))
                       [Re.Seq (Re.range "1" "2") Re.digit;
                        Re.Seq (Re.chr "0") (Re.range "1" "9");
                        Re.range "1" "9";
                        Re.Seq (Re.chr " ") (Re.range "1" "9")]))
  else if Ascii.eqb d "b" then Some (seqToRE a_month gb)
  else if Ascii.eqb d "B" then Some (seqToRE f_month gB)
  else None.

(** [TimeRE.pattern]; [in_ws] says that the previous character of the
    format was white space.  [None]: a bad or stray directive. *)
Fixpoint pattern (in_ws : bool) (fmt : string) : option Re.re :=
  match fmt with
  | EmptyString => Some Re.Eps
  | String "%" EmptyString => None
  | String "%" (String d rest) =>
      match directive d, pattern false rest with
      | Some r, Some r' => Some (Re.Seq r r')
      | _, _ => None
      end
  | String c rest =>
      if Py.is_space c then
        if in_ws then pattern true rest
        else option_map (Re.Seq (Re.plus Re.space)) (pattern true rest)
      else option_map (Re.Seq (Re.chr_i c)) (pattern false rest)
  end.

(** The pattern of ["-%m-%d"], the part of the ISO format after the
    year. *)
Definition iso_tail : Re.re :=
  match pattern false "-%m-%d" with
  | Some r => r
  | None => Re.Eps
  end.

(** Position of a name in a month table, counted from 1. *)
Fixpoint index_from (i : Z) (x : string) (l : list string) : option Z :=
  match l with
  | [] => None
  | y :: l' => if (x =? y)%string then Some i else index_from (i + 1) x l'
  end.

Definition found_year (g : Re.groups) : option Z :=
  match Re.group gY g, Re.group gy g with
  | Some t, _ => Py.int t
  | None, Some t =>
      (* two-digit years: 69-99 are 19xx, 00-68 are 20xx *)
      option_map (fun y => if y <=? 68 then y + 2000 else y + 1900) (Py.int t)
  | None, None => Some 1900
  end.

Definition found_month (g : Re.groups) : option Z :=
  match Re.group gm g, Re.group gB g, Re.group gb g with
  | Some t, _, _ => Py.int t
  | None, Some t, _ => index_from 1 (Py.lower t) f_month
  | None, None, Some t => index_from 1 (Py.lower t) a_month
  | None, None, None => Some 1
  end.

Definition found_day (g : Re.groups) : option Z :=
  match Re.group gd g with
  | Some t => Py.int t
  | None => Some 1
  end.

(** [datetime.strptime(s, fmt)]; [None] stands for [ValueError]: the
    pattern does not match a prefix of [s], text is left over after the
    match, or the fields are not a date. *)
Definition strptime (s fmt : string) : option date :=
  match pattern false fmt with
  | None => None
  | Some r =>
      match Re.match_ r s with
      | Some (g, EmptyString) =>
          match found_year g, found_month g, found_day g with
          | Some y, Some m, Some d =>
              let dt := mkDate y m d in
              if valid dt then Some dt else None
          | _, _, _ => None
          end
      | _ => None
      end
  end.

(** [d.replace(year=y)] *)
Definition replace_year (d : date) (y : Z) : option date :=
  let dt := mkDate y (month d) (day d) in
  if valid dt then Some dt else None.

(** *** [fromtimestamp] *)

(** The civil date of a day number counted from 1970-01-01. *)
Definition civil_from_days (n : Z) : date :=
  let z := n + 719468 in
  let era := z / 146097 in
  let doe := z mod 146097 in
  let yoe := (doe - doe / 1460 + doe / 36524 - doe / 146096) / 365 in
  let doy := doe - (365 * yoe + yoe / 4 - yoe / 100) in
  let mp := (5 * doy + 2) / 153 in
  let d := doy - (153 * mp + 2) / 5 + 1 in
  let m := if mp <? 10 then mp + 3 else mp - 9 in
  mkDate (yoe + era * 400 + (if m <=? 2 then 1 else 0)) m d.

Section Clock.

(** The local time zone: seconds east of UTC at a given instant. *)
Variable utcoffset : Z -> Z.

(** [datetime.fromtimestamp(ts)]: [OverflowError] outside the platform's
    64-bit [time_t], [ValueError] (or [OSError], caught alike by the only
    caller) when the year is out of range. *)
Definition fromtimestamp (ts : Z) : result date :=
  if (ts <? - 2 ^ 63) || (2 ^ 63 <=? ts) then Raise OverflowError
  else
    let d := civil_from_days ((ts + utcoffset ts) / 86400) in
    if (1 <=? year d) && (year d <=? 9999) then Ret d else Raise ValueError.

End Clock.

End Dates.

(* ================================================================== *)
(** ** The data the extractor works on *)

(** An [<a>] element: its text and its [href] attribute, if it has one. *)
Record Anchor : Type := mkAnchor {
  anchor_text : string;
  anchor_href : option string
}.

(** The element with id [profile_top]: [get_text()] and the values of the
    [data-xutime] attribute of the spans that carry one, in document
    order. *)
Record Header : Type := mkHeader {
  header_text : string;
  header_xutime : list string
}.

(** What the extractor reads from a parsed document (a tag soup). *)
Record Soup : Type := mkSoup {
  profile_top : option Header;         (* soup.find(id = "profile_top") *)
  center_links : list Anchor;          (* soup.select("center > a") *)
  z_list : list (option Anchor);       (* select_one("a.stitle") of each div.z-list *)
  selected_option : option string;     (* .text of the selected <option> *)
  storytext : option string            (* contents of the element #storytext *)
}.

Record Chapter : Type := mkChapter {
  chapter_title : option string;
  chapter_content : string
}.

Record Metadata : Type := mkMetadata {
  URL : string;
  Title : string;
  Author : string;
  Summary : string;
  DatePublished : string;
  DateUpdated : string;
  ChapterCount : Z;
  WordCount : Z
}.

(** The fields of an [ExtractorFFNet] object; [Story] is [None] until the
    extractor is initialized. *)
Record extractor : Type := mkExtractor {
  _useFlareSolverr : bool;
  _flareSolverrChecked : bool;
  _flareSolverrAvailable : bool;
  _chapterParserName : string;
  _chapterURLs : list string;
  Story : option Metadata
}.

(* ================================================================== *)
(** ** Effects *)

Inductive request : Type :=
| GET (url : string) (timeout : Z)
| POST (url : string) (body : json) (timeout : Z).

(** What the network does with a request: the call times out, fails in
    another way (connection refused, ...), or a response arrives, whose
    body is [None] when it is not JSON. *)
Inductive http_result : Type :=
| NetTimeout
| NetFailure
| Response (status_code : Z) (body : option json).

Inductive level : Type := INFO | WARNING | ERROR.

(** Observable actions.  A log record keeps the text of the source's
    message with its fields unexpanded.  [EvGetSoup] marks a call of the
    extractor's [_GetSoup]. *)
Inductive event : Type :=
| EvRequest (r : request)
| EvSleep (seconds : Z)
| EvLog (l : level) (message : string)
| EvPrint (line : string)
| EvGetSoup (url parser : string)
| EvWebSession (url parser : string).

Record state : Type := mkState {
  flaresolverr_session : json;   (* the module global _flaresolverr_session *)
  self : extractor;
  requests_made : nat;           (* calls of requests.get / requests.post *)
  fetches_made : nat;            (* calls of self._webSession.GetSoup *)
  trace : list event             (* oldest first *)
}.

Definition M (A : Type) : Type := state -> result A * state.

Definition ret {A} (a : A) : M A := fun st => (Ret a, st).

Definition bind {A B} (m : M A) (f : A -> M B) : M B :=
  fun st =>
    match m st with
    | (Ret a, st') => f a st'
    | (Raise e, st') => (Raise e, st')
    end.

Definition raise {A} (e : exn) : M A := fun st => (Raise e, st).

(** [try: body / except ...]: the handler says which exceptions it
    catches; the effects of [body] up to the exception stay. *)
Definition try_except {A} (body : M A) (handler : exn -> option (M A)) : M A :=
  fun st =>
    match body st with
    | (Ret a, st') => (Ret a, st')
    | (Raise e, st') =>
        match handler e with
        | Some h => h st'
        | None => (Raise e, st')
        end
    end.

Declare Scope monad_scope.
Delimit Scope monad_scope with monad.
Notation "x <- m ;; k" := (bind m (fun x => k))
  (at level 61, m at next level, right associativity) : monad_scope.
Notation "m ;; k" := (bind m (fun _ => k))
  (at level 61, right associativity) : monad_scope.
Open Scope monad_scope.

Definition emit (e : event) : M unit :=
  fun st =>
    (Ret tt, mkState (flaresolverr_session st) (self st) (requests_made st)
                     (fetches_made st) (trace st ++ [e])).

Definition log (l : level) (message : string) : M unit := emit (EvLog l message).
Definition print (line : string) : M unit := emit (EvPrint line).
Definition sleep (seconds : Z) : M unit := emit (EvSleep seconds).

Definition get_session : M json := fun st => (Ret (flaresolverr_session st), st).

Definition set_session (v : json) : M unit :=
  fun st =>
    (Ret tt, mkState v (self st) (requests_made st) (fetches_made st) (trace st)).

Definition get_self : M extractor := fun st => (Ret (self st), st).

Definition set_self (x : extractor) : M unit :=
  fun st =>
    (Ret tt, mkState (flaresolverr_session st) x (requests_made st)
                     (fetches_made st) (trace st)).

(** An optional value whose absence is a Python exception. *)
Definition or_raise {A} (e : exn) (o : option A) : M A :=
  match o with
  | Some a => ret a
  | None => raise e
  end.

Definition lift {A} (r : result A) : M A := fun st => (r, st).

(* ================================================================== *)
(** ** fiction_dl/Utilities/FlareSolverr.py *)

Module FlareSolverr.

(** A port argument: an [int], or [None] when the configuration has no
    port. *)
Definition port_t : Type := option Z.

Definition port_str (port : port_t) : string :=
  match port with
  | Some n => Py.str n
  | None => "None"
  end.

Record response : Type := mkResponse {
  status_code : Z;
  body : option json
}.

(** [response.raise_for_status()] *)
Definition raise_for_status (r : response) : M unit :=
  if (400 <=? status_code r) && (status_code r <? 600) then raise HTTPError
  else ret tt.

(** [response.json()] *)
Definition response_json (r : response) : M json :=
  or_raise JSONDecodeError (body r).

(** [d.get(key, default)]; only a dict has the method. *)
Definition dict_get (d : json) (key : string) (default : json) : M json :=
  match d with
  | JObj items => ret (Json.get key items default)
  | _ => raise AttributeError
  end.

(** [v.lower()]; only a string has the method. *)
Definition str_lower (v : json) : M string :=
  match v with
  | JStr s => ret (Py.lower s)
  | _ => raise AttributeError
  end.

(** The timeout handed to [requests.post] for a solve request. *)
Definition transport_timeout (maxTimeout : Z) : Z := maxTimeout / 1000 + 30.

(** The JSON body of a solve request. *)
Definition requestData (url : string) (maxTimeout : Z) (session : json) : json :=
  JObj ([("cmd", JStr "request.get");
         ("url", JStr url);
         ("maxTimeout", JNum maxTimeout)]
        ++ (if Json.truthy session then [("session", session)] else [])).

Definition GetFlareSolverrURL (port : port_t) : string :=
  "http://localhost:" ++ port_str port ++ "/v1".

Section Network.

(** The answer of the network to the [n]-th request of the run. *)
Variable http : nat -> request -> http_result.

(** [requests.get] / [requests.post] *)
Definition send (r : request) : M response :=
  fun st =>
    let st' := mkState (flaresolverr_session st) (self st)
                       (S (requests_made st)) (fetches_made st)
                       (trace st ++ [EvRequest r]) in
    match http (requests_made st) r with
    | NetTimeout => (Raise Timeout, st')
    | NetFailure => (Raise ConnectionError, st')
    | Response c b => (Ret (mkResponse c b), st')
    end.

Definition IsFlareSolverrRunning (port : port_t) : M bool :=
  try_except
    (response <- send (GET ("http://localhost:" ++ port_str port ++ "/") 5) ;;
     ret (status_code response =? 200))
    (fun _ => Some (ret false)).

Definition CreateSession (port : port_t) : M json :=
  cached <- get_session ;;
  if Json.truthy cached then ret cached
  else
    let apiURL := GetFlareSolverrURL port in
    try_except
      (response <- send (POST apiURL (JObj [("cmd", JStr "sessions.create")]) 30) ;;
       raise_for_status response ;;
       data <- response_json response ;;
       status <- dict_get data "status" JNull ;;
       if Json.eq_str status "ok" then
         session <- dict_get data "session" JNull ;;
         set_session session ;;
         log INFO "FlareSolverr session created: {_flaresolverr_session}" ;;
         get_session
       else
         _ <- dict_get data "message" JNull ;;
         log WARNING "Failed to create FlareSolverr session: {data.get('message')}" ;;
         ret JNull)
      (fun _ =>
         Some (log WARNING "Failed to create FlareSolverr session: {e}" ;;
               ret JNull)).

Definition DestroySession (port : port_t) : M unit :=
  cached <- get_session ;;
  if negb (Json.truthy cached) then ret tt
  else
    let apiURL := GetFlareSolverrURL port in
    try_except
      (_ <- send (POST apiURL
                    (JObj [("cmd", JStr "sessions.destroy"); ("session", cached)])
                    10) ;;
       log INFO "FlareSolverr session destroyed: {_flaresolverr_session}")
      (fun _ => Some (ret tt)) ;;
    set_session JNull.

Section Solve.

Variables (url : string) (port : port_t) (maxTimeout maxRetries : Z).

(** The body of the [try] of one attempt.  [inl v]: the function returns
    [v]; [inr s]: the loop goes on with [s] as the local [session]. *)
Definition attempt_try (attempt : Z) (session : json) : M (json + json) :=
  response <- send (POST (GetFlareSolverrURL port)
                         (requestData url maxTimeout session)
                         (transport_timeout maxTimeout)) ;;
  raise_for_status response ;;
  data <- response_json response ;;
  status <- dict_get data "status" JNull ;;
  if Json.eq_str status "ok" then
    solution <- dict_get data "solution" (JObj []) ;;
    content <- dict_get solution "response" JNull ;;
    ret (inl content)
  else
    errorMsg <- dict_get data "message" (JStr "Unknown error") ;;
    log WARNING "FlareSolverr error (attempt {attempt + 1}/{maxRetries}): {errorMsg}" ;;
    lowered <- str_lower errorMsg ;;
    if Py.contains "session" lowered then
      set_session JNull ;;
      session' <- CreateSession port ;;
      ret (inr session')
    else ret (inr session).

(** The two [except] clauses of an attempt. *)
Definition attempt_except (attempt : Z) (session : json) (e : exn)
  : option (M (json + json)) :=
  Some (log WARNING
          (match e with
           | Timeout =>
               "FlareSolverr timeout (attempt {attempt + 1}/{maxRetries}) for {url}"
           | _ =>
               "FlareSolverr request failed (attempt {attempt + 1}/{maxRetries}): {e}"
           end) ;;
        (if attempt <? maxRetries - 1 then sleep 2 else ret tt) ;;
        ret (inr session)).

(** One round of the loop: the [try] statement. *)
Definition one_attempt (attempt : Z) (session : json) : M (json + json) :=
  try_except (attempt_try attempt session) (attempt_except attempt session).

(** The iterations [attempt], [attempt + 1], ... of the [for] loop, [n] of
    them, and what follows the loop. *)
Fixpoint attempts (n : nat) (attempt : Z) (session : json) : M json :=
  match n with
  | O =>
      log ERROR "FlareSolverr failed after {maxRetries} attempts for {url}" ;;
      ret JNull
  | S n' =>
      r <- one_attempt attempt session ;;
      match r with
      | inl v => ret v
      | inr session' => attempts n' (attempt + 1) session'
      end
  end.

(** [SolveChallenge(url, port, maxTimeout, maxRetries)]; the result
    [JNull] is Python's [None]. *)
Definition SolveChallenge : M json :=
  session <- CreateSession port ;;
  attempts (Z.to_nat maxRetries) 0 session.

End Solve.

End Network.

End FlareSolverr.

(* ================================================================== *)
(** ** fiction_dl/Extractors/ExtractorFFNet.py *)

(** The collaborators of the extractor that live outside the two files:
    the network, the generic web session, the HTML parser, the
    configuration, the clock and a few text utilities. *)
Record environment : Type := mkEnv {
  http : nat -> request -> http_result;
  (* the n-th call of self._webSession.GetSoup(url, parserName) *)
  webSession_GetSoup : nat -> string -> string -> option Soup;
  (* BeautifulSoup(markup, parserName) *)
  BeautifulSoup : json -> string -> result Soup;
  (* Configuration.FlareSolverrPort *)
  FlareSolverrPort : FlareSolverr.port_t;
  GetCurrentDate : string;
  (* datetime.now().year *)
  current_year : Z;
  (* the local time zone of datetime.fromtimestamp *)
  utcoffset : Z -> Z;
  StripHTML : string -> string;
  Stringify : string -> string;
  GetSiteURL : string -> string;
  _GetNormalizedStoryURL : string -> string
}.

Module ExtractorFFNet.

Import Re.

(** [m.group(i)]; every group of the patterns below takes part in a
    match. *)
Definition group_str (i : nat) (g : groups) : string :=
  match group i g with
  | Some s => s
  | None => EmptyString
  end.

Definition newline : ascii := "010"%char.

(** ["Chapters: (\d+)"] *)
Definition re_chapters : re := seq [lit "Chapters: "; Grp 1 (plus digit)].

(** ["Words: ([\d,]+)"] *)
Definition re_words : re :=
  seq [lit "Words: ";
       Grp 1 (plus (Cls (fun c => Py.is_digit c || Ascii.eqb c ",")))].

(** ["/s/(\d+)/"] *)
Definition re_story_id_slash : re :=
  seq [lit "/s/"; Grp 1 (plus digit); chr "/"].

(** ["/s/(\d+)"] *)
Definition re_story_id : re := seq [lit "/s/"; Grp 1 (plus digit)].

(** ["/community/([a-zA-Z0-9-]+)/(\d+)"] *)
Definition re_community : re :=
  seq [lit "/community/";
       Grp 1 (plus (Cls (fun c => Py.is_alpha c || Py.is_digit c
                                  || Ascii.eqb c "-")));
       chr "/";
       Grp 2 (plus digit)].

(** The title pattern: [\d+\. ] and then a group of any characters but a
    newline. *)
Definition re_chapter_title : re :=
  seq [plus digit; lit ". ";
       Grp 1 (Star (Cls (fun c => negb (Ascii.eqb c newline))))].

(** The three patterns of [_ExtractDateFromText]; [dateType] is one of
    the plain words "Published" and "Updated". *)
Definition date_patterns (dateType : string) : list re :=
  let alpha := Cls Py.is_alpha in
  [ (* {dateType}:\s*([\d]+/[\d]+(?:/[\d]+)?) *)
    seq [lit dateType; chr ":"; Star space;
         Grp 1 (seq [plus digit; chr "/"; plus digit;
                     opt (Seq (chr "/") (plus digit))])];
    (* {dateType}:\s*([A-Za-z]{3}\s+\d{1,2},?\s+\d{4}) *)
    seq [lit dateType; chr ":"; Star space;
         Grp 1 (seq [alpha; alpha; alpha; plus space;
                     digit; opt digit; opt (chr ","); plus space;
                     digit; digit; digit; digit])];
    (* {dateType}:\s*(\d{4}-\d{2}-\d{2}) *)
    seq [lit dateType; chr ":"; Star space;
         Grp 1 (seq [digit; digit; digit; digit; chr "-";
                     digit; digit; chr "-"; digit; digit])] ].

Definition formats : list string :=
  ["%m/%d/%Y"; "%m/%d/%y"; "%m/%d";
   "%b %d, %Y"; "%b %d %Y"; "%B %d, %Y"; "%B %d %Y";
   "%Y-%m-%d"; "%d %b %Y"; "%d %B %Y"].

(** [isinstance(e, (ValueError, OSError))]: the [requests] exceptions
    derive from [OSError], [JSONDecodeError] from [ValueError]. *)
Definition is_ValueError_or_OSError (e : exn) : bool :=
  match e with
  | ValueError | JSONDecodeError | Timeout | ConnectionError | HTTPError => true
  | _ => false
  end.

Section Extractor.

Variable E : environment.

Definition __init__ : extractor :=
  mkExtractor
    (match FlareSolverrPort E with Some _ => true | None => false end)
    false false "html5lib" [] None.

(** *** Static helpers *)

Definition _GetStoryID (URL : string) : option string :=
  if (URL =? "")%string then None
  else option_map (group_str 1) (search re_story_id_slash URL).

Definition _TimestampToDate (timestamp : string) : result (option string) :=
  if (timestamp =? "")%string then Ret None
  else
    match Py.int timestamp with
    | None => Ret None
    | Some ts =>
        match Dates.fromtimestamp (utcoffset E) ts with
        | Ret d => Ret (Some (Dates.strftime d))
        | Raise e => if is_ValueError_or_OSError e then Ret None else Raise e
        end
    end.

(** The [for fmt in formats] loop of [_ParseDateString]. *)
Fixpoint parse_with (dateStr : string) (fmts : list string) : option string :=
  match fmts with
  | [] => None
  | fmt :: rest =>
      match Dates.strptime dateStr fmt with
      | Some parsed =>
          match (if (fmt =? "%m/%d")%string
                 then Dates.replace_year parsed (current_year E)
                 else Some parsed) with
          | Some parsed' => Some (Dates.strftime parsed')
          | None => parse_with dateStr rest
          end
      | None => parse_with dateStr rest
      end
  end.

Definition _ParseDateString (dateStr : string) : option string :=
  if (dateStr =? "")%string then None
  else parse_with (Py.strip dateStr) formats.

(** The [for pattern in patterns] loop of [_ExtractDateFromText]. *)
Fixpoint extract_with (text : string) (patterns : list re) : option string :=
  match patterns with
  | [] => None
  | pattern :: rest =>
      match search pattern text with
      | Some g =>
          let parsed := _ParseDateString (group_str 1 g) in
          if Py.truthy_str parsed then parsed else extract_with text rest
      | None => extract_with text rest
      end
  end.

Definition _ExtractDateFromText (text dateType : string) : option string :=
  if (text =? "")%string then None
  else extract_with text (date_patterns dateType).

(** The two places of [_InternallyScanStory] that turn a time stamp into
    a date, "or fall back to text parsing": a non-empty time stamp is
    converted, and without one the date is looked for in [text]. *)
Definition resolve_date (timestamp : option string) (text dateType : string)
  : result (option string) :=
  match timestamp with
  | Some (String c t) => _TimestampToDate (String c t)
  | _ => Ret (_ExtractDateFromText text dateType)
  end.

(** *** Fetching *)

(** [self._webSession.GetSoup(url, parserName)] *)
Definition webSession_fetch (url parserName : string) : M (option Soup) :=
  fun st =>
    (Ret (webSession_GetSoup E (fetches_made st) url parserName),
     mkState (flaresolverr_session st) (self st) (requests_made st)
             (S (fetches_made st))
             (trace st ++ [EvWebSession url parserName])).

Definition _CheckFlareSolverr : M bool :=
  this <- get_self ;;
  if _flareSolverrChecked this then ret (_flareSolverrAvailable this)
  else
    set_self (mkExtractor (_useFlareSolverr this) true
                (_flareSolverrAvailable this) (_chapterParserName this)
                (_chapterURLs this) (Story this)) ;;
    if negb (_useFlareSolverr this) then
      print "" ;;
      print "! WARNING: FlareSolverr is not configured." ;;
      print "  FFN and FictionPress use Cloudflare protection and downloads will likely fail." ;;
      print "  To fix this, run FlareSolverr via Docker:" ;;
      print "    docker run -d -p 8191:8191 ghcr.io/flaresolverr/flaresolverr:latest" ;;
      print "" ;;
      this <- get_self ;;
      set_self (mkExtractor (_useFlareSolverr this) (_flareSolverrChecked this)
                  false (_chapterParserName this)
                  (_chapterURLs this) (Story this)) ;;
      ret false
    else
      available <- FlareSolverr.IsFlareSolverrRunning (http E) (FlareSolverrPort E) ;;
      this <- get_self ;;
      set_self (mkExtractor (_useFlareSolverr this) (_flareSolverrChecked this)
                  available (_chapterParserName this)
                  (_chapterURLs this) (Story this)) ;;
      (if negb available then
         print "" ;;
         print "! WARNING: FlareSolverr is not responding on port {Configuration.FlareSolverrPort}." ;;
         print "  FFN and FictionPress use Cloudflare protection and downloads will likely fail." ;;
         print "  Make sure FlareSolverr is running:" ;;
         print "    docker run -d -p 8191:8191 ghcr.io/flaresolverr/flaresolverr:latest" ;;
         print ""
       else ret tt) ;;
      ret available.

Definition _GetSoup (url parserName : string) : M (option Soup) :=
  emit (EvGetSoup url parserName) ;;
  this <- get_self ;;
  if _useFlareSolverr this then
    html <- FlareSolverr.SolveChallenge (http E) url (FlareSolverrPort E) 60000 3 ;;
    if Json.truthy html then
      soup <- lift (BeautifulSoup E html parserName) ;;
      ret (Some soup)
    else
      log WARNING "FlareSolverr failed for {url}, falling back to cloudscraper" ;;
      webSession_fetch url parserName
  else webSession_fetch url parserName.

(** *** Scanning a story *)

(** [self.Story.Metadata.<field> = ...] *)
Definition set_metadata (f : Metadata -> Metadata) : M unit :=
  this <- get_self ;;
  story <- or_raise AttributeError (Story this) ;;
  set_self (mkExtractor (_useFlareSolverr this) (_flareSolverrChecked this)
              (_flareSolverrAvailable this) (_chapterParserName this)
              (_chapterURLs this) (Some (f story))).

Definition get_metadata : M Metadata :=
  this <- get_self ;;
  or_raise AttributeError (Story this).

(** [self._chapterURLs.append(u)] *)
Definition append_chapterURL (u : string) : M unit :=
  this <- get_self ;;
  set_self (mkExtractor (_useFlareSolverr this) (_flareSolverrChecked this)
              (_flareSolverrAvailable this) (_chapterParserName this)
              (_chapterURLs this ++ [u]) (Story this)).

Fixpoint append_chapterURLs (baseURL storyID : string) (indices : list Z)
  : M unit :=
  match indices with
  | [] => ret tt
  | index :: rest =>
      append_chapterURL (baseURL ++ "/s/" ++ storyID ++ "/" ++ Py.str index ++ "/") ;;
      append_chapterURLs baseURL storyID rest
  end.

(** The time stamps picked among the [data-xutime] values:
    [(datePublishedTimestamp, dateUpdatedTimestamp)]. *)
Definition pick_timestamps (dateSpans : list string)
  : option string * option string :=
  if (2 <=? List.length dateSpans)%nat then
    (Py.getitem dateSpans (-1), Py.getitem dateSpans (-2))
  else if (List.length dateSpans =? 1)%nat then
    (Py.getitem dateSpans (-1), None)
  else (None, None).

Definition _InternallyScanStory (url : string) (soup : Soup) : M bool :=
  match profile_top soup with
  | None => log ERROR "Header element not found." ;; ret false
  | Some headerElement =>
      let headerLines :=
        Py.split newline (Py.replace "Follow/Fav" "" (header_text headerElement)) in
      line3 <- or_raise IndexError (Py.getitem headerLines 3) ;;
      let chapterCount := search re_chapters line3 in
      match search re_words line3 with
      | None => log ERROR "Word count field not found in header." ;; ret false
      | Some words =>
          let '(datePublishedTimestamp, dateUpdatedTimestamp) :=
            pick_timestamps (header_xutime headerElement) in
          datePublished <-
            lift (resolve_date datePublishedTimestamp line3 "Published") ;;
          datePublished <-
            match datePublished with
            | Some (String c d) => ret (String c d)
            | _ =>
                log WARNING "Date published not found, using current date." ;;
                ret (GetCurrentDate E)
            end ;;
          dateUpdated <-
            lift (resolve_date dateUpdatedTimestamp line3 "Updated") ;;
          line0 <- or_raise IndexError (Py.getitem headerLines 0) ;;
          set_metadata (fun m =>
            mkMetadata (URL m) (Py.strip line0) (Author m) (Summary m)
              (DatePublished m) (DateUpdated m) (ChapterCount m) (WordCount m)) ;;
          line1 <- or_raise IndexError (Py.getitem headerLines 1) ;;
          set_metadata (fun m =>
            mkMetadata (URL m) (Title m) (Py.strip (Py.drop 4 line1)) (Summary m)
              (DatePublished m) (DateUpdated m) (ChapterCount m) (WordCount m)) ;;
          line2 <- or_raise IndexError (Py.getitem headerLines 2) ;;
          set_metadata (fun m =>
            mkMetadata (URL m) (Title m) (Author m) (Py.strip (StripHTML E line2))
              (DatePublished m) (DateUpdated m) (ChapterCount m) (WordCount m)) ;;
          set_metadata (fun m =>
            mkMetadata (URL m) (Title m) (Author m) (Summary m)
              datePublished (DateUpdated m) (ChapterCount m) (WordCount m)) ;;
          set_metadata (fun m =>
            mkMetadata (URL m) (Title m) (Author m) (Summary m)
              (DatePublished m)
              (match dateUpdated with
               | Some (String c d) => String c d
               | _ => datePublished
               end)
              (ChapterCount m) (WordCount m)) ;;
          count <-
            match chapterCount with
            | Some g => or_raise ValueError (Py.int (group_str 1 g))
            | None => ret 1
            end ;;
          set_metadata (fun m =>
            mkMetadata (URL m) (Title m) (Author m) (Summary m)
              (DatePublished m) (DateUpdated m) count (WordCount m)) ;;
          wordCount <- or_raise ValueError
                         (Py.int (Py.replace "," "" (group_str 1 words))) ;;
          set_metadata (fun m =>
            mkMetadata (URL m) (Title m) (Author m) (Summary m)
              (DatePublished m) (DateUpdated m) (ChapterCount m) wordCount) ;;
          story <- get_metadata ;;
          match _GetStoryID (URL story) with
          | None => log ERROR "Failed to retrieve story ID from URL." ;; ret false
          | Some storyID =>
              let baseURL := GetSiteURL E (URL story) in
              append_chapterURLs baseURL storyID (Py.range 1 (ChapterCount story + 1)) ;;
              ret true
          end
      end
  end.

Definition ScanStory : M bool :=
  this <- get_self ;;
  match Story this with
  | None => log ERROR "The extractor isn't initialized." ;; ret false
  | Some story =>
      _CheckFlareSolverr ;;
      let normalizedURL := _GetNormalizedStoryURL E (URL story) in
      soup <- _GetSoup normalizedURL (_chapterParserName this) ;;
      match soup with
      | None => log ERROR "Failed to download tag soup: {normalizedURL}." ;; ret false
      | Some soup => _InternallyScanStory normalizedURL soup
      end
  end.

(** *** Extracting a chapter *)

Definition _InternallyExtractChapter (url : string) (soup : Soup)
  : M (option Chapter) :=
  let title := option_map Py.strip (selected_option soup) in
  let title :=
    match title with
    | Some (String c t) =>
        match search re_chapter_title (String c t) with
        | Some g => Some (group_str 1 g)
        | None => title
        end
    | _ => title
    end in
  match storytext soup with
  | None => log ERROR "Story text element not found." ;; ret None
  | Some contents => ret (Some (mkChapter title (Stringify E contents)))
  end.

Definition ExtractChapter (index : Z) : M (option Chapter) :=
  this <- get_self ;;
  if index >? Z.of_nat (List.length (_chapterURLs this)) then
    _ <- get_metadata ;;
    log ERROR "Trying to extract chapter {index}. Only {len(self._chapterURLs)} chapter(s) located. The story supposedly has {self.Story.Metadata.ChapterCount} chapter(s)." ;;
    ret None
  else
    chapterURL <- or_raise IndexError (Py.getitem (_chapterURLs this) (index - 1)) ;;
    soup <- _GetSoup chapterURL (_chapterParserName this) ;;
    match soup with
    | None => log ERROR "Failed to download tag soup: {chapterURL}." ;; ret None
    | Some soup => _InternallyExtractChapter chapterURL soup
    end.

(** *** Scanning a collection *)

(** The loop over [soup.select("center > a")]: the [href] of the first
    link whose text is "Last"; [KeyError] when that link has no [href]. *)
Fixpoint find_last_link (candidates : list Anchor) : result (option string) :=
  match candidates with
  | [] => Ret None
  | elementCandidate :: rest =>
      if (Py.strip (anchor_text elementCandidate) =? "Last")%string then
        match anchor_href elementCandidate with
        | Some href => Ret (Some href)
        | None => Raise KeyError
        end
      else find_last_link rest
  end.

(** The page index read in the link to the last page: the sixth part from
    the end, when the link has more than eight parts. *)
Definition last_page_index (lastPageRelativeURL : option string) : result Z :=
  match lastPageRelativeURL with
  | Some (String c u) =>
      let lastPageURLParts := Py.split "/" (String c u) in
      if (8 <? List.length lastPageURLParts)%nat then
        match Py.getitem lastPageURLParts (-6) with
        | Some part =>
            match Py.int part with
            | Some n => Ret n
            | None => Raise ValueError
            end
        | None => Raise IndexError
        end
      else Ret 1
  | _ => Ret 1
  end.

(** The loop over [soup.select("div.z-list")]. *)
Fixpoint scan_listing (elements : list (option Anchor)) (storyIDs : list string)
  : M (list string) :=
  match elements with
  | [] => ret storyIDs
  | element :: rest =>
      match element with
      | Some (mkAnchor _ (Some href)) =>
          match search re_story_id href with
          | Some g => scan_listing rest (storyIDs ++ [group_str 1 g])
          | None =>
              log ERROR "Failed to retrieve story ID from its URL." ;;
              scan_listing rest storyIDs
          end
      | _ =>
          log ERROR "Failed to retrieve story URL." ;;
          scan_listing rest storyIDs
      end
  end.

Definition page_url (collectionURL : string) (pageIndex : Z) : string :=
  collectionURL ++ "/99/0/" ++ Py.str pageIndex ++ "/0/0/0/0/".

(** The loop over [range(1, lastPageIndex + 1)]; [None] is the early
    [return None]. *)
Fixpoint scan_pages (collectionURL : string) (pages : list Z)
    (storyIDs : list string) : M (option (list string)) :=
  match pages with
  | [] => ret (Some storyIDs)
  | pageIndex :: rest =>
      let pageURL := page_url collectionURL pageIndex in
      soup <- _GetSoup pageURL "html.parser" ;;
      match soup with
      | None => log ERROR "Failed to download page: {pageURL}." ;; ret None
      | Some soup =>
          storyIDs' <- scan_listing (z_list soup) storyIDs ;;
          scan_pages collectionURL rest storyIDs'
      end
  end.

Definition _ScanCollection (URL : string) : M (option (list string)) :=
  match search re_community URL with
  | None => log ERROR "Failed to retrieve collection name/ID." ;; ret None
  | Some g =>
      let collectionName := group_str 1 g in
      let collectionID := group_str 2 g in
      let siteURL := GetSiteURL E URL in
      let collectionURL :=
        siteURL ++ "/community/" ++ collectionName ++ "/" ++ collectionID in
      let normalizedURL := collectionURL ++ "/99/0/1/0/0/0/0/" in
      soup <- _GetSoup normalizedURL "html.parser" ;;
      match soup with
      | None => log ERROR "Failed to download page: {normalizedURL}." ;; ret None
      | Some soup =>
          lastPageRelativeURL <- lift (find_last_link (center_links soup)) ;;
          lastPageIndex <- lift (last_page_index lastPageRelativeURL) ;;
          storyIDs <- scan_pages collectionURL (Py.range 1 (lastPageIndex + 1)) [] ;;
          match storyIDs with
          | None => ret None
          | Some storyIDs =>
              ret (Some (map (fun ID => siteURL ++ "/s/" ++ ID ++ "/") storyIDs))
          end
      end
  end.

(** *** Reformatting a date *)

Definition _ReformatDate (date : string) : option string :=
  if (date =? "")%string then None
  else
    match _ParseDateString date with
    | Some (String c r) => Some (String c r)
    | _ => Some (GetCurrentDate E)
    end.

(** *** Scanning a channel *)

Definition GetSupportedHostnames : list string :=
  ["fanfiction.net"; "fictionpress.com"].

(** ["/u/(\d+)"] *)
Definition re_user_id : re := seq [lit "/u/"; Grp 1 (plus digit)].

Section Channel.

(** [GetHostname] of dreamy_utilities, and what the author page gives for
    [find_all("div", {"class": "mystories"})]: for each element, its
    [find("a", {"class": "stitle"})]. *)
Variable GetHostname : string -> string.
Variable mystories : Soup -> list (option Anchor).

Definition ScanChannel (URL : string) : M (option (list string)) :=
  if (URL =? "")%string
     || negb (existsb (String.eqb (GetHostname URL)) GetSupportedHostnames)
  then ret None
  else if Py.contains "/community/" URL then _ScanCollection URL
  else
    match search re_user_id URL with
    | None => ret None
    | Some g =>
        let userID := group_str 1 g in
        let siteURL := GetSiteURL E URL in
        let normalizedURL := siteURL ++ "/u/" ++ userID ++ "/" in
        pageSoup <- _GetSoup normalizedURL "html.parser" ;;
        match pageSoup with
        | None => ret None
        | Some pageSoup =>
            storyIDs <- scan_listing (mystories pageSoup) [] ;;
            ret (Some (map (fun ID => siteURL ++ "/s/" ++ ID ++ "/") storyIDs))
        end
    end.

End Channel.

End Extractor.

End ExtractorFFNet.

(* ================================================================== *)
(** ** Observing a run *)

(** The events a run from [st] to [st'] added to the trace. *)
Definition new_events (st st' : state) : list event :=
  skipn (List.length (trace st)) (trace st').

(** Events other than log records. *)
Definition loud (e : event) : bool :=
  match e with
  | EvLog _ _ => false
  | _ => true
  end.

(** The transport timeouts of the solve requests ([cmd] = request.get). *)
Fixpoint solve_timeouts (evs : list event) : list Z :=
  match evs with
  | [] => []
  | EvRequest (POST _ (JObj (("cmd", JStr "request.get") :: _)) t) :: evs' =>
      t :: solve_timeouts evs'
  | _ :: evs' => solve_timeouts evs'
  end.

(** The requests, of any kind, sent through [requests]. *)
Fixpoint requests_sent (evs : list event) : list request :=
  match evs with
  | [] => []
  | EvRequest r :: evs' => r :: requests_sent evs'
  | _ :: evs' => requests_sent evs'
  end.

(** The durations of the calls of [time.sleep]. *)
Fixpoint sleeps (evs : list event) : list Z :=
  match evs with
  | [] => []
  | EvSleep n :: evs' => n :: sleeps evs'
  | _ :: evs' => sleeps evs'
  end.

(** The URLs [_GetSoup] was called with. *)
Fixpoint getsoup_urls (evs : list event) : list string :=
  match evs with
  | [] => []
  | EvGetSoup u _ :: evs' => u :: getsoup_urls evs'
  | _ :: evs' => getsoup_urls evs'
  end.

(** The liveness probe succeeds on a response with status 200 only. *)
Definition probe_ok (r : http_result) : bool :=
  match r with
  | Response c _ => c =? 200
  | _ => false
  end.

(** The failure modes of a request: the call times out or fails, the
    status is an error status, or the body is not JSON. *)
Definition failure_mode (r : http_result) : bool :=
  match r with
  | NetTimeout | NetFailure => true
  | Response c (Some _) => (400 <=? c) && (c <? 600)
  | Response c None => true
  end.

(** The session a fresh [sessions.create] request yields: the [session]
    field of an "ok" answer, [None] in every other case. *)
Definition created_session (r : http_result) : json :=
  match r with
  | Response c (Some (JObj d)) =>
      if (400 <=? c) && (c <? 600) then JNull
      else if Json.eq_str (Json.get "status" d JNull) "ok"
           then Json.get "session" d JNull
           else JNull
  | _ => JNull
  end.

Definition create_request (port : FlareSolverr.port_t) : request :=
  POST (FlareSolverr.GetFlareSolverrURL port)
       (JObj [("cmd", JStr "sessions.create")]) 30.

Definition solve_request (url : string) (port : FlareSolverr.port_t)
    (maxTimeout : Z) (session : json) : request :=
  POST (FlareSolverr.GetFlareSolverrURL port)
       (FlareSolverr.requestData url maxTimeout session)
       (FlareSolverr.transport_timeout maxTimeout).

(** A network on which every call times out. *)
Definition always_timeout : nat -> request -> http_result :=
  fun _ _ => NetTimeout.

(* ================================================================== *)
(** ** A small program logic for [M] *)

(** [m] never lets an exception escape. *)
Definition no_raise {A} (m : M A) : Prop :=
  forall st, exists a, fst (m st) = Ret a.

(** Whatever its outcome, [m] only appends events that satisfy [P] to the
    trace, and leaves the extractor object and the fetch counter alone. *)
Definition quiet {A} (P : event -> Prop) (m : M A) : Prop :=
  forall st,
    (exists evs, trace (snd (m st)) = (trace st ++ evs)%list /\ Forall P evs) /\
    self (snd (m st)) = self st /\
    fetches_made (snd (m st)) = fetches_made st.

(** Whatever its outcome, [m] only appends events that satisfy [P] to the
    trace. *)
Definition emits {A} (P : event -> Prop) (m : M A) : Prop :=
  forall st,
    exists evs, trace (snd (m st)) = (trace st ++ evs)%list /\ Forall P evs.

(** Events other than a call of [_GetSoup]. *)
Definition not_getsoup (e : event) : Prop :=
  match e with
  | EvGetSoup _ _ => False
  | _ => True
  end.

(** [m] appends [e] to the trace before anything else. *)
Definition starts_with {A} (e : event) (m : M A) : Prop :=
  forall st, exists evs, trace (snd (m st)) = (trace st ++ e :: evs)%list.

Definition any_event : event -> Prop := fun _ => True.

(** A state in which nothing has happened yet: no session is cached and
    the extractor was built with a configured port. *)
Definition idle : state :=
  mkState JNull (mkExtractor true false false "html5lib" [] None) 0 0 [].

(** A network on which a cached session turns out to be stale: a session
    is handed out, the first solve request is refused with a session
    error, a second session is handed out, and the next solve request
    succeeds. *)
Definition http_stale_session : nat -> request -> http_result :=
  fun n _ =>
    match n with
    | 0%nat =>
        Response 200 (Some (JObj [("status", JStr "ok"); ("session", JStr "s0")]))
    | 1%nat =>
        Response 200
          (Some (JObj [("status", JStr "error");
                       ("message", JStr "Error: This Session does not exist.")]))
    | 2%nat =>
        Response 200 (Some (JObj [("status", JStr "ok"); ("session", JStr "s1")]))
    | _ =>
        Response 200
          (Some (JObj [("status", JStr "ok");
                       ("solution", JObj [("response", JStr "<html></html>")])]))
    end.

Definition empty_soup : Soup := mkSoup None [] [] None None.

(** A site whose solving service never answers and whose pages are empty,
    seen from a machine on UTC in 2026. *)
Definition quiet_site : environment :=
  mkEnv always_timeout (fun _ _ _ => Some empty_soup)
        (fun _ _ => Ret empty_soup) (Some 8191) "2026-11-04" 2026
        (fun _ => 0) (fun s => s) (fun s => s)
        (fun _ => "https://www.fanfiction.net") (fun s => s).

(** No character of [s] is white space. *)
Fixpoint no_space (s : string) : bool :=
  match s with
  | EmptyString => true
  | String c s' => negb (Py.is_space c) && no_space s'
  end.

(** The extractor as [__init__] leaves it when no port is configured, with
    a story to work on. *)
Definition plain : state :=
  mkState JNull
    (mkExtractor false false false "html5lib" []
       (Some (mkMetadata "https://www.fanfiction.net/s/12345/1/Title"
                "" "" "" "" "" 0 0)))
    0 0 [].

(** A state in which two chapter URLs have been located. *)
Definition two_chapters : state :=
  mkState JNull
    (mkExtractor false true false "html5lib"
       ["https://www.fanfiction.net/s/12345/1/";
        "https://www.fanfiction.net/s/12345/2/"]
       (Some (mkMetadata "https://www.fanfiction.net/s/12345/1/Title"
                "" "" "" "" "" 2 0)))
    0 0 [].

(** A collection whose pages all link to page 5 as the last one. *)
Definition paged_soup : Soup :=
  mkSoup None
    [mkAnchor "Next" (Some "/community/Foo/123/99/0/2/0/0/0/0/");
     mkAnchor "Last" (Some "/community/Foo/123/99/0/5/0/0/0/0/")]
    [] None None.

Definition paged_site : environment :=
  mkEnv always_timeout (fun _ _ _ => Some paged_soup)
        (fun _ _ => Ret empty_soup) None "2026-11-04" 2026
        (fun _ => 0) (fun s => s) (fun s => s)
        (fun _ => "https://www.fanfiction.net") (fun s => s).

(** The text of a story header: title, author, summary and the line of
    details. *)
Definition header_of (details : string) : string :=
  "Some Title" ++ String ExtractorFFNet.newline "By: Somebody"
  ++ String ExtractorFFNet.newline "A summary."
  ++ String ExtractorFFNet.newline details.

Definition story_page (details : string) (xutime : list string) : Soup :=
  mkSoup (Some (mkHeader (header_of details) xutime)) [] [] None None.


(* ================================================================== *)
(** ** What a match of a regular expression looks like *)

(** [captures r m g g']: the text [m] is a match of [r], and matching it
    turns the groups [g] into [g']. *)
Inductive captures : Re.re -> string -> Re.groups -> Re.groups -> Prop :=
| cap_eps g : captures Re.Eps EmptyString g g
| cap_cls p c g : p c = true -> captures (Re.Cls p) (String c EmptyString) g g
| cap_seq a b m1 m2 g g1 g2 :
    captures a m1 g g1 -> captures b m2 g1 g2 ->
    captures (Re.Seq a b) (m1 ++ m2) g g2
| cap_alt_l a b m g g1 : captures a m g g1 -> captures (Re.Alt a b) m g g1
| cap_alt_r a b m g g1 : captures b m g g1 -> captures (Re.Alt a b) m g g1
| cap_star_end a g : captures (Re.Star a) EmptyString g g
| cap_star_more a m1 m2 g g1 g2 :
    captures a m1 g g1 -> captures (Re.Star a) m2 g1 g2 ->
    captures (Re.Star a) (m1 ++ m2) g g2
| cap_grp i a m g g1 :
    captures a m g g1 -> captures (Re.Grp i a) m g ((i, m) :: g1).

(** Every character of [s] satisfies [p]. *)
Fixpoint all_chars (p : ascii -> bool) (s : string) : bool :=
  match s with
  | EmptyString => true
  | String c s' => p c && all_chars p s'
  end.

(** [s] is a suffix of [t]. *)
Fixpoint suffix_of (s t : string) : Prop :=
  s = t \/ match t with
           | EmptyString => False
           | String _ t' => suffix_of s t'
           end.

(** The story ids a listing yields: the entries without a link, without
    an [href] or without an id in it are passed over. *)
Fixpoint listing_ids (elements : list (option Anchor)) : list string :=
  match elements with
  | [] => []
  | Some (mkAnchor _ (Some href)) :: rest =>
      match Re.search ExtractorFFNet.re_story_id href with
      | Some g => ExtractorFFNet.group_str 1 g :: listing_ids rest
      | None => listing_ids rest
      end
  | _ :: rest => listing_ids rest
  end.

(** Events that are neither a solve request nor a delay. *)
Definition calm (e : event) : Prop :=
  solve_timeouts [e] = [] /\ sleeps [e] = [].

(** A listing of three entries: a story, an entry without [href], and a
    second story. *)
Definition listed_soup : Soup :=
  mkSoup None []
    [Some (mkAnchor "One" (Some "/s/111/1/One"));
     Some (mkAnchor "Nowhere" None);
     Some (mkAnchor "Two" (Some "/s/222/1/Two"))]
    None None.

Definition listed_site : environment :=
  mkEnv always_timeout (fun _ _ _ => Some listed_soup)
        (fun _ _ => Ret empty_soup) None "2026-11-04" 2026
        (fun _ => 0) (fun s => s) (fun s => s)
        (fun _ => "https://www.fanfiction.net") (fun s => s).

(** A site of which no page can be fetched. *)
Definition offline_site : environment :=
  mkEnv always_timeout (fun _ _ _ => None)
        (fun _ _ => Ret empty_soup) None "2026-11-04" 2026
        (fun _ => 0) (fun s => s) (fun s => s)
        (fun _ => "https://www.fanfiction.net") (fun s => s).

(** A collection of five pages, the third of which cannot be fetched. *)
Definition broken_site : environment :=
  mkEnv always_timeout
        (fun _ url _ =>
           if (url =? "https://www.fanfiction.net/community/Foo/123/99/0/3/0/0/0/0/")%string
           then None else Some paged_soup)
        (fun _ _ => Ret empty_soup) None "2026-11-04" 2026
        (fun _ => 0) (fun s => s) (fun s => s)
        (fun _ => "https://www.fanfiction.net") (fun s => s).

(** A site whose pages link to the last page without an [href]. *)
Definition unlinked_site : environment :=
  mkEnv always_timeout
        (fun _ _ _ => Some (mkSoup None [mkAnchor "Last" None] [] None None))
        (fun _ _ => Ret empty_soup) None "2026-11-04" 2026
        (fun _ => 0) (fun s => s) (fun s => s)
        (fun _ => "https://www.fanfiction.net") (fun s => s).
(* ================================================================== *)
(** ** Rules of the program logic *)

Section Rules.

Context {A B : Type}.

Lemma no_raise_ret (a : A) : no_raise (ret a).
Proof. intros st. exists a. reflexivity. Qed.

Lemma no_raise_bind (m : M A) (f : A -> M B) :
  no_raise m -> (forall a, no_raise (f a)) -> no_raise (bind m f).
Proof.
  intros Hm Hf st. unfold bind.
  destruct (Hm st) as [a Ha]. destruct (m st) as [r st1]. simpl in Ha. subst r.
  apply Hf.
Qed.

(** A [try] whose handler catches everything and does not raise itself
    does not raise, whatever its body does. *)
Lemma no_raise_try (body : M A) (handler : exn -> option (M A)) :
  (forall e, exists h, handler e = Some h /\ no_raise h) ->
  no_raise (try_except body handler).
Proof.
  intros Hh st. unfold try_except.
  destruct (body st) as [[a|e] st1].
  - exists a. reflexivity.
  - destruct (Hh e) as (h & -> & Hn). apply Hn.
Qed.

Lemma quiet_ret (P : event -> Prop) (a : A) : quiet P (ret a).
Proof.
  intros st. simpl. repeat split; auto.
  exists []. rewrite app_nil_r. auto.
Qed.

Lemma quiet_raise (P : event -> Prop) (e : exn) : quiet P (@raise A e).
Proof.
  intros st. simpl. repeat split; auto.
  exists []. rewrite app_nil_r. auto.
Qed.

Lemma quiet_step (P : event -> Prop) (st st1 st2 : state) :
  ((exists evs, trace st1 = (trace st ++ evs)%list /\ Forall P evs) /\
   self st1 = self st /\ fetches_made st1 = fetches_made st) ->
  ((exists evs, trace st2 = (trace st1 ++ evs)%list /\ Forall P evs) /\
   self st2 = self st1 /\ fetches_made st2 = fetches_made st1) ->
  (exists evs, trace st2 = (trace st ++ evs)%list /\ Forall P evs) /\
  self st2 = self st /\ fetches_made st2 = fetches_made st.
Proof.
  intros ((e1 & T1 & F1) & S1 & N1) ((e2 & T2 & F2) & S2 & N2).
  repeat split; try congruence.
  exists (e1 ++ e2)%list. split.
  - rewrite T2, T1, app_assoc. reflexivity.
  - apply Forall_app. auto.
Qed.

Lemma quiet_bind (P : event -> Prop) (m : M A) (f : A -> M B) :
  quiet P m -> (forall a, quiet P (f a)) -> quiet P (bind m f).
Proof.
  intros Hm Hf st. unfold bind.
  specialize (Hm st). destruct (m st) as [[a|e] st1]; simpl in *; auto.
  apply (quiet_step P st st1); auto. apply Hf.
Qed.

Lemma quiet_try (P : event -> Prop) (body : M A) (handler : exn -> option (M A)) :
  quiet P body ->
  (forall e h, handler e = Some h -> quiet P h) ->
  quiet P (try_except body handler).
Proof.
  intros Hb Hh st. unfold try_except.
  specialize (Hb st). destruct (body st) as [[a|e] st1]; simpl in *; auto.
  destruct (handler e) as [h|] eqn:He; simpl; auto.
  apply (quiet_step P st st1); auto. apply (Hh e h He).
Qed.

End Rules.

Lemma no_raise_emit (e : event) : no_raise (emit e).
Proof. intros st. exists tt. reflexivity. Qed.

Lemma no_raise_get_session : no_raise get_session.
Proof. intros st. eexists. reflexivity. Qed.

Lemma no_raise_set_session (v : json) : no_raise (set_session v).
Proof. intros st. exists tt. reflexivity. Qed.

Lemma quiet_emit (P : event -> Prop) (e : event) : P e -> quiet P (emit e).
Proof.
  intros He st. simpl. repeat split; auto.
  exists [e]. auto.
Qed.

Lemma quiet_get_session (P : event -> Prop) : quiet P get_session.
Proof.
  intros st. simpl. repeat split; auto.
  exists []. rewrite app_nil_r. auto.
Qed.

Lemma quiet_set_session (P : event -> Prop) (v : json) : quiet P (set_session v).
Proof.
  intros st. simpl. repeat split; auto.
  exists []. rewrite app_nil_r. auto.
Qed.

Lemma quiet_or_raise {A} (P : event -> Prop) (e : exn) (o : option A) :
  quiet P (or_raise e o).
Proof. destruct o; [apply quiet_ret | apply quiet_raise]. Qed.

Lemma quiet_lift {A} (P : event -> Prop) (r : result A) : quiet P (lift r).
Proof.
  intros st. simpl. repeat split; auto.
  exists []. rewrite app_nil_r. auto.
Qed.

Lemma quiet_send (P : event -> Prop) http (r : request) :
  P (EvRequest r) -> quiet P (FlareSolverr.send http r).
Proof.
  intros He st. unfold FlareSolverr.send.
  destruct (http (requests_made st) r); simpl; repeat split; auto;
    exists [EvRequest r]; auto.
Qed.

(** A weaker event predicate keeps a computation quiet. *)
Lemma quiet_weaken {A} (P Q : event -> Prop) (m : M A) :
  (forall e, P e -> Q e) -> quiet P m -> quiet Q m.
Proof.
  intros HPQ Hm st. destruct (Hm st) as ((evs & T & F) & S & N).
  repeat split; auto. exists evs. split; auto.
  eapply Forall_impl; eauto.
Qed.

Lemma any_event_I (e : event) : any_event e.
Proof. exact I. Qed.

Create HintDb total discriminated.
Create HintDb quiet discriminated.

#[local] Hint Resolve no_raise_ret no_raise_emit no_raise_get_session
  no_raise_set_session : total.
#[local] Hint Resolve quiet_ret quiet_raise quiet_emit quiet_get_session
  quiet_set_session quiet_or_raise quiet_lift quiet_send any_event_I : quiet.

(** Takes a computation apart along its binds, tests and handlers. *)
Ltac quiet_steps :=
  repeat first
    [ progress (unfold log, print, sleep, FlareSolverr.raise_for_status,
                FlareSolverr.response_json, FlareSolverr.dict_get,
                FlareSolverr.str_lower)
    | apply quiet_bind; [ | intros ? ]
    | apply quiet_try; [ | intros ? ? ?Hh; inversion Hh; subst; clear Hh ]
    | solve [ auto with quiet ]
    | match goal with
      | |- quiet _ (if ?b then _ else _) => destruct b
      | |- quiet _ (match ?x with _ => _ end) => destruct x
      end ].

Ltac total_steps :=
  repeat first
    [ progress (unfold log, print, sleep)
    | apply no_raise_bind; [ | intros ? ]
    | apply no_raise_try; intros ?; eexists; split; [ reflexivity | ]
    | solve [ auto with total ]
    | match goal with
      | |- no_raise (if ?b then _ else _) => destruct b
      | |- no_raise (match ?x with _ => _ end) => destruct x
      end ].

(* ================================================================== *)
(** ** The FlareSolverr client *)

Section Client.

Variable http : nat -> request -> http_result.

Lemma new_events_app (st st' : state) (evs : list event) :
  trace st' = (trace st ++ evs)%list -> new_events st st' = evs.
Proof.
  unfold new_events. intros ->.
  rewrite skipn_app, skipn_all, Nat.sub_diag. reflexivity.
Qed.

Lemma IsFlareSolverrRunning_no_raise port :
  no_raise (FlareSolverr.IsFlareSolverrRunning http port).
Proof. unfold FlareSolverr.IsFlareSolverrRunning. total_steps. Qed.

Lemma CreateSession_no_raise port :
  no_raise (FlareSolverr.CreateSession http port).
Proof. unfold FlareSolverr.CreateSession. total_steps. Qed.

Lemma DestroySession_no_raise port :
  no_raise (FlareSolverr.DestroySession http port).
Proof. unfold FlareSolverr.DestroySession. total_steps. Qed.

Lemma attempts_no_raise url port maxTimeout maxRetries n :
  forall attempt session,
    no_raise (FlareSolverr.attempts http url port maxTimeout maxRetries
                n attempt session).
Proof.
  induction n as [|n IH]; intros attempt session; simpl.
  - total_steps.
  - apply no_raise_bind.
    + apply no_raise_try. intros e. eexists. split; [reflexivity|].
      total_steps.
    + intros [v|s]; auto with total.
Qed.

Lemma SolveChallenge_no_raise url port maxTimeout maxRetries :
  no_raise (FlareSolverr.SolveChallenge http url port maxTimeout maxRetries).
Proof.
  unfold FlareSolverr.SolveChallenge.
  apply no_raise_bind.
  - apply CreateSession_no_raise.
  - intros s. apply attempts_no_raise.
Qed.

Section Quiet.

Variables (url : string) (port : FlareSolverr.port_t) (maxTimeout : Z).
Variable P : event -> Prop.
Hypothesis P_create : P (EvRequest (create_request port)).
Hypothesis P_solve :
  forall session, P (EvRequest (solve_request url port maxTimeout session)).
Hypothesis P_log : forall l m, P (EvLog l m).
Hypothesis P_sleep : forall n, P (EvSleep n).

Lemma CreateSession_quiet : quiet P (FlareSolverr.CreateSession http port).
Proof.
  unfold FlareSolverr.CreateSession. quiet_steps.
Qed.

Lemma attempts_quiet maxRetries n :
  forall attempt session,
    quiet P (FlareSolverr.attempts http url port maxTimeout maxRetries
               n attempt session).
Proof.
  induction n as [|n IH]; intros attempt session; simpl.
  - quiet_steps.
  - apply quiet_bind.
    + apply quiet_try.
      * unfold FlareSolverr.attempt_try. quiet_steps.
        apply quiet_send, P_solve.
      * intros e h Hh. unfold FlareSolverr.attempt_except in Hh.
        inversion Hh; subst; clear Hh. quiet_steps.
    + intros [v|s]; auto with quiet.
Qed.

Lemma SolveChallenge_quiet maxRetries :
  quiet P (FlareSolverr.SolveChallenge http url port maxTimeout maxRetries).
Proof.
  unfold FlareSolverr.SolveChallenge. apply quiet_bind.
  - apply CreateSession_quiet.
  - intros s. apply attempts_quiet.
Qed.

End Quiet.

End Client.

(** Runs the monadic plumbing of a goal. *)
Ltac run :=
  repeat (cbv beta iota zeta delta
            [bind ret raise try_except emit log print sleep get_session
             set_session get_self set_self or_raise lift
             FlareSolverr.send FlareSolverr.raise_for_status
             FlareSolverr.response_json FlareSolverr.dict_get
             FlareSolverr.str_lower];
          simpl).

Section ClientClaims.

Variable http : nat -> request -> http_result.
Variables (url : string) (port : FlareSolverr.port_t) (maxTimeout : Z).

(** What a first [sessions.create] does when no session is cached: one
    request, one log record, and the session of the answer as result. *)
Lemma CreateSession_fresh (st : state) :
  Json.truthy (flaresolverr_session st) = false ->
  let s := created_session (http (requests_made st) (create_request port)) in
  exists c l m,
    FlareSolverr.CreateSession http port st =
      (Ret s, mkState c (self st) (S (requests_made st)) (fetches_made st)
                (trace st ++ [EvRequest (create_request port); EvLog l m])) /\
    (c = s \/ (c = flaresolverr_session st /\ s = JNull)).
Proof.
  intros Hc. unfold FlareSolverr.CreateSession. run.
  rewrite Hc. fold (create_request port). run.
  destruct (http (requests_made st) (create_request port))
    as [| |c [[| | | | |items]|]];
    run; rewrite <- ?app_assoc; simpl; eauto 8;
    destruct ((400 <=? c) && (c <? 600)); run;
    rewrite <- ?app_assoc; simpl; eauto 8.
  destruct (Json.eq_str (Json.get "status" items JNull) "ok"); run;
    rewrite <- ?app_assoc; simpl; eauto 8.
Qed.

Lemma CreateSession_cached (st : state) :
  Json.truthy (flaresolverr_session st) = true ->
  FlareSolverr.CreateSession http port st = (Ret (flaresolverr_session st), st).
Proof.
  intros Hc. unfold FlareSolverr.CreateSession. run.
  rewrite Hc. reflexivity.
Qed.


Section Attempt.

Variables (maxRetries attempt : Z) (session : json) (st : state).

(** An attempt whose request times out: a log record, a delay unless the
    attempt is the last one, and the loop goes on with the same session. *)
Lemma attempt_timeout :
  http (requests_made st) (solve_request url port maxTimeout session) = NetTimeout ->
  FlareSolverr.one_attempt http url port maxTimeout maxRetries attempt session st =
    (Ret (inr session),
     mkState (flaresolverr_session st) (self st) (S (requests_made st))
       (fetches_made st)
       (trace st ++
        [EvRequest (solve_request url port maxTimeout session);
         EvLog WARNING
           "FlareSolverr timeout (attempt {attempt + 1}/{maxRetries}) for {url}"]
        ++ (if attempt <? maxRetries - 1 then [EvSleep 2] else []))).
Proof.
  intros H. unfold FlareSolverr.one_attempt, FlareSolverr.attempt_try,
    FlareSolverr.attempt_except, solve_request in *.
  run. rewrite H. run.
  destruct (attempt <? maxRetries - 1); run;
    rewrite <- ?app_assoc; simpl; rewrite ?app_nil_r; reflexivity.
Qed.

(** An attempt that meets a failure mode ends in one of the handlers. *)
Lemma attempt_failure :
  failure_mode (http (requests_made st) (solve_request url port maxTimeout session))
    = true ->
  exists st',
    FlareSolverr.one_attempt http url port maxTimeout maxRetries attempt session st
      = (Ret (inr session), st').
Proof.
  intros H. unfold FlareSolverr.one_attempt, FlareSolverr.attempt_try,
    FlareSolverr.attempt_except, solve_request in *.
  run.
  destruct (http _ _) as [| |c [d|]]; run;
    try (destruct (attempt <? maxRetries - 1); run; eauto; fail);
    simpl in H; destruct ((400 <=? c) && (c <? 600)); try discriminate; run;
    destruct (attempt <? maxRetries - 1); run; eauto.
Qed.


(** An attempt answered by "ok" returns the content of the answer. *)
Lemma attempt_success (c : Z) (d sol : list (string * json)) :
  http (requests_made st) (solve_request url port maxTimeout session)
    = Response c (Some (JObj d)) ->
  (400 <=? c) && (c <? 600) = false ->
  Json.eq_str (Json.get "status" d JNull) "ok" = true ->
  Json.get "solution" d (JObj []) = JObj sol ->
  FlareSolverr.one_attempt http url port maxTimeout maxRetries attempt session st =
    (Ret (inl (Json.get "response" sol JNull)),
     mkState (flaresolverr_session st) (self st) (S (requests_made st))
       (fetches_made st)
       (trace st ++ [EvRequest (solve_request url port maxTimeout session)])).
Proof.
  intros H Hc Hs Hsol.
  unfold FlareSolverr.one_attempt, FlareSolverr.attempt_try,
    FlareSolverr.attempt_except, solve_request in *.
  run. rewrite H. run. rewrite Hc. run. rewrite Hs, Hsol. reflexivity.
Qed.

End Attempt.

Lemma attempts_failing maxRetries :
  (forall n r, failure_mode (http n r) = true) ->
  forall n attempt session st,
    fst (FlareSolverr.attempts http url port maxTimeout maxRetries
           n attempt session st) = Ret JNull.
Proof.
  intros H. induction n as [|n IH]; intros attempt session st; simpl.
  - reflexivity.
  - destruct (attempt_failure maxRetries attempt session st (H _ _))
      as [st' Heq].
    unfold bind at 1. rewrite Heq. apply IH.
Qed.

End ClientClaims.

(* ================================================================== *)
(** ** Claims about the FlareSolverr client *)

Lemma solve_request_falsy url port maxTimeout (s : json) :
  Json.truthy s = false ->
  solve_request url port maxTimeout s = solve_request url port maxTimeout JNull.
Proof.
  intros Hs. unfold solve_request, FlareSolverr.requestData.
  rewrite Hs. reflexivity.
Qed.

(** C2. With [maxRetries = 3] and a network on which every call times
    out, [SolveChallenge] sends exactly three solve requests, sleeps two
    seconds after the first and after the second but not after the third,
    and returns [None].  (When no session is cached, the failed attempt to
    create one comes before the three solve requests.) *)
Theorem SolveChallenge_three_timeouts :
  forall http url port maxTimeout st,
    (forall n r, http n r = NetTimeout) ->
    let run := FlareSolverr.SolveChallenge http url port maxTimeout 3 st in
    let attempt :=
      EvRequest (solve_request url port maxTimeout (flaresolverr_session st)) in
    fst run = Ret JNull /\
    List.length (solve_timeouts (new_events st (snd run))) = 3%nat /\
    sleeps (new_events st (snd run)) = [2; 2] /\
    filter loud (new_events st (snd run)) =
      ((if Json.truthy (flaresolverr_session st) then []
        else [EvRequest (create_request port)])
       ++ [attempt; EvSleep 2; attempt; EvSleep 2; attempt])%list.
Proof.
  intros http url port maxTimeout st H run attempt.
  assert (Hrun : exists st' evs,
             run = (Ret JNull, st') /\
             trace st' = (trace st ++ evs)%list /\
             List.length (solve_timeouts evs) = 3%nat /\
             sleeps evs = [2; 2] /\
             filter loud evs =
               ((if Json.truthy (flaresolverr_session st) then []
                 else [EvRequest (create_request port)])
                ++ [attempt; EvSleep 2; attempt; EvSleep 2; attempt])%list).
  { subst run attempt. unfold FlareSolverr.SolveChallenge.
    destruct (Json.truthy (flaresolverr_session st)) eqn:Hc.
    - unfold bind at 1. rewrite (CreateSession_cached http port st Hc).
      simpl FlareSolverr.attempts.
      unfold bind at 1. rewrite attempt_timeout by apply H.
      unfold bind at 1. rewrite attempt_timeout by apply H.
      unfold bind at 1. rewrite attempt_timeout by apply H.
      run. rewrite <- ?app_assoc. simpl.
      eexists. eexists. split; [reflexivity|]. simpl.
      split; [reflexivity|]. simpl. auto.
    - unfold bind at 1.
      destruct (CreateSession_fresh http port st Hc) as (c & l & m & Heq & _).
      rewrite Heq, H. simpl created_session.
      rewrite (solve_request_falsy _ _ _ _ Hc).
      simpl FlareSolverr.attempts.
      unfold bind at 1. rewrite attempt_timeout by apply H.
      unfold bind at 1. rewrite attempt_timeout by apply H.
      unfold bind at 1. rewrite attempt_timeout by apply H.
      run. rewrite <- ?app_assoc. simpl.
      eexists. eexists. split; [reflexivity|]. simpl.
      split; [reflexivity|]. simpl. auto. }
  destruct Hrun as (st' & evs & -> & Ht & Hn & Hs & Hf). simpl.
  rewrite (new_events_app st _ evs Ht). auto.
Qed.

Lemma SolveChallenge_three_timeouts_witness :
  fst (FlareSolverr.SolveChallenge always_timeout
         "https://www.fanfiction.net/s/1/1/" (Some 8191) 60000 3 idle)
    = Ret JNull /\
  sleeps (new_events idle
            (snd (FlareSolverr.SolveChallenge always_timeout
                    "https://www.fanfiction.net/s/1/1/" (Some 8191) 60000 3 idle)))
    = [2; 2].
Proof.
  pose proof (SolveChallenge_three_timeouts always_timeout
                "https://www.fanfiction.net/s/1/1/" (Some 8191) 60000 idle
                (fun _ _ => eq_refl)) as H.
  split; apply H.
Defined.



(** *** The first event of a computation *)

Lemma starts_send http (r : request) :
  starts_with (EvRequest r) (FlareSolverr.send http r).
Proof.
  intros st. exists []. unfold FlareSolverr.send.
  destruct (http (requests_made st) r); reflexivity.
Qed.

Lemma starts_bind {A B} (e : event) (m : M A) (f : A -> M B) :
  starts_with e m -> (forall a, quiet any_event (f a)) ->
  starts_with e (bind m f).
Proof.
  intros Hm Hf st. unfold bind.
  destruct (Hm st) as [evs Hevs]. destruct (m st) as [[a|x] st1]; simpl in *.
  - destruct (Hf a st1) as ((evs' & T & _) & _).
    exists (evs ++ evs')%list. rewrite T, Hevs, <- app_assoc. reflexivity.
  - exists evs. exact Hevs.
Qed.

Lemma starts_try {A} (e : event) (body : M A) (handler : exn -> option (M A)) :
  starts_with e body ->
  (forall x h, handler x = Some h -> quiet any_event h) ->
  starts_with e (try_except body handler).
Proof.
  intros Hb Hh st. unfold try_except.
  destruct (Hb st) as [evs Hevs]. destruct (body st) as [[a|x] st1]; simpl in *.
  - exists evs. exact Hevs.
  - destruct (handler x) as [h|] eqn:Hx; simpl.
    + destruct (Hh x h Hx st1) as ((evs' & T & _) & _).
      exists (evs ++ evs')%list. rewrite T, Hevs, <- app_assoc. reflexivity.
    + exists evs. exact Hevs.
Qed.

Lemma solve_timeouts_app (a b : list event) :
  solve_timeouts (a ++ b) = (solve_timeouts a ++ solve_timeouts b)%list.
Proof.
  induction a as [|e a IH]; simpl; auto.
  destruct e as [[u t|u [| | | | |[|[k v] items]] t]| | | | |]; simpl; auto.
  destruct k as [|c k]; simpl; auto.
  repeat (match goal with
          | |- context [match ?x with _ => _ end] => destruct x; simpl; auto
          end).
  all: rewrite IH; reflexivity.
Qed.

Lemma Forall_solve_timeouts (Q : Z -> Prop) (evs : list event) :
  Forall (fun e => Forall Q (solve_timeouts [e])) evs ->
  Forall Q (solve_timeouts evs).
Proof.
  induction 1 as [|e evs He _ IH]; [constructor|].
  change (e :: evs) with ([e] ++ evs)%list.
  rewrite solve_timeouts_app. apply Forall_app. auto.
Qed.

Lemma attempts_start http url port maxTimeout maxRetries n attempt session :
  starts_with (EvRequest (solve_request url port maxTimeout session))
    (FlareSolverr.attempts http url port maxTimeout maxRetries
       (S n) attempt session).
Proof.
  simpl. apply starts_bind.
  - apply starts_try.
    + unfold FlareSolverr.attempt_try. apply starts_bind.
      * apply starts_send.
      * intros a. quiet_steps.
    + intros x h Hx. unfold FlareSolverr.attempt_except in Hx.
      inversion Hx; subst; clear Hx. quiet_steps.
  - intros [v|s]; auto with quiet.
    apply attempts_quiet; auto with quiet.
Qed.

(** C8 (amended).  Every solve request of [SolveChallenge] is sent with the
    transport timeout [maxTimeout // 1000 + 30] seconds, [maxTimeout] being
    in milliseconds.  Both in milliseconds, the transport timeout exceeds
    [maxTimeout] by [30000 - maxTimeout mod 1000]: by more than 29 and at
    most 30 seconds, and by 30 seconds exactly when [maxTimeout] is a whole
    number of seconds.  A call with [maxRetries >= 1] sends at least one
    such request. *)
Theorem transport_timeout_margin :
  forall http url port maxTimeout maxRetries st,
    let run := FlareSolverr.SolveChallenge http url port maxTimeout maxRetries st in
    let sent := solve_timeouts (new_events st (snd run)) in
    Forall (fun t => t = maxTimeout / 1000 + 30 /\
                     1000 * t - maxTimeout = 30000 - maxTimeout mod 1000 /\
                     29000 < 1000 * t - maxTimeout <= 30000) sent /\
    (maxRetries <= 0 \/ sent <> []).
Proof.
  intros http url port maxTimeout maxRetries st run sent.
  assert (Harith : forall t, t = maxTimeout / 1000 + 30 ->
            1000 * t - maxTimeout = 30000 - maxTimeout mod 1000 /\
            29000 < 1000 * t - maxTimeout <= 30000).
  { intros t ->.
    pose proof (Z.div_mod maxTimeout 1000 ltac:(lia)).
    pose proof (Z.mod_pos_bound maxTimeout 1000 ltac:(lia)). lia. }
  split.
  - pose (P := fun e => Forall (fun t => t = maxTimeout / 1000 + 30)
                          (solve_timeouts [e])).
    assert (Hq : quiet P (FlareSolverr.SolveChallenge http url port
                            maxTimeout maxRetries)).
    { apply SolveChallenge_quiet; unfold P; simpl; intros;
        repeat constructor. }
    destruct (Hq st) as ((evs & T & F) & _).
    subst sent run. rewrite (new_events_app st _ evs T).
    apply Forall_solve_timeouts in F.
    eapply Forall_impl; [|exact F]. intros t Ht. split; auto.
  - destruct (Z.to_nat maxRetries) as [|n] eqn:Hn; [left; lia|right].
    subst sent run. unfold FlareSolverr.SolveChallenge, bind. rewrite Hn.
    destruct (CreateSession_no_raise http port st) as [s Hs].
    destruct (CreateSession_quiet http port any_event) with (st := st)
      as ((evs1 & T1 & _) & _); auto with quiet.
    destruct (FlareSolverr.CreateSession http port st) as [r st1].
    simpl in Hs, T1. subst r.
    destruct (attempts_start http url port maxTimeout maxRetries n 0 s st1)
      as [evs2 T2].
    rewrite (new_events_app st _ (evs1 ++ EvRequest (solve_request url port maxTimeout s) :: evs2)).
    + rewrite solve_timeouts_app. simpl.
      destruct (solve_timeouts evs1); discriminate.
    + rewrite T2, T1, <- app_assoc. reflexivity.
Qed.

(** C8, as stated, fails: a requested timeout of 1500 ms is sent with a
    transport timeout of 31 s, which is 29.5 s more, not 30 s. *)
Lemma transport_timeout_margin_not_30 :
  ~ (forall maxTimeout,
       Forall (fun t => 1000 * t - maxTimeout = 30 * 1000)
         (solve_timeouts
            (new_events idle
               (snd (FlareSolverr.SolveChallenge always_timeout
                       "https://www.fanfiction.net/s/1/1/" (Some 8191)
                       maxTimeout 3 idle))))).
Proof.
  intros H. specialize (H 1500). vm_compute in H.
  inversion H as [|t l Ht _]. discriminate Ht.
Qed.

Lemma SolveChallenge_failing http url port maxTimeout maxRetries st :
  (forall n r, failure_mode (http n r) = true) ->
  fst (FlareSolverr.SolveChallenge http url port maxTimeout maxRetries st)
    = Ret JNull.
Proof.
  intros H. unfold FlareSolverr.SolveChallenge, bind.
  destruct (CreateSession_no_raise http port st) as [s Hs].
  destruct (FlareSolverr.CreateSession http port st) as [r st1].
  simpl in Hs. subst r. apply attempts_failing. exact H.
Qed.

(** C9. The public operations of the client are total.  The liveness probe
    returns [True] exactly when a response with status 200 arrives and
    [False] in every other case (the call timed out or failed, or the
    status is another one); [SolveChallenge] always returns, and returns
    [None] when every request meets a failure mode; [DestroySession]
    always returns and leaves no session cached. *)
Theorem public_operations_total :
  forall http url port maxTimeout maxRetries st,
    fst (FlareSolverr.IsFlareSolverrRunning http port st) =
      Ret (probe_ok (http (requests_made st)
                       (GET ("http://localhost:" ++ FlareSolverr.port_str port ++ "/") 5)))
    /\ (exists html,
          fst (FlareSolverr.SolveChallenge http url port maxTimeout maxRetries st)
            = Ret html)
    /\ ((forall n r, failure_mode (http n r) = true) ->
        fst (FlareSolverr.SolveChallenge http url port maxTimeout maxRetries st)
          = Ret JNull)
    /\ fst (FlareSolverr.DestroySession http port st) = Ret tt
    /\ Json.truthy (flaresolverr_session
                      (snd (FlareSolverr.DestroySession http port st))) = false.
Proof.
  intros http url port maxTimeout maxRetries st. repeat split.
  - unfold FlareSolverr.IsFlareSolverrRunning. run.
    destruct (http _ _); reflexivity.
  - apply SolveChallenge_no_raise.
  - apply SolveChallenge_failing.
  - destruct (DestroySession_no_raise http port st) as [[] H]. exact H.
  - unfold FlareSolverr.DestroySession. run.
    destruct (Json.truthy (flaresolverr_session st)) eqn:Hc; run; auto.
    destruct (http _ _); reflexivity.
Qed.

Lemma public_operations_total_witness :
  fst (FlareSolverr.SolveChallenge always_timeout
         "https://www.fanfiction.net/s/1/1/" (Some 8191) 60000 3 idle)
    = Ret JNull.
Proof.
  apply (public_operations_total always_timeout
           "https://www.fanfiction.net/s/1/1/" (Some 8191) 60000 3 idle).
  intros n r. reflexivity.
Defined.

(* ================================================================== *)
(** ** Dates *)

Section DateText.

Import Dates.

Lemma digit_char_cases (n : Z) :
  In (n mod 10, digit_char n)
     [(0, "0"); (1, "1"); (2, "2"); (3, "3"); (4, "4");
      (5, "5"); (6, "6"); (7, "7"); (8, "8"); (9, "9")]%char.
Proof.
  unfold digit_char.
  pose proof (Z.mod_pos_bound n 10 ltac:(lia)) as Hk.
  assert (n mod 10 = 0 \/ n mod 10 = 1 \/ n mod 10 = 2 \/ n mod 10 = 3 \/
          n mod 10 = 4 \/ n mod 10 = 5 \/ n mod 10 = 6 \/ n mod 10 = 7 \/
          n mod 10 = 8 \/ n mod 10 = 9) as Hcases by lia.
  repeat (destruct Hcases as [Hcases|Hcases]); rewrite Hcases; simpl; auto 12.
Qed.

(** Splits a goal about [digit_char n] into the ten digits. *)
Ltac digit_cases n :=
  let H := fresh "H" in
  let Hm := fresh "Hm" in
  let Hc := fresh "Hc" in
  pose proof (digit_char_cases n) as H; simpl in H;
  repeat (destruct H as [H|H]); try contradiction;
  injection H as Hm Hc; rewrite <- ?Hm, <- ?Hc; clear Hm Hc.

Lemma is_digit_digit_char n : Py.is_digit (digit_char n) = true.
Proof. digit_cases n; reflexivity. Qed.

Lemma is_space_digit_char n : Py.is_space (digit_char n) = false.
Proof. digit_cases n; reflexivity. Qed.

Lemma digit_char_not_sign n :
  Ascii.eqb (digit_char n) "+" = false /\ Ascii.eqb (digit_char n) "-" = false.
Proof. digit_cases n; split; reflexivity. Qed.

Lemma digit_val_digit_char n : Py.digit_val (digit_char n) = n mod 10.
Proof. digit_cases n; reflexivity. Qed.

Lemma rstrip_no_space (s : string) : no_space s = true -> Py.rstrip s = s.
Proof.
  induction s as [|c s IH]; simpl; auto.
  intros H. apply andb_prop in H. destruct H as [Hc Hs].
  rewrite (IH Hs). destruct s; auto.
  destruct (Py.is_space c); [discriminate|reflexivity].
Qed.

Lemma strip_no_space (s : string) : no_space s = true -> Py.strip s = s.
Proof.
  intros H. unfold Py.strip.
  destruct s as [|c s]; auto. simpl.
  destruct (Py.is_space c) eqn:Hc.
  - simpl in H. rewrite Hc in H. discriminate.
  - apply (rstrip_no_space (String c s)). exact H.
Qed.

Lemma no_space_pad2 n : no_space (pad2 n) = true.
Proof. unfold pad2. simpl. rewrite !is_space_digit_char. reflexivity. Qed.

Lemma no_space_pad4 n : no_space (pad4 n) = true.
Proof. unfold pad4, pad2. simpl. rewrite !is_space_digit_char. reflexivity. Qed.

Lemma int_pad4 (y : Z) : 0 <= y <= 9999 -> Py.int (pad4 y) = Some y.
Proof.
  intros Hy. unfold Py.int. rewrite (strip_no_space _ (no_space_pad4 y)).
  unfold pad4, pad2.
  destruct (digit_char_not_sign (y / 1000)) as [-> ->].
  unfold Py.int_digits.
  rewrite !is_digit_digit_char, !digit_val_digit_char.
  f_equal.
  pose proof (Z.div_mod y 10 ltac:(lia)).
  pose proof (Z.div_mod (y / 10) 10 ltac:(lia)).
  pose proof (Z.div_mod (y / 100) 10 ltac:(lia)).
  pose proof (Z.mod_pos_bound y 10 ltac:(lia)).
  pose proof (Z.mod_pos_bound (y / 10) 10 ltac:(lia)).
  pose proof (Z.mod_pos_bound (y / 100) 10 ltac:(lia)).
  assert (y / 100 = y / 10 / 10) by (rewrite Z.div_div by lia; reflexivity).
  assert (y / 1000 = y / 100 / 10) by (rewrite Z.div_div by lia; reflexivity).
  assert (y / 1000 < 10) by (apply Z.div_lt_upper_bound; lia).
  assert (0 <= y / 1000) by (apply Z.div_pos; lia).
  rewrite (Z.mod_small (y / 1000) 10) by lia. lia.
Qed.

(** A text that starts with three digits is no date in any of the formats
    tried before the ISO format: a month is followed by a slash there, and
    a month name starts with a letter. *)
Lemma strptime_three_digits (a b c : Z) (rest : string) :
  let s := String (digit_char a) (String (digit_char b)
             (String (digit_char c) rest)) in
  strptime s "%m/%d/%Y" = None /\ strptime s "%m/%d/%y" = None /\
  strptime s "%m/%d" = None /\ strptime s "%b %d, %Y" = None /\
  strptime s "%b %d %Y" = None /\ strptime s "%B %d, %Y" = None /\
  strptime s "%B %d %Y" = None.
Proof.
  digit_cases a; digit_cases b; digit_cases c; vm_compute; auto 10.
Qed.

Lemma int_pad2 (n : Z) : 0 <= n <= 99 -> Py.int (pad2 n) = Some n.
Proof.
  intros Hn. unfold Py.int. rewrite (strip_no_space _ (no_space_pad2 n)).
  unfold pad2.
  destruct (digit_char_not_sign (n / 10)) as [-> ->].
  unfold Py.int_digits.
  rewrite !is_digit_digit_char, !digit_val_digit_char.
  f_equal.
  pose proof (Z.div_mod n 10 ltac:(lia)).
  pose proof (Z.mod_pos_bound n 10 ltac:(lia)).
  assert (n / 10 < 10) by (apply Z.div_lt_upper_bound; lia).
  assert (0 <= n / 10) by (apply Z.div_pos; lia).
  rewrite (Z.mod_small (n / 10) 10) by lia. lia.
Qed.

Lemma length_append (p t : string) :
  String.length (p ++ t) = (String.length p + String.length t)%nat.
Proof. induction p as [|c p IH]; simpl; auto. Qed.

Lemma substring_prefix (p t : string) :
  substring 0 (String.length (p ++ t) - String.length t) (p ++ t) = p.
Proof.
  replace (String.length (p ++ t) - String.length t)%nat with (String.length p)
    by (rewrite length_append; lia).
  induction p as [|c p IH]; simpl.
  - destruct t; reflexivity.
  - rewrite IH. reflexivity.
Qed.

Lemma run_four_digits {R} (a b c d : ascii) (tail : string) (g : Re.groups)
    (k : string -> Re.groups -> option R) :
  Py.is_digit a = true -> Py.is_digit b = true ->
  Py.is_digit c = true -> Py.is_digit d = true ->
  Re.run (Re.seq [Re.digit; Re.digit; Re.digit; Re.digit])
         (String a (String b (String c (String d tail)))) g k
  = k tail g.
Proof. intros Ha Hb Hc Hd. simpl. rewrite Ha, Hb, Hc, Hd. reflexivity. Qed.

(** The year group [\d\d\d\d] takes four digits. *)
Lemma run_year {R} (y : Z) (tail : string) (g : Re.groups)
    (k : string -> Re.groups -> option R) :
  Re.run (Re.Grp gY (Re.seq [Re.digit; Re.digit; Re.digit; Re.digit]))
         (pad4 y ++ tail) g k
  = k tail ((gY, pad4 y) :: g).
Proof.
  change (Re.run (Re.Grp gY ?a) ?s g k)
    with (Re.run a s g
            (fun s1 g1 =>
               k s1 ((gY, substring 0 (String.length s - String.length s1) s)
                       :: g1))).
  change (pad4 y ++ tail)
    with (String (digit_char (y / 1000)) (String (digit_char (y / 100))
            (String (digit_char (y / 10)) (String (digit_char y) tail)))) at 1.
  rewrite run_four_digits by apply is_digit_digit_char.
  rewrite substring_prefix. reflexivity.
Qed.

Lemma in_range (lo hi x : Z) : lo <= x < hi -> In x (Py.range lo hi).
Proof.
  intros H. unfold Py.range. apply in_map_iff.
  exists (Z.to_nat (x - lo)). split; [lia|].
  apply in_seq. lia.
Qed.

(** Splits a goal into the values of [x] between [lo] and [hi - 1]. *)
Ltac range_cases x lo hi :=
  let H := fresh "H" in
  assert (H : In x (Py.range lo hi)) by (apply in_range; lia);
  vm_compute in H;
  repeat (destruct H as [H|H]); try contradiction; subst x.

(** The rest of the ISO pattern takes a two-digit month and a two-digit
    day. *)
Lemma run_month_day (m d : Z) (g : Re.groups) :
  1 <= m <= 12 -> 1 <= d <= 31 ->
  Re.run iso_tail ("-" ++ pad2 m ++ "-" ++ pad2 d) g
         (fun rest g' => Some (g', rest))
  = Some ((gd, pad2 d) :: (gm, pad2 m) :: g, "").
Proof.
  intros Hm Hd. range_cases m 1 13; range_cases d 1 32;
    vm_compute; reflexivity.
Qed.

Lemma strptime_iso (dt : date) :
  valid dt = true -> strptime (strftime dt) "%Y-%m-%d" = Some dt.
Proof.
  destruct dt as [y m d]. intros Hv.
  assert (Hb : (1 <= y <= 9999) /\ (1 <= m <= 12) /\ (1 <= d <= 31)).
  { unfold valid, days_in_month in Hv. simpl in Hv.
    repeat (apply andb_prop in Hv; destruct Hv as [Hv ?]).
    repeat match goal with
           | H : context [if ?b then _ else _] |- _ => destruct b
           end; lia. }
  destruct Hb as (Hy & Hm & Hd).
  unfold strptime.
  change (pattern false "%Y-%m-%d")
    with (Some (Re.Seq (Re.Grp gY (Re.seq [Re.digit; Re.digit; Re.digit; Re.digit]))
                  iso_tail)).
  unfold Re.match_, strftime. simpl year; simpl month; simpl day.
  change (Re.run (Re.Seq ?a ?b) ?s ?g ?k)
    with (Re.run a s g (fun s1 g1 => Re.run b s1 g1 k)).
  rewrite run_year, run_month_day by lia.
  unfold found_year, found_month, found_day.
  cbv beta iota delta [Re.group Nat.eqb gY gy gm gd gb gB].
  rewrite int_pad4, !int_pad2 by lia. rewrite Hv. reflexivity.
Qed.

End DateText.

(* ================================================================== *)
(** ** Claims about the extractor *)

(** C7. [_ParseDateString] maps every date in the canonical form
    YYYY-MM-DD, the text [strftime] gives for a date, to itself. *)
Theorem ParseDateString_roundtrip :
  forall E dt,
    Dates.valid dt = true ->
    ExtractorFFNet._ParseDateString E (Dates.strftime dt)
      = Some (Dates.strftime dt).
Proof.
  intros E [y m d] Hv.
  unfold ExtractorFFNet._ParseDateString.
  assert (Hns : no_space (Dates.strftime (Dates.mkDate y m d)) = true).
  { unfold Dates.strftime, Dates.pad4, Dates.pad2. simpl.
    rewrite !is_space_digit_char. reflexivity. }
  rewrite (strip_no_space _ Hns).
  destruct (strptime_three_digits (y / 1000) (y / 100) (y / 10)
              (String (Dates.digit_char y)
                 ("-" ++ Dates.pad2 m ++ "-" ++ Dates.pad2 d)))
    as (H1 & H2 & H3 & H4 & H5 & H6 & H7).
  change (String (Dates.digit_char (y / 1000)) _)
    with (Dates.strftime (Dates.mkDate y m d)) in H1, H2, H3, H4, H5, H6, H7.
  unfold ExtractorFFNet.formats.
  cbv beta iota delta [ExtractorFFNet.parse_with].
  rewrite H1, H2, H3, H4, H5, H6, H7, (strptime_iso _ Hv).
  reflexivity.
Qed.

Lemma ParseDateString_roundtrip_witness :
  ExtractorFFNet._ParseDateString quiet_site "2011-03-31" = Some "2011-03-31".
Proof.
  apply (ParseDateString_roundtrip quiet_site (Dates.mkDate 2011 3 31)).
  reflexivity.
Defined.

(** *** Events of the extractor *)

Section EmitRules.

Context {A B : Type}.
Variable P : event -> Prop.

Lemma emits_of_quiet (m : M A) : quiet P m -> emits P m.
Proof. intros H st. apply H. Qed.

Lemma emits_ret (a : A) : emits P (ret a).
Proof. intros st. exists []. simpl. rewrite app_nil_r. auto. Qed.

Lemma emits_raise (e : exn) : emits P (@raise A e).
Proof. intros st. exists []. simpl. rewrite app_nil_r. auto. Qed.

Lemma emits_lift (r : result A) : emits P (lift r).
Proof. intros st. exists []. simpl. rewrite app_nil_r. auto. Qed.

Lemma emits_or_raise (e : exn) (o : option A) : emits P (or_raise e o).
Proof. destruct o; [apply emits_ret | apply emits_raise]. Qed.

Lemma emits_bind (m : M A) (f : A -> M B) :
  emits P m -> (forall a, emits P (f a)) -> emits P (bind m f).
Proof.
  intros Hm Hf st. unfold bind.
  destruct (Hm st) as (e1 & T1 & F1). destruct (m st) as [[a|x] st1]; simpl in *.
  - destruct (Hf a st1) as (e2 & T2 & F2).
    exists (e1 ++ e2)%list. rewrite T2, T1, app_assoc. split; auto.
    apply Forall_app. auto.
  - exists e1. auto.
Qed.

End EmitRules.

Lemma emits_emit (P : event -> Prop) (e : event) : P e -> emits P (emit e).
Proof. intros He st. exists [e]. simpl. auto. Qed.

Lemma emits_get_self (P : event -> Prop) : emits P get_self.
Proof. intros st. exists []. simpl. rewrite app_nil_r. auto. Qed.

Lemma emits_set_self (P : event -> Prop) x : emits P (set_self x).
Proof. intros st. exists []. simpl. rewrite app_nil_r. auto. Qed.

Lemma emits_webSession_fetch (P : event -> Prop) E url parserName :
  P (EvWebSession url parserName) ->
  emits P (ExtractorFFNet.webSession_fetch E url parserName).
Proof. intros He st. exists [EvWebSession url parserName]. simpl. auto. Qed.

Lemma not_getsoup_log l m : not_getsoup (EvLog l m).
Proof. exact I. Qed.

Lemma not_getsoup_request r : not_getsoup (EvRequest r).
Proof. exact I. Qed.

Lemma not_getsoup_sleep n : not_getsoup (EvSleep n).
Proof. exact I. Qed.

Lemma not_getsoup_webSession u p : not_getsoup (EvWebSession u p).
Proof. exact I. Qed.

Create HintDb emits discriminated.

#[local] Hint Resolve emits_ret emits_raise emits_lift emits_or_raise
  emits_emit emits_get_self emits_set_self emits_webSession_fetch
  not_getsoup_log not_getsoup_request not_getsoup_sleep
  not_getsoup_webSession : emits.

Ltac emits_steps :=
  repeat first
    [ progress (unfold log, print, sleep, ExtractorFFNet.set_metadata,
                ExtractorFFNet.get_metadata, ExtractorFFNet.append_chapterURL)
    | apply emits_bind; [ | intros ? ]
    | solve [ auto with emits ]
    | match goal with
      | |- emits _ (if ?b then _ else _) => destruct b
      | |- emits _ (match ?x with _ => _ end) => destruct x
      end ].

Lemma getsoup_urls_app (a b : list event) :
  getsoup_urls (a ++ b) = (getsoup_urls a ++ getsoup_urls b)%list.
Proof.
  induction a as [|e a IH]; simpl; auto.
  destruct e; simpl; rewrite ?IH; reflexivity.
Qed.

Lemma getsoup_urls_none (evs : list event) :
  Forall not_getsoup evs -> getsoup_urls evs = [].
Proof.
  induction 1 as [|e evs He _ IH]; simpl; auto.
  destruct e; simpl in *; auto. contradiction.
Qed.

Section Fetching.

Variable E : environment.

Lemma SolveChallenge_emits url port maxTimeout maxRetries :
  emits not_getsoup
    (FlareSolverr.SolveChallenge (http E) url port maxTimeout maxRetries).
Proof.
  apply emits_of_quiet, SolveChallenge_quiet; intros; exact I.
Qed.

(** A call of [_GetSoup] is recorded once, first. *)
Lemma GetSoup_trace url parserName st :
  exists evs,
    trace (snd (ExtractorFFNet._GetSoup E url parserName st))
      = (trace st ++ EvGetSoup url parserName :: evs)%list /\
    getsoup_urls evs = [].
Proof.
  unfold ExtractorFFNet._GetSoup. unfold bind at 1, emit.
  match goal with
  | |- context [bind ?m ?f ?s] =>
      assert (Hrest : emits not_getsoup (bind m f))
  end.
  { apply emits_bind; [auto with emits|intros this].
    destruct (_useFlareSolverr this); [|emits_steps].
    apply emits_bind; [apply SolveChallenge_emits|intros html].
    emits_steps. }
  match goal with
  | |- context [bind ?m ?f ?s] => destruct (Hrest s) as (evs & T & F)
  end.
  exists evs. rewrite T. simpl. rewrite <- app_assoc. split; auto.
  apply getsoup_urls_none, F.
Qed.

(** What follows a call of [_GetSoup] and only logs. *)
Lemma GetSoup_then {B} url parserName (f : option Soup -> M B) st :
  (forall r, emits not_getsoup (f r)) ->
  getsoup_urls
    (new_events st (snd (bind (ExtractorFFNet._GetSoup E url parserName) f st)))
  = [url].
Proof.
  intros Hf. unfold bind.
  destruct (GetSoup_trace url parserName st) as (evs & T & F).
  destruct (ExtractorFFNet._GetSoup E url parserName st) as [[r|x] st1];
    simpl in *.
  - destruct (Hf r st1) as (evs2 & T2 & F2).
    rewrite (new_events_app st _ (EvGetSoup url parserName :: evs ++ evs2)).
    + simpl. rewrite getsoup_urls_app, F, (getsoup_urls_none _ F2). reflexivity.
    + rewrite T2, T, <- app_assoc. reflexivity.
  - rewrite (new_events_app st _ _ T). simpl. rewrite F. reflexivity.
Qed.

End Fetching.

Lemma nth_pred_last {A} (l : list A) (d : A) :
  l <> [] -> nth (List.length l - 1) l d = last l d.
Proof.
  induction l as [|a l IH]; [congruence|]. intros _.
  destruct l as [|b l]; [reflexivity|].
  change (last (a :: b :: l) d) with (last (b :: l) d).
  rewrite <- IH by congruence. simpl. rewrite Nat.sub_0_r. reflexivity.
Qed.

Lemma getitem_nonneg {A} (l : list A) (i : Z) (d : A) :
  0 <= i < Z.of_nat (List.length l) ->
  Py.getitem l i = Some (nth (Z.to_nat i) l d).
Proof.
  intros H. unfold Py.getitem.
  replace ((0 <=? i) && (i <? Z.of_nat (List.length l))) with true
    by (symmetry; apply andb_true_intro; split; lia).
  apply nth_error_nth'. lia.
Qed.

Lemma getitem_negative {A} (l : list A) (i : Z) (d : A) :
  - Z.of_nat (List.length l) <= i < 0 ->
  Py.getitem l i = Some (nth (Z.to_nat (Z.of_nat (List.length l) + i)) l d).
Proof.
  intros H. unfold Py.getitem.
  replace (0 <=? i) with false by (symmetry; lia). simpl.
  replace ((- Z.of_nat (List.length l) <=? i) && (i <? 0)) with true
    by (symmetry; apply andb_true_intro; split; lia).
  apply nth_error_nth'. lia.
Qed.

Lemma getitem_out {A} (l : list A) (i : Z) :
  i < - Z.of_nat (List.length l) -> Py.getitem l i = None.
Proof.
  intros H. unfold Py.getitem.
  replace (0 <=? i) with false by (symmetry; lia). simpl.
  replace (- Z.of_nat (List.length l) <=? i) with false by (symmetry; lia).
  reflexivity.
Qed.

Lemma new_events_same (st : state) : new_events st st = [].
Proof. unfold new_events. apply skipn_all. Qed.

Section ExtractorClaims.

Variable E : environment.

Lemma InternallyExtractChapter_emits url soup :
  emits not_getsoup (ExtractorFFNet._InternallyExtractChapter E url soup).
Proof. unfold ExtractorFFNet._InternallyExtractChapter. emits_steps. Qed.

(** The run of [ExtractChapter] once the bound check has passed and the
    URL has been picked. *)
Lemma ExtractChapter_fetch index st u :
  (index >? Z.of_nat (List.length (_chapterURLs (self st)))) = false ->
  Py.getitem (_chapterURLs (self st)) (index - 1) = Some u ->
  getsoup_urls (new_events st (snd (ExtractorFFNet.ExtractChapter E index st)))
  = [u].
Proof.
  intros Hgt Hget. unfold ExtractorFFNet.ExtractChapter.
  unfold bind at 1, get_self. cbv beta iota. rewrite Hgt.
  unfold bind at 1. rewrite Hget. unfold or_raise. unfold ret at 1.
  cbv beta iota. apply GetSoup_then. intros [soup|]; [|emits_steps].
  apply InternallyExtractChapter_emits.
Qed.

End ExtractorClaims.

(** C10 (amended).  [ExtractChapter] returns [None] without fetching for
    every index greater than the number [n] of located chapter URLs (the
    story being set).  Any other index passes the check, and the URL is
    taken by Python indexing at [index - 1]: for [1 <= index <= n] that is
    the URL of chapter [index]; for [-n < index <= 0] it is the URL at
    position [n + index - 1], so that index 0 fetches the last URL when
    there is one; for [index <= -n] (which includes index 0 when no URL is
    located) the indexing raises [IndexError] and nothing is fetched. *)
Theorem ExtractChapter_index_check :
  forall E index st,
    let urls := _chapterURLs (self st) in
    let n := Z.of_nat (List.length urls) in
    let run := ExtractorFFNet.ExtractChapter E index st in
    let fetched := getsoup_urls (new_events st (snd run)) in
    (n < index -> Story (self st) <> None ->
     fst run = Ret None /\ fetched = []) /\
    (0 < index <= n -> fetched = [nth (Z.to_nat (index - 1)) urls ""]) /\
    (- n < index <= 0 -> fetched = [nth (Z.to_nat (n + index - 1)) urls ""]) /\
    (index = 0 -> 0 < n -> fetched = [last urls ""]) /\
    (index <= - n -> fst run = Raise IndexError /\ fetched = []).
Proof.
  intros E index st urls n run fetched.
  assert (Hneg : - n < index <= 0 ->
                 fetched = [nth (Z.to_nat (n + index - 1)) urls ""]).
  { intros H. apply ExtractChapter_fetch.
    - fold urls. fold n. lia.
    - fold urls. rewrite (getitem_negative urls (index - 1) "") by (fold n; lia).
      fold n. do 2 f_equal. lia. }
  repeat split.
  - subst run. unfold ExtractorFFNet.ExtractChapter.
    unfold bind at 1, get_self. cbv beta iota. fold urls. fold n.
    replace (index >? n) with true by (symmetry; lia).
    unfold ExtractorFFNet.get_metadata. run.
    destruct (Story (self st)); [reflexivity|congruence].
  - subst fetched run. unfold ExtractorFFNet.ExtractChapter.
    unfold bind at 1, get_self. cbv beta iota. fold urls. fold n.
    replace (index >? n) with true by (symmetry; lia).
    unfold ExtractorFFNet.get_metadata. run.
    destruct (Story (self st)); [|congruence]. simpl.
    erewrite new_events_app by reflexivity. reflexivity.
  - intros H. apply ExtractChapter_fetch.
    + fold urls. fold n. lia.
    + fold urls. apply getitem_nonneg. fold n. lia.
  - exact Hneg.
  - intros -> Hn. rewrite Hneg by lia.
    replace (Z.to_nat (n + 0 - 1)) with (List.length urls - 1)%nat by lia.
    rewrite nth_pred_last; [reflexivity|].
    destruct urls; [simpl in n; lia|congruence].
  - subst run. unfold ExtractorFFNet.ExtractChapter.
    unfold bind at 1, get_self. cbv beta iota. fold urls. fold n.
    replace (index >? n) with false by (symmetry; lia).
    unfold bind at 1. rewrite (getitem_out urls (index - 1)) by (fold n; lia).
    reflexivity.
  - subst fetched run. unfold ExtractorFFNet.ExtractChapter.
    unfold bind at 1, get_self. cbv beta iota. fold urls. fold n.
    replace (index >? n) with false by (symmetry; lia).
    unfold bind at 1. rewrite (getitem_out urls (index - 1)) by (fold n; lia).
    simpl. rewrite new_events_same. reflexivity.
Qed.

Lemma ExtractChapter_index_check_witness :
  getsoup_urls
    (new_events two_chapters
       (snd (ExtractorFFNet.ExtractChapter quiet_site 0 two_chapters)))
  = ["https://www.fanfiction.net/s/12345/2/"].
Proof.
  apply (ExtractChapter_index_check quiet_site 0 two_chapters);
    [reflexivity | simpl; lia].
Defined.

(** C10, as stated, fails at the lower end: with two URLs located, index
    -2 has an absolute value not above their number and passes the check,
    but indexing at -3 raises [IndexError]: no URL is selected and nothing
    is fetched. *)
Lemma ExtractChapter_negative_index_raises :
  Z.abs (-2) <= Z.of_nat (List.length (_chapterURLs (self two_chapters))) /\
  fst (ExtractorFFNet.ExtractChapter quiet_site (-2) two_chapters)
    = Raise IndexError /\
  getsoup_urls
    (new_events two_chapters
       (snd (ExtractorFFNet.ExtractChapter quiet_site (-2) two_chapters)))
  = [].
Proof. vm_compute. repeat split. discriminate. Qed.

(** [_GetSoup] when challenge solving is configured: the call is recorded
    and the solver runs. *)
Lemma GetSoup_configured E url parserName st :
  _useFlareSolverr (self st) = true ->
  ExtractorFFNet._GetSoup E url parserName st =
    bind (FlareSolverr.SolveChallenge (http E) url (FlareSolverrPort E) 60000 3)
         (fun html =>
            if Json.truthy html then
              bind (lift (BeautifulSoup E html parserName))
                   (fun soup => ret (Some soup))
            else
              bind (log WARNING
                      "FlareSolverr failed for {url}, falling back to cloudscraper")
                   (fun _ => ExtractorFFNet.webSession_fetch E url parserName))
         (mkState (flaresolverr_session st) (self st) (requests_made st)
            (fetches_made st) (trace st ++ [EvGetSoup url parserName])).
Proof.
  intros Huse. unfold ExtractorFFNet._GetSoup.
  unfold bind at 1, emit. cbv beta iota.
  unfold bind at 1, get_self. cbv beta iota.
  cbn [self]. rewrite Huse. reflexivity.
Qed.

(** C3 (amended).  When challenge solving is configured, [_GetSoup] calls
    [SolveChallenge] whatever the availability check reported: it reads
    neither [_flareSolverrChecked] nor [_flareSolverrAvailable].  When the
    solver returns content, the content is parsed and returned; when it
    returns nothing ([None] or an empty text), [_GetSoup] logs a warning
    and returns what the fallback fetcher returns. *)
Theorem GetSoup_solver_then_fallback :
  forall E url parserName st,
    _useFlareSolverr (self st) = true ->
    let called :=
      mkState (flaresolverr_session st) (self st) (requests_made st)
        (fetches_made st) (trace st ++ [EvGetSoup url parserName]) in
    let solved :=
      FlareSolverr.SolveChallenge (http E) url (FlareSolverrPort E) 60000 3
        called in
    exists html,
      fst solved = Ret html /\
      ExtractorFFNet._GetSoup E url parserName st =
        if Json.truthy html then
          match BeautifulSoup E html parserName with
          | Ret soup => (Ret (Some soup), snd solved)
          | Raise e => (Raise e, snd solved)
          end
        else
          (Ret (webSession_GetSoup E (fetches_made st) url parserName),
           mkState (flaresolverr_session (snd solved)) (self st)
             (requests_made (snd solved)) (S (fetches_made st))
             (trace (snd solved) ++
              [EvLog WARNING
                 "FlareSolverr failed for {url}, falling back to cloudscraper";
               EvWebSession url parserName])).
Proof.
  intros E url parserName st Huse called solved.
  destruct (SolveChallenge_no_raise (http E) url (FlareSolverrPort E) 60000 3
              called) as [html Hhtml].
  exists html. split; [exact Hhtml|].
  destruct (SolveChallenge_quiet (http E) url (FlareSolverrPort E) 60000
              any_event) with (maxRetries := 3) (st := called)
    as (_ & Hself & Hfetch); auto with quiet.
  fold solved in Hhtml, Hself, Hfetch.
  rewrite (GetSoup_configured E url parserName st Huse).
  fold called. unfold bind at 1. fold solved.
  destruct solved as [r st1]. simpl in Hhtml, Hself, Hfetch |- *. subst r.
  destruct (Json.truthy html).
  - unfold bind, lift, ret. destruct (BeautifulSoup E html parserName); reflexivity.
  - unfold ExtractorFFNet.webSession_fetch. run.
    rewrite Hself, Hfetch, <- app_assoc. reflexivity.
Qed.

Lemma GetSoup_solver_then_fallback_witness :
  fst (ExtractorFFNet._GetSoup quiet_site
         "https://www.fanfiction.net/s/12345/1/" "html5lib" idle)
    = Ret (Some empty_soup).
Proof.
  destruct (GetSoup_solver_then_fallback quiet_site
              "https://www.fanfiction.net/s/12345/1/" "html5lib" idle eq_refl)
    as (html & Hhtml & Hsoup).
  vm_compute in Hhtml. injection Hhtml as <-.
  rewrite Hsoup. reflexivity.
Defined.

(** C3, as stated, fails: after the availability check has reported the
    service unavailable, [_GetSoup] still sends its requests to the
    solver before it falls back. *)
Lemma GetSoup_ignores_availability :
  let checked := snd (ExtractorFFNet._CheckFlareSolverr quiet_site idle) in
  _flareSolverrChecked (self checked) = true /\
  _flareSolverrAvailable (self checked) = false /\
  requests_sent
    (new_events checked
       (snd (ExtractorFFNet._GetSoup quiet_site
               "https://www.fanfiction.net/s/12345/1/" "html5lib" checked)))
  = [create_request (Some 8191);
     solve_request "https://www.fanfiction.net/s/12345/1/" (Some 8191) 60000 JNull;
     solve_request "https://www.fanfiction.net/s/12345/1/" (Some 8191) 60000 JNull;
     solve_request "https://www.fanfiction.net/s/12345/1/" (Some 8191) 60000 JNull].
Proof. vm_compute. repeat split. Qed.

Section Collection.

Variable E : environment.
Variable site : string -> Soup.
Hypothesis fetch_ok :
  forall url st,
    fst (ExtractorFFNet._GetSoup E url "html.parser" st) = Ret (Some (site url)).

Lemma scan_listing_emits elements :
  forall storyIDs,
    emits not_getsoup (ExtractorFFNet.scan_listing elements storyIDs).
Proof.
  induction elements as [|[[t [h|]]|] rest IH]; intros ids; simpl.
  - auto with emits.
  - destruct (Re.search _ _); [apply IH|].
    apply emits_bind; [emits_steps|intros _; apply IH].
  - apply emits_bind; [emits_steps|intros _; apply IH].
  - apply emits_bind; [emits_steps|intros _; apply IH].
Qed.

Lemma scan_listing_returns elements :
  forall storyIDs, no_raise (ExtractorFFNet.scan_listing elements storyIDs).
Proof.
  induction elements as [|[[t [h|]]|] rest IH]; intros ids; simpl.
  - auto with total.
  - destruct (Re.search _ _); [apply IH|].
    apply no_raise_bind; [total_steps|intros _; apply IH].
  - apply no_raise_bind; [total_steps|intros _; apply IH].
  - apply no_raise_bind; [total_steps|intros _; apply IH].
Qed.

(** The page loop calls [_GetSoup] once per page, in the order of the
    pages, and comes to its end. *)
Lemma scan_pages_fetches collectionURL pages :
  forall storyIDs st,
    exists ids st' evs,
      ExtractorFFNet.scan_pages E collectionURL pages storyIDs st
        = (Ret (Some ids), st') /\
      trace st' = (trace st ++ evs)%list /\
      getsoup_urls evs = map (ExtractorFFNet.page_url collectionURL) pages.
Proof.
  induction pages as [|pageIndex rest IH]; intros ids st; simpl.
  - exists ids, st, []. rewrite app_nil_r. auto.
  - unfold bind at 1.
    pose proof (fetch_ok (ExtractorFFNet.page_url collectionURL pageIndex) st)
      as Hf.
    destruct (GetSoup_trace E (ExtractorFFNet.page_url collectionURL pageIndex)
                "html.parser" st) as (evs1 & T1 & F1).
    destruct (ExtractorFFNet._GetSoup E _ "html.parser" st) as [r st1].
    simpl in Hf, T1. subst r.
    unfold bind at 1.
    destruct (scan_listing_returns
                (z_list (site (ExtractorFFNet.page_url collectionURL pageIndex)))
                ids st1) as [ids' Hids].
    destruct (scan_listing_emits
                (z_list (site (ExtractorFFNet.page_url collectionURL pageIndex)))
                ids st1) as (evs2 & T2 & F2).
    destruct (ExtractorFFNet.scan_listing _ ids st1) as [r st2].
    simpl in Hids, T2. subst r.
    destruct (IH ids' st2) as (ids'' & st3 & evs3 & Heq & T3 & F3).
    exists ids'', st3,
      ((EvGetSoup (ExtractorFFNet.page_url collectionURL pageIndex) "html.parser"
          :: evs1) ++ evs2 ++ evs3)%list.
    split; [exact Heq|]. split.
    + rewrite T3, T2, T1, <- !app_assoc. reflexivity.
    + rewrite !getsoup_urls_app. simpl.
      rewrite F1, (getsoup_urls_none _ F2), F3. reflexivity.
Qed.

End Collection.

(** C4 (amended).  When every page can be fetched, [_ScanCollection]
    fetches the first page of the collection to read the link to the last
    page, and then fetches the pages 1 to [N] in increasing order, [N]
    being the index read in that link, or 1 when there is no such link: the
    first page is fetched twice.  Without a "Last" link that makes two
    fetches of page 1; with a link to page 5 it makes six fetches, of the
    pages 1, 1, 2, 3, 4, 5. *)
Theorem ScanCollection_fetches :
  forall E site URL g lastLink N st,
    (forall url st',
       fst (ExtractorFFNet._GetSoup E url "html.parser" st')
         = Ret (Some (site url))) ->
    Re.search ExtractorFFNet.re_community URL = Some g ->
    let collectionURL :=
      GetSiteURL E URL ++ "/community/" ++ ExtractorFFNet.group_str 1 g
        ++ "/" ++ ExtractorFFNet.group_str 2 g in
    ExtractorFFNet.find_last_link
      (center_links (site (ExtractorFFNet.page_url collectionURL 1)))
      = Ret lastLink ->
    ExtractorFFNet.last_page_index lastLink = Ret N ->
    let run := ExtractorFFNet._ScanCollection E URL st in
    (exists storyURLs, fst run = Ret (Some storyURLs)) /\
    getsoup_urls (new_events st (snd run)) =
      ExtractorFFNet.page_url collectionURL 1
      :: map (ExtractorFFNet.page_url collectionURL) (Py.range 1 (N + 1)).
Proof.
  intros E site URL g lastLink N st Hfetch Hurl collectionURL Hlast HN run.
  assert (Hrun : exists storyURLs st' evs,
             run = (Ret (Some storyURLs), st') /\
             trace st' = (trace st ++ evs)%list /\
             getsoup_urls evs =
               ExtractorFFNet.page_url collectionURL 1
               :: map (ExtractorFFNet.page_url collectionURL)
                    (Py.range 1 (N + 1))).
  { subst run. unfold ExtractorFFNet._ScanCollection. rewrite Hurl.
    cbv zeta. fold collectionURL.
    change (collectionURL ++ "/99/0/1/0/0/0/0/")
      with (ExtractorFFNet.page_url collectionURL 1).
    unfold bind at 1.
    pose proof (Hfetch (ExtractorFFNet.page_url collectionURL 1) st) as Hf.
    destruct (GetSoup_trace E (ExtractorFFNet.page_url collectionURL 1)
                "html.parser" st) as (evs1 & T1 & F1).
    destruct (ExtractorFFNet._GetSoup E _ "html.parser" st) as [r st1].
    simpl in Hf, T1. subst r.
    unfold bind at 1, lift. rewrite Hlast.
    unfold bind at 1. rewrite HN.
    unfold bind at 1.
    destruct (scan_pages_fetches E site Hfetch collectionURL
                (Py.range 1 (N + 1)) [] st1)
      as (ids & st2 & evs2 & Heq & T2 & F2).
    rewrite Heq. unfold ret.
    eexists. exists st2. eexists. split; [reflexivity|]. split.
    - rewrite T2, T1, <- app_assoc. reflexivity.
    - rewrite getsoup_urls_app. simpl. rewrite F1, F2. reflexivity. }
  destruct Hrun as (urls & st' & evs & -> & T & F). simpl. split.
  - exists urls. reflexivity.
  - rewrite (new_events_app st _ evs T). exact F.
Qed.

(** A site that the solver cannot reach but the fallback fetcher can. *)
Lemma GetSoup_by_fallback E site :
  (forall n r, failure_mode (http E n r) = true) ->
  (forall n url parserName, webSession_GetSoup E n url parserName = Some (site url)) ->
  forall url parserName st,
    fst (ExtractorFFNet._GetSoup E url parserName st) = Ret (Some (site url)).
Proof.
  intros Hnet Hweb url parserName st.
  destruct (_useFlareSolverr (self st)) eqn:Huse.
  - rewrite (GetSoup_configured E url parserName st Huse). unfold bind at 1.
    pose proof (SolveChallenge_failing (http E) url (FlareSolverrPort E)
                  60000 3
                  (mkState (flaresolverr_session st) (self st)
                     (requests_made st) (fetches_made st)
                     (trace st ++ [EvGetSoup url parserName])) Hnet) as Hs.
    destruct (FlareSolverr.SolveChallenge _ _ _ _ _ _) as [r st1].
    simpl in Hs. subst r. simpl Json.truthy. cbv iota.
    unfold ExtractorFFNet.webSession_fetch. run.
    rewrite Hweb. reflexivity.
  - unfold ExtractorFFNet._GetSoup. run. rewrite Huse. simpl.
    rewrite Hweb. reflexivity.
Qed.

Lemma ScanCollection_fetches_witness :
  getsoup_urls
    (new_events plain
       (snd (ExtractorFFNet._ScanCollection paged_site
               "https://www.fanfiction.net/community/Foo/123/" plain)))
  = ["https://www.fanfiction.net/community/Foo/123/99/0/1/0/0/0/0/";
     "https://www.fanfiction.net/community/Foo/123/99/0/1/0/0/0/0/";
     "https://www.fanfiction.net/community/Foo/123/99/0/2/0/0/0/0/";
     "https://www.fanfiction.net/community/Foo/123/99/0/3/0/0/0/0/";
     "https://www.fanfiction.net/community/Foo/123/99/0/4/0/0/0/0/";
     "https://www.fanfiction.net/community/Foo/123/99/0/5/0/0/0/0/"].
Proof.
  apply (ScanCollection_fetches paged_site (fun _ => paged_soup)
           "https://www.fanfiction.net/community/Foo/123/"
           [(2%nat, "123"); (1%nat, "Foo")]
           (Some "/community/Foo/123/99/0/5/0/0/0/0/") 5 plain).
  - intros url st'.
    apply (GetSoup_by_fallback paged_site (fun _ => paged_soup));
      intros; reflexivity.
  - reflexivity.
  - reflexivity.
  - reflexivity.
Defined.

(** C4, as stated, fails: with no "Last" link on the first page, the page
    is fetched twice, not once. *)
Lemma ScanCollection_single_page_fetched_twice :
  let run := ExtractorFFNet._ScanCollection quiet_site
               "https://www.fanfiction.net/community/Foo/123/" plain in
  center_links empty_soup = [] /\
  fst run = Ret (Some []) /\
  getsoup_urls (new_events plain (snd run))
  = ["https://www.fanfiction.net/community/Foo/123/99/0/1/0/0/0/0/";
     "https://www.fanfiction.net/community/Foo/123/99/0/1/0/0/0/0/"] /\
  List.length (getsoup_urls (new_events plain (snd run))) <> 1%nat.
Proof. vm_compute. repeat split. discriminate. Qed.

(** *** Scanning a story *)

Lemma getitem_first_lines {A} (l : list A) (x : A) :
  Py.getitem l 3 = Some x ->
  exists a b c,
    Py.getitem l 0 = Some a /\ Py.getitem l 1 = Some b /\
    Py.getitem l 2 = Some c.
Proof.
  destruct l as [|a [|b [|c [|d l]]]]; try (vm_compute; discriminate).
  intros _. exists a, b, c.
  rewrite (getitem_nonneg _ 0 a), (getitem_nonneg _ 1 a),
    (getitem_nonneg _ 2 a) by (simpl List.length; lia).
  auto.
Qed.

Lemma getitem_last_two {A} (pre : list A) (u p : A) :
  Py.getitem (pre ++ [u; p]) (-1) = Some p /\
  Py.getitem (pre ++ [u; p]) (-2) = Some u.
Proof.
  assert (Hlen : List.length (pre ++ [u; p]) = (List.length pre + 2)%nat)
    by (rewrite length_app; reflexivity).
  split.
  - rewrite (getitem_negative _ (-1) p) by lia. rewrite Hlen.
    replace (Z.to_nat (Z.of_nat (List.length pre + 2) + -1))
      with (List.length pre + 1)%nat by lia.
    rewrite app_nth2 by lia.
    replace (List.length pre + 1 - List.length pre)%nat with 1%nat by lia.
    reflexivity.
  - rewrite (getitem_negative _ (-2) p) by lia. rewrite Hlen.
    replace (Z.to_nat (Z.of_nat (List.length pre + 2) + -2))
      with (List.length pre + 0)%nat by lia.
    rewrite app_nth2 by lia.
    replace (List.length pre + 0 - List.length pre)%nat with 0%nat by lia.
    reflexivity.
Qed.

Lemma pick_timestamps_two (pre : list string) (u p : string) :
  ExtractorFFNet.pick_timestamps (pre ++ [u; p]) = (Some p, Some u).
Proof.
  unfold ExtractorFFNet.pick_timestamps.
  destruct (getitem_last_two pre u p) as [-> ->].
  replace (2 <=? List.length (pre ++ [u; p]))%nat with true; auto.
  symmetry. apply Nat.leb_le. rewrite length_app. simpl. lia.
Qed.

(** A time stamp that converts is not empty, and neither is its date. *)
Lemma TimestampToDate_some E (t d : string) :
  ExtractorFFNet._TimestampToDate E t = Ret (Some d) ->
  (exists c t', t = String c t') /\ (exists c d', d = String c d').
Proof.
  unfold ExtractorFFNet._TimestampToDate.
  destruct t as [|c t']; simpl; [discriminate|].
  intros H. split; [eauto|].
  destruct (Py.int (String c t')); [|discriminate].
  destruct (Dates.fromtimestamp _ _) as [dt|e].
  - injection H as <-. unfold Dates.strftime, Dates.pad4. simpl. eauto.
  - destruct (ExtractorFFNet.is_ValueError_or_OSError e); discriminate.
Qed.

Lemma append_chapterURLs_run baseURL storyID indices :
  forall st,
    ExtractorFFNet.append_chapterURLs baseURL storyID indices st =
      (Ret tt,
       mkState (flaresolverr_session st)
         (mkExtractor (_useFlareSolverr (self st))
            (_flareSolverrChecked (self st)) (_flareSolverrAvailable (self st))
            (_chapterParserName (self st))
            (_chapterURLs (self st) ++
             map (fun index =>
                    baseURL ++ "/s/" ++ storyID ++ "/" ++ Py.str index ++ "/")
                 indices)
            (Story (self st)))
         (requests_made st) (fetches_made st) (trace st)).
Proof.
  induction indices as [|index rest IH];
    intros [sess [use chk avail parser urls story] reqs fetches tr].
  - simpl. rewrite app_nil_r. reflexivity.
  - change (ExtractorFFNet.append_chapterURLs baseURL storyID (index :: rest))
      with (bind (ExtractorFFNet.append_chapterURL
                    (baseURL ++ "/s/" ++ storyID ++ "/" ++ Py.str index ++ "/"))
                 (fun _ => ExtractorFFNet.append_chapterURLs baseURL storyID rest)).
    cbv beta iota zeta delta
      [bind ExtractorFFNet.append_chapterURL get_self set_self].
    rewrite IH. simpl. rewrite <- app_assoc. reflexivity.
Qed.

(** Runs [_InternallyScanStory] on a state given by its fields. *)
Ltac scan :=
  repeat (cbv beta iota zeta delta
            [bind ret raise emit log or_raise lift get_self set_self
             ExtractorFFNet.set_metadata ExtractorFFNet.get_metadata
             fst snd self flaresolverr_session requests_made fetches_made trace
             _useFlareSolverr _flareSolverrChecked _flareSolverrAvailable
             _chapterParserName _chapterURLs Story
             URL Title Author Summary DatePublished DateUpdated ChapterCount
             WordCount option_map];
          rewrite ?append_chapterURLs_run).

Section Scan.

Variable E : environment.
Variables (url : string) (soup : Soup) (h : Header) (line3 : string).
Hypothesis header_found : profile_top soup = Some h.
Hypothesis details_line :
  Py.getitem
    (Py.split ExtractorFFNet.newline
       (Py.replace "Follow/Fav" "" (header_text h))) 3 = Some line3.


(** The state of the story once the dates are resolved, whatever comes
    after. *)
Lemma scan_dates st w meta dp du :
  Re.search ExtractorFFNet.re_words line3 = Some w ->
  Story (self st) = Some meta ->
  ExtractorFFNet.resolve_date E
    (fst (ExtractorFFNet.pick_timestamps (header_xutime h))) line3 "Published"
    = Ret dp ->
  ExtractorFFNet.resolve_date E
    (snd (ExtractorFFNet.pick_timestamps (header_xutime h))) line3 "Updated"
    = Ret du ->
  let published :=
    match dp with Some (String c d) => String c d | _ => GetCurrentDate E end in
  let updated :=
    match du with Some (String c d) => String c d | _ => published end in
  let final := Story (self (snd (ExtractorFFNet._InternallyScanStory E url soup st))) in
  option_map DatePublished final = Some published /\
  option_map DateUpdated final = Some updated.
Proof.
  intros Hw Hstory Hp Hu published updated final.
  subst final published updated.
  destruct (getitem_first_lines _ _ details_line) as (l0 & l1 & l2 & H0 & H1 & H2).
  destruct st as [sess [use chk avail parser urls story] reqs fetches tr].
  simpl in Hstory. subst story.
  destruct meta as [mu mt ma ms mp mupd mc mw].
  unfold ExtractorFFNet._InternallyScanStory.
  rewrite header_found. scan. rewrite details_line. scan. rewrite Hw.
  destruct (ExtractorFFNet.pick_timestamps (header_xutime h)) as [tp tu].
  simpl in Hp, Hu. scan. rewrite Hp. scan.
  destruct dp as [[|c d]|]; scan; rewrite Hu; scan; rewrite H0, H1, H2; scan;
    destruct (Re.search ExtractorFFNet.re_chapters line3) as [g|]; scan;
    try destruct (Py.int (ExtractorFFNet.group_str 1 g)); scan;
    destruct (Py.int (Py.replace "," "" (ExtractorFFNet.group_str 1 w))); scan;
    try destruct (ExtractorFFNet._GetStoryID _); scan; auto.
Qed.


End Scan.

(** C1 (amended).  Once the header and its word count are found: when two
    or more elements carry a time stamp and the last two convert, the
    updated date is the second-to-last one converted to YYYY-MM-DD and the
    published date is the last one so converted; when exactly one element
    carries a time stamp and it converts, it gives the published date, and
    the updated date is the date found after "Updated:" in the line of
    details when there is one, and the published date otherwise. *)
Theorem InternallyScanStory_dates :
  forall E url soup h line3 w meta st,
    profile_top soup = Some h ->
    Py.getitem
      (Py.split ExtractorFFNet.newline
         (Py.replace "Follow/Fav" "" (header_text h))) 3 = Some line3 ->
    Re.search ExtractorFFNet.re_words line3 = Some w ->
    Story (self st) = Some meta ->
    let final :=
      Story (self (snd (ExtractorFFNet._InternallyScanStory E url soup st))) in
    (forall pre u p dp du,
       header_xutime h = (pre ++ [u; p])%list ->
       ExtractorFFNet._TimestampToDate E p = Ret (Some dp) ->
       ExtractorFFNet._TimestampToDate E u = Ret (Some du) ->
       option_map DatePublished final = Some dp /\
       option_map DateUpdated final = Some du) /\
    (forall p dp,
       header_xutime h = [p] ->
       ExtractorFFNet._TimestampToDate E p = Ret (Some dp) ->
       option_map DatePublished final = Some dp /\
       option_map DateUpdated final =
         Some (match ExtractorFFNet._ExtractDateFromText E line3 "Updated" with
               | Some (String c d) => String c d
               | _ => dp
               end)).
Proof.
  intros E url soup h line3 w meta st Hh H3 Hw Hstory final. split.
  - intros pre u p dp du Hx Hp Hu.
    destruct (TimestampToDate_some E p dp Hp) as ((cp & p' & ->) & (c1 & dp' & ->)).
    destruct (TimestampToDate_some E u du Hu) as ((cu & u' & ->) & (c2 & du' & ->)).
    apply (scan_dates E url soup h line3 Hh H3 st w meta
             (Some (String c1 dp')) (Some (String c2 du')) Hw Hstory);
      rewrite Hx, pick_timestamps_two; assumption.
  - intros p dp Hx Hp.
    destruct (TimestampToDate_some E p dp Hp) as ((cp & p' & ->) & (c1 & dp' & ->)).
    apply (scan_dates E url soup h line3 Hh H3 st w meta
             (Some (String c1 dp'))
             (ExtractorFFNet._ExtractDateFromText E line3 "Updated") Hw Hstory);
      rewrite Hx; [exact Hp | reflexivity].
Qed.

Lemma InternallyScanStory_dates_witness :
  let final :=
    Story (self (snd (ExtractorFFNet._InternallyScanStory quiet_site
                        "https://www.fanfiction.net/s/12345/1/"
                        (story_page
                           "Rated: T - Chapters: 3 - Words: 1,234 - Updated: Apr 5, 2012 - Published: Mar 31, 2011"
                           ["1333584000"; "1301529600"])
                        plain))) in
  option_map DatePublished final = Some "2011-03-31" /\
  option_map DateUpdated final = Some "2012-04-05".
Proof.
  apply (InternallyScanStory_dates quiet_site
           "https://www.fanfiction.net/s/12345/1/"
           (story_page
              "Rated: T - Chapters: 3 - Words: 1,234 - Updated: Apr 5, 2012 - Published: Mar 31, 2011"
              ["1333584000"; "1301529600"])
           (mkHeader
              (header_of
                 "Rated: T - Chapters: 3 - Words: 1,234 - Updated: Apr 5, 2012 - Published: Mar 31, 2011")
              ["1333584000"; "1301529600"])
           "Rated: T - Chapters: 3 - Words: 1,234 - Updated: Apr 5, 2012 - Published: Mar 31, 2011"
           [(1%nat, "1,234")]
           (mkMetadata "https://www.fanfiction.net/s/12345/1/Title"
              "" "" "" "" "" 0 0)
           plain eq_refl eq_refl eq_refl eq_refl)
    with (pre := []) (u := "1333584000") (p := "1301529600");
    reflexivity.
Defined.

(** C1, as stated, fails for a single time stamp: the updated date is
    looked for in the text of the header before it falls back to the
    published date. *)
Lemma single_timestamp_updated_from_text :
  let page :=
    story_page
      "Rated: T - Words: 1,234 - Updated: 4/5/2012 - Published: 3/31/2011"
      ["1301529600"] in
  let final :=
    Story (self (snd (ExtractorFFNet._InternallyScanStory quiet_site
                        "https://www.fanfiction.net/s/12345/1/" page plain))) in
  option_map (fun hd => List.length (header_xutime hd)) (profile_top page)
    = Some 1%nat /\
  option_map DatePublished final = Some "2011-03-31" /\
  option_map DateUpdated final = Some "2012-04-05" /\
  option_map DateUpdated final <> option_map DatePublished final.
Proof. vm_compute. repeat split. discriminate. Qed.




(* ================================================================== *)
(** ** Soundness of the matcher *)

(** Whatever [run] accepts is a match: the text splits into a match of
    [r] and the rest, on which the continuation succeeded. *)
Lemma run_sound {R} (r : Re.re) :
  forall s g (k : string -> Re.groups -> option R) x,
    Re.run r s g k = Some x ->
    exists m s' g',
      s = m ++ s' /\ captures r m g g' /\ k s' g' = Some x.
Proof.
  induction r as [|p|a IHa b IHb|a IHa b IHb|a IHa|i a IHa];
    intros s g k x H; simpl in H.
  - exists "", s, g. repeat split; auto. constructor.
  - destruct s as [|c s]; [discriminate|].
    destruct (p c) eqn:Hp; [|discriminate].
    exists (String c ""), s, g. repeat split; auto. constructor. exact Hp.
  - apply IHa in H. destruct H as (m1 & s1 & g1 & -> & Ha & H).
    apply IHb in H. destruct H as (m2 & s2 & g2 & -> & Hb & H).
    exists (m1 ++ m2), s2, g2. repeat split; auto.
    + clear. induction m1; simpl; congruence.
    + econstructor; eauto.
  - destruct (Re.run a s g k) eqn:Ha.
    + injection H as <-. apply IHa in Ha.
      destruct Ha as (m & s' & g' & -> & Hc & Hk).
      exists m, s', g'. repeat split; auto. apply cap_alt_l. exact Hc.
    + apply IHb in H. destruct H as (m & s' & g' & -> & Hc & Hk).
      exists m, s', g'. repeat split; auto. apply cap_alt_r. exact Hc.
  - revert H. generalize (String.length s) as n. intros n. revert s g x.
    induction n as [|n IHn]; intros s g x H.
    + exists "", s, g. repeat split; auto. constructor.
    + match type of H with
      | match ?t with _ => _ end = _ => destruct t eqn:Ht
      end.
      * injection H as <-. apply IHa in Ht.
        destruct Ht as (m1 & s1 & g1 & -> & Hc & Hk).
        destruct (String.length s1 <? String.length (m1 ++ s1))%nat;
          [|discriminate].
        apply IHn in Hk. destruct Hk as (m2 & s2 & g2 & -> & Hc2 & Hk).
        exists (m1 ++ m2), s2, g2. repeat split; auto.
        -- clear. induction m1; simpl; congruence.
        -- econstructor; eauto.
      * exists "", s, g. repeat split; auto. constructor.
  - apply IHa in H. destruct H as (m & s' & g' & -> & Hc & Hk).
    rewrite substring_prefix in Hk.
    exists m, s', ((i, m) :: g'). repeat split; auto. constructor. exact Hc.
Qed.

Lemma suffix_of_refl (s : string) : suffix_of s s.
Proof. destruct s; left; reflexivity. Qed.

(** The groups [search] returns are those of a match that starts
    somewhere in the text. *)
Lemma search_sound (r : Re.re) :
  forall s g,
    Re.search r s = Some g ->
    exists t m s', suffix_of t s /\ t = m ++ s' /\ captures r m [] g.
Proof.
  induction s as [|c s IH]; intros g H; simpl in H.
  - destruct (Re.run r "" [] _) eqn:Hr; [|discriminate].
    injection H as <-. apply run_sound in Hr.
    destruct Hr as (m & s' & g' & Hs & Hc & Hk). injection Hk as <-.
    exists "", m, s'. repeat split; auto. left. reflexivity.
  - destruct (Re.run r (String c s) [] _) eqn:Hr.
    + injection H as <-. apply run_sound in Hr.
      destruct Hr as (m & s' & g' & Hs & Hc & Hk). injection Hk as <-.
      exists (String c s), m, s'. repeat split; auto. left. reflexivity.
    + apply IH in H. destruct H as (t & m & s' & Hsuf & Ht & Hc).
      exists t, m, s'. repeat split; auto. right. exact Hsuf.
Qed.

(** *** Matches of the building blocks *)

Lemma captures_chr c m g g' :
  captures (Re.chr c) m g g' -> m = String c "" /\ g' = g.
Proof.
  unfold Re.chr. intros H. inversion H; subst.
  match goal with
  | Hp : Ascii.eqb _ _ = true |- _ => apply Ascii.eqb_eq in Hp; subst
  end.
  auto.
Qed.

Lemma captures_lit l : forall m g g',
  captures (Re.lit l) m g g' -> m = l /\ g' = g.
Proof.
  induction l as [|c l IH]; intros m g g' H; simpl in H.
  - inversion H; subst. auto.
  - inversion H; subst.
    match goal with
    | H1 : captures (Re.chr _) _ _ _, H2 : captures (Re.lit _) _ _ _ |- _ =>
        apply captures_chr in H1; destruct H1 as [-> ->];
        apply IH in H2; destruct H2 as [-> ->]
    end.
    auto.
Qed.

Lemma all_chars_app p (a b : string) :
  all_chars p (a ++ b) = all_chars p a && all_chars p b.
Proof.
  induction a as [|c a IH]; simpl; auto.
  rewrite IH, andb_assoc. reflexivity.
Qed.

Lemma captures_star_cls p m g g' :
  captures (Re.Star (Re.Cls p)) m g g' -> all_chars p m = true /\ g' = g.
Proof.
  intros H. remember (Re.Star (Re.Cls p)) as r eqn:Hr.
  induction H; try discriminate; injection Hr as ->.
  - auto.
  - inversion H; subst.
    destruct (IHcaptures2 eq_refl) as [Hm ->].
    split; auto. simpl. rewrite Hm.
    match goal with Hp : p _ = true |- _ => rewrite Hp end. reflexivity.
Qed.

Lemma captures_plus_cls p m g g' :
  captures (Re.plus (Re.Cls p)) m g g' ->
  m <> "" /\ all_chars p m = true /\ g' = g.
Proof.
  unfold Re.plus. intros H. inversion H; subst.
  match goal with
  | H1 : captures (Re.Cls p) _ _ _, H2 : captures (Re.Star _) _ _ _ |- _ =>
      inversion H1; subst; apply captures_star_cls in H2;
      destruct H2 as [Hm ->]
  end.
  repeat split; auto; simpl.
  - discriminate.
  - rewrite Hm.
    match goal with Hp : p _ = true |- _ => rewrite Hp end. reflexivity.
Qed.

(** *** Text *)

Lemma prefix_append (a b : string) : prefix a (a ++ b) = true.
Proof.
  induction a as [|c a IH]; simpl.
  - destruct b; reflexivity.
  - destruct (ascii_dec c c); [exact IH|congruence].
Qed.

Lemma contains_unfold (sub s : string) :
  Py.contains sub s =
    prefix sub s || match s with
                    | EmptyString => false
                    | String _ s' => Py.contains sub s'
                    end.
Proof. destruct s; reflexivity. Qed.

Lemma contains_suffix (sub t s : string) :
  suffix_of t s -> prefix sub t = true -> Py.contains sub s = true.
Proof.
  induction s as [|c s IH]; intros H Hp; rewrite contains_unfold.
  - destruct H as [->|[]]. rewrite Hp. reflexivity.
  - destruct H as [->|H]; [rewrite Hp; reflexivity|].
    rewrite (IH H Hp). apply orb_true_r.
Qed.

Lemma append_assoc (a b c : string) : (a ++ b) ++ c = a ++ b ++ c.
Proof. induction a; simpl; congruence. Qed.

Lemma no_space_digits (s : string) :
  all_chars Py.is_digit s = true -> no_space s = true.
Proof.
  induction s as [|c s IH]; simpl; auto.
  intros H. apply andb_prop in H. destruct H as [Hc Hs].
  rewrite (IH Hs), andb_true_r.
  destruct c as [[] [] [] [] [] [] [] []]; try discriminate; reflexivity.
Qed.

Lemma int_digits_all_digits (s : string) :
  all_chars Py.is_digit s = true ->
  forall acc b, 0 <= acc -> (s <> "" \/ b = true) ->
  exists n, Py.int_digits s acc b = Some n /\ 0 <= n.
Proof.
  induction s as [|c s IH]; intros H acc b Hacc Hb; cbn [Py.int_digits].
  - destruct Hb as [Hb| ->]; [congruence|]. eauto.
  - simpl in H. apply andb_prop in H. destruct H as [Hc Hs].
    rewrite Hc. apply (IH Hs); [|auto].
    assert (0 <= Py.digit_val c).
    { destruct c as [[] [] [] [] [] [] [] []]; try discriminate;
        vm_compute; discriminate. }
    lia.
Qed.

(** [int()] accepts every non-empty run of digits, and gives a number that
    is not negative. *)
Lemma int_all_digits (s : string) :
  s <> "" -> all_chars Py.is_digit s = true ->
  exists n, Py.int s = Some n /\ 0 <= n.
Proof.
  intros Hne Hd. unfold Py.int.
  rewrite (strip_no_space _ (no_space_digits _ Hd)).
  destruct s as [|c s]; [congruence|].
  assert (Hc : Py.is_digit c = true)
    by (simpl in Hd; apply andb_prop in Hd; tauto).
  assert (Ascii.eqb c "+" = false /\ Ascii.eqb c "-" = false) as [-> ->].
  { destruct c as [[] [] [] [] [] [] [] []]; try discriminate; auto. }
  apply int_digits_all_digits; auto. lia.
Qed.

(** *** What the patterns of the extractor capture *)

Lemma chapters_group (text : string) (g : Re.groups) :
  Re.search ExtractorFFNet.re_chapters text = Some g ->
  ExtractorFFNet.group_str 1 g <> "" /\
  all_chars Py.is_digit (ExtractorFFNet.group_str 1 g) = true.
Proof.
  intros H. apply search_sound in H.
  destruct H as (t & m & s' & _ & _ & Hc).
  unfold ExtractorFFNet.re_chapters in Hc. cbn [Re.seq] in Hc.
  inversion Hc as [| |a b m1 m2 g0 g1 g2 H1 H2| | | | |]; subst.
  apply (captures_lit "Chapters: ") in H1. destruct H1 as [-> ->].
  inversion H2 as [| | | | | | |i a m0 g0 g1 H3]; subst.
  apply captures_plus_cls in H3. destruct H3 as (Hne & Hd & ->).
  unfold ExtractorFFNet.group_str. simpl. auto.
Qed.

Lemma story_id_group (text : string) (g : Re.groups) :
  Re.search ExtractorFFNet.re_story_id_slash text = Some g ->
  let id := ExtractorFFNet.group_str 1 g in
  id <> "" /\ all_chars Py.is_digit id = true /\
  Py.contains ("/s/" ++ id ++ "/") text = true.
Proof.
  intros H. apply search_sound in H.
  destruct H as (t & m & s' & Hsuf & Ht & Hc).
  unfold ExtractorFFNet.re_story_id_slash in Hc. cbn [Re.seq] in Hc.
  inversion Hc as [| |a b m1 m2 g0 g1 g2 H1 H2| | | | |]; subst.
  apply (captures_lit "/s/") in H1. destruct H1 as [-> ->].
  inversion H2 as [| |a b m3 m4 g0 g3 g4 H3 H4| | | | |]; subst.
  inversion H3 as [| | | | | | |i a m0 g0 g5 H5]; subst.
  apply captures_plus_cls in H5. destruct H5 as (Hne & Hd & ->).
  apply captures_chr in H4. destruct H4 as [-> ->].
  unfold ExtractorFFNet.group_str. simpl Re.group. cbv iota.
  repeat split; auto.
  apply (contains_suffix _ _ _ Hsuf).
  rewrite <- !append_assoc. apply prefix_append.
Qed.

(** A literal matches exactly when the text starts with it. *)
Lemma run_lit {R} (l : string) :
  forall s g (k : string -> Re.groups -> option R),
    prefix l s = false -> Re.run (Re.lit l) s g k = None.
Proof.
  induction l as [|c l IH]; intros s g k H.
  - destruct s; discriminate.
  - destruct s as [|c' s]; [reflexivity|]. simpl in H |- *.
    destruct (ascii_dec c c') as [->|Hn].
    + rewrite Ascii.eqb_refl. apply IH. exact H.
    + apply Ascii.eqb_neq in Hn. rewrite Hn. reflexivity.
Qed.

Lemma search_without_literal (l : string) (r : Re.re) :
  forall s,
    Py.contains l s = false -> Re.search (Re.Seq (Re.lit l) r) s = None.
Proof.
  induction s as [|c s IH]; intros H; rewrite contains_unfold in H;
    apply orb_false_elim in H; destruct H as [Hp Hs].
  - simpl Re.search. cbn [Re.run]. rewrite run_lit by exact Hp. reflexivity.
  - cbn [Re.search]. cbn [Re.run]. rewrite run_lit by exact Hp.
    apply IH. exact Hs.
Qed.

(** X1. The story id [_GetStoryID] reads in a URL is a non-empty run of
    digits that stands in the URL between "/s/" and a slash; a URL in which
    "/s/" does not occur has no story id, and neither has the empty URL. *)
Theorem GetStoryID_is_a_number :
  forall URL,
    (forall id,
       ExtractorFFNet._GetStoryID URL = Some id ->
       id <> "" /\ all_chars Py.is_digit id = true /\
       Py.contains ("/s/" ++ id ++ "/") URL = true) /\
    (Py.contains "/s/" URL = false -> ExtractorFFNet._GetStoryID URL = None).
Proof.
  intros URL. split.
  - intros id H. unfold ExtractorFFNet._GetStoryID in H.
    destruct (URL =? "")%string; [discriminate|].
    destruct (Re.search ExtractorFFNet.re_story_id_slash URL) as [g|] eqn:Hg;
      [|discriminate].
    injection H as <-. apply story_id_group. exact Hg.
  - intros H. unfold ExtractorFFNet._GetStoryID.
    destruct (URL =? "")%string; [reflexivity|].
    unfold ExtractorFFNet.re_story_id_slash. cbn [Re.seq].
    rewrite search_without_literal by exact H. reflexivity.
Qed.

Lemma GetStoryID_is_a_number_witness :
  all_chars Py.is_digit "12345" = true /\
  ExtractorFFNet._GetStoryID "https://www.fanfiction.net/u/12345/" = None.
Proof.
  split.
  - apply (proj1 (GetStoryID_is_a_number
                    "https://www.fanfiction.net/s/12345/1/Title") "12345").
    reflexivity.
  - apply (proj2 (GetStoryID_is_a_number
                    "https://www.fanfiction.net/u/12345/")).
    reflexivity.
Defined.

(** *** The story after a scan *)

Lemma getitem_3_length {A} (l : list A) (x : A) :
  Py.getitem l 3 = Some x -> 3 < Z.of_nat (List.length l).
Proof.
  destruct l as [|a [|b [|c [|d l]]]]; try (vm_compute; discriminate).
  intros _. simpl List.length. lia.
Qed.

Section ScanResult.

Variable E : environment.
Variables (url : string) (soup : Soup) (h : Header) (line3 : string).
Hypothesis header_found : profile_top soup = Some h.
Hypothesis details_line :
  Py.getitem
    (Py.split ExtractorFFNet.newline
       (Py.replace "Follow/Fav" "" (header_text h))) 3 = Some line3.

(** The chapter count of a line of details always converts. *)
Lemma chapter_count_converts :
  exists count,
    0 <= count /\
    match Re.search ExtractorFFNet.re_chapters line3 with
    | Some g => Py.int (ExtractorFFNet.group_str 1 g)
    | None => Some 1
    end = Some count.
Proof.
  destruct (Re.search ExtractorFFNet.re_chapters line3) as [g|] eqn:Hg.
  - destruct (chapters_group _ _ Hg) as [Hne Hd].
    destruct (int_all_digits _ Hne Hd) as (n & Hn & Hpos). eauto.
  - exists 1. split; [lia|reflexivity].
Qed.

(** The extractor after a scan that found everything. *)
Lemma scan_success st w wc dp du meta id count :
  Re.search ExtractorFFNet.re_words line3 = Some w ->
  Py.int (Py.replace "," "" (ExtractorFFNet.group_str 1 w)) = Some wc ->
  match Re.search ExtractorFFNet.re_chapters line3 with
  | Some g => Py.int (ExtractorFFNet.group_str 1 g)
  | None => Some 1
  end = Some count ->
  ExtractorFFNet.resolve_date E
    (fst (ExtractorFFNet.pick_timestamps (header_xutime h))) line3 "Published"
    = Ret dp ->
  ExtractorFFNet.resolve_date E
    (snd (ExtractorFFNet.pick_timestamps (header_xutime h))) line3 "Updated"
    = Ret du ->
  Story (self st) = Some meta ->
  ExtractorFFNet._GetStoryID (URL meta) = Some id ->
  let lines :=
    Py.split ExtractorFFNet.newline
      (Py.replace "Follow/Fav" "" (header_text h)) in
  let published :=
    match dp with Some (String c d) => String c d | _ => GetCurrentDate E end in
  let updated :=
    match du with Some (String c d) => String c d | _ => published end in
  let run := ExtractorFFNet._InternallyScanStory E url soup st in
  fst run = Ret true /\
  self (snd run) =
    mkExtractor (_useFlareSolverr (self st)) (_flareSolverrChecked (self st))
      (_flareSolverrAvailable (self st)) (_chapterParserName (self st))
      (_chapterURLs (self st) ++
       map (fun index =>
              GetSiteURL E (URL meta) ++ "/s/" ++ id ++ "/"
              ++ Py.str index ++ "/")
           (Py.range 1 (count + 1)))
      (Some (mkMetadata (URL meta)
               (Py.strip (nth 0 lines ""))
               (Py.strip (Py.drop 4 (nth 1 lines "")))
               (Py.strip (StripHTML E (nth 2 lines "")))
               published updated count wc)).
Proof.
  intros Hw Hwc Hcount Hp Hu Hstory Hid lines published updated run.
  subst run published updated.
  pose proof (getitem_3_length _ _ details_line) as Hlen. fold lines in Hlen.
  pose proof (getitem_nonneg lines 0 "" ltac:(lia)) as H0.
  pose proof (getitem_nonneg lines 1 "" ltac:(lia)) as H1.
  pose proof (getitem_nonneg lines 2 "" ltac:(lia)) as H2.
  change (Z.to_nat 0) with 0%nat in H0.
  change (Z.to_nat 1) with 1%nat in H1.
  change (Z.to_nat 2) with 2%nat in H2.
  fold lines in details_line.
  destruct st as [sess [use chk avail parser urls story] reqs fetches tr].
  simpl in Hstory. subst story.
  destruct meta as [mu mt ma ms mp mupd mc mw]. simpl in Hid.
  unfold ExtractorFFNet._InternallyScanStory.
  rewrite header_found. scan. fold lines. rewrite details_line. scan.
  rewrite Hw.
  destruct (ExtractorFFNet.pick_timestamps (header_xutime h)) as [tp tu].
  simpl in Hp, Hu. scan. rewrite Hp. scan.
  destruct dp as [[|c d]|]; scan; rewrite Hu; scan; rewrite H0, H1, H2; scan;
    destruct (Re.search ExtractorFFNet.re_chapters line3) as [g|]; scan;
    rewrite ?Hcount; try (injection Hcount as <-); scan;
    rewrite Hwc; scan; rewrite Hid; scan; auto.
Qed.

End ScanResult.

(** X2. A scan that finds the word count and the story id returns [True]
    and leaves the story filled: the title is the first header line, the
    author the second one without its first four characters, the summary
    the third one, the chapter count the figure after "Chapters:" (it
    always converts, to a number that is not negative) or 1 without one,
    and the word count the figure after "Words:" without its commas.  The
    chapter URLs [base/s/id/1/], ..., [base/s/id/count/] are appended, in
    this order, to those the extractor already holds; nothing else of the
    extractor changes. *)
Theorem InternallyScanStory_fills_story :
  forall E url soup h line3 st w wc dp du meta id,
    profile_top soup = Some h ->
    Py.getitem
      (Py.split ExtractorFFNet.newline
         (Py.replace "Follow/Fav" "" (header_text h))) 3 = Some line3 ->
    Re.search ExtractorFFNet.re_words line3 = Some w ->
    Py.int (Py.replace "," "" (ExtractorFFNet.group_str 1 w)) = Some wc ->
    ExtractorFFNet.resolve_date E
      (fst (ExtractorFFNet.pick_timestamps (header_xutime h))) line3
      "Published" = Ret dp ->
    ExtractorFFNet.resolve_date E
      (snd (ExtractorFFNet.pick_timestamps (header_xutime h))) line3
      "Updated" = Ret du ->
    Story (self st) = Some meta ->
    ExtractorFFNet._GetStoryID (URL meta) = Some id ->
    let lines :=
      Py.split ExtractorFFNet.newline
        (Py.replace "Follow/Fav" "" (header_text h)) in
    let published :=
      match dp with Some (String c d) => String c d | _ => GetCurrentDate E end in
    let updated :=
      match du with Some (String c d) => String c d | _ => published end in
    let run := ExtractorFFNet._InternallyScanStory E url soup st in
    exists count,
      0 <= count /\
      match Re.search ExtractorFFNet.re_chapters line3 with
      | Some g => Py.int (ExtractorFFNet.group_str 1 g)
      | None => Some 1
      end = Some count /\
      fst run = Ret true /\
      self (snd run) =
        mkExtractor (_useFlareSolverr (self st)) (_flareSolverrChecked (self st))
          (_flareSolverrAvailable (self st)) (_chapterParserName (self st))
          (_chapterURLs (self st) ++
           map (fun index =>
                  GetSiteURL E (URL meta) ++ "/s/" ++ id ++ "/"
                  ++ Py.str index ++ "/")
               (Py.range 1 (count + 1)))
          (Some (mkMetadata (URL meta)
                   (Py.strip (nth 0 lines ""))
                   (Py.strip (Py.drop 4 (nth 1 lines "")))
                   (Py.strip (StripHTML E (nth 2 lines "")))
                   published updated count wc)).
Proof.
  intros E url soup h line3 st w wc dp du meta id Hh H3 Hw Hwc Hp Hu Hs Hid
    lines published updated run.
  destruct (chapter_count_converts line3) as (count & Hpos & Hcount).
  exists count. split; [exact Hpos|]. split; [exact Hcount|].
  apply (scan_success E url soup h line3 Hh H3 st w wc dp du meta id count);
    assumption.
Qed.

Lemma InternallyScanStory_fills_story_witness :
  let run :=
    ExtractorFFNet._InternallyScanStory quiet_site
      "https://www.fanfiction.net/s/12345/1/"
      (story_page
         "Rated: T - Chapters: 3 - Words: 1,234 - Published: 3/31/2011" [])
      plain in
  exists count,
    0 <= count /\ Some 3 = Some count /\ fst run = Ret true /\
    self (snd run) =
      mkExtractor false false false "html5lib"
        ["https://www.fanfiction.net/s/12345/1/";
         "https://www.fanfiction.net/s/12345/2/";
         "https://www.fanfiction.net/s/12345/3/"]
        (Some (mkMetadata "https://www.fanfiction.net/s/12345/1/Title"
                 "Some Title" "Somebody" "A summary."
                 "2011-03-31" "2011-03-31" count 1234)).
Proof.
  destruct (InternallyScanStory_fills_story quiet_site
              "https://www.fanfiction.net/s/12345/1/"
              (story_page
                 "Rated: T - Chapters: 3 - Words: 1,234 - Published: 3/31/2011" [])
              (mkHeader
                 (header_of
                    "Rated: T - Chapters: 3 - Words: 1,234 - Published: 3/31/2011")
                 [])
              "Rated: T - Chapters: 3 - Words: 1,234 - Published: 3/31/2011"
              plain [(1%nat, "1,234")] 1234 (Some "2011-03-31") None
              (mkMetadata "https://www.fanfiction.net/s/12345/1/Title"
                 "" "" "" "" "" 0 0)
              "12345" eq_refl eq_refl eq_refl eq_refl eq_refl eq_refl eq_refl
              eq_refl)
    as (count & Hpos & Hcount & Hret & Hself).
  exists count. split; [exact Hpos|]. split; [exact Hcount|].
  split; [exact Hret|]. rewrite Hself.
  vm_compute in Hcount. injection Hcount as <-. reflexivity.
Defined.

Lemma nth_range (f : Z -> string) (count index : Z) :
  1 <= index <= count ->
  Py.getitem (map f (Py.range 1 (count + 1))) (index - 1) = Some (f index).
Proof.
  intros H.
  assert (Hlen : List.length (map f (Py.range 1 (count + 1))) = Z.to_nat count).
  { unfold Py.range. rewrite !length_map, length_seq. f_equal. lia. }
  rewrite (getitem_nonneg _ _ (f index)) by (rewrite Hlen; lia).
  f_equal. rewrite map_nth. f_equal.
  unfold Py.range.
  rewrite (nth_indep _ index (1 + Z.of_nat 0))
    by (rewrite length_map, length_seq; lia).
  rewrite (map_nth (fun i => 1 + Z.of_nat i)).
  rewrite seq_nth by lia. lia.
Qed.

(** X3. After such a scan on an extractor that held no chapter URL,
    [ExtractChapter] with an index between 1 and the chapter count fetches
    the URL [base/s/id/index/], and only it. *)
Theorem ExtractChapter_after_scan :
  forall E url soup h line3 st w wc dp du meta id count index,
    profile_top soup = Some h ->
    Py.getitem
      (Py.split ExtractorFFNet.newline
         (Py.replace "Follow/Fav" "" (header_text h))) 3 = Some line3 ->
    Re.search ExtractorFFNet.re_words line3 = Some w ->
    Py.int (Py.replace "," "" (ExtractorFFNet.group_str 1 w)) = Some wc ->
    match Re.search ExtractorFFNet.re_chapters line3 with
    | Some g => Py.int (ExtractorFFNet.group_str 1 g)
    | None => Some 1
    end = Some count ->
    ExtractorFFNet.resolve_date E
      (fst (ExtractorFFNet.pick_timestamps (header_xutime h))) line3
      "Published" = Ret dp ->
    ExtractorFFNet.resolve_date E
      (snd (ExtractorFFNet.pick_timestamps (header_xutime h))) line3
      "Updated" = Ret du ->
    Story (self st) = Some meta ->
    ExtractorFFNet._GetStoryID (URL meta) = Some id ->
    _chapterURLs (self st) = [] ->
    1 <= index <= count ->
    let scanned := snd (ExtractorFFNet._InternallyScanStory E url soup st) in
    getsoup_urls
      (new_events scanned (snd (ExtractorFFNet.ExtractChapter E index scanned)))
    = [GetSiteURL E (URL meta) ++ "/s/" ++ id ++ "/" ++ Py.str index ++ "/"].
Proof.
  intros E url soup h line3 st w wc dp du meta id count index
    Hh H3 Hw Hwc Hcount Hp Hu Hs Hid Hurls Hindex scanned.
  destruct (scan_success E url soup h line3 Hh H3 st w wc dp du meta id count
              Hw Hwc Hcount Hp Hu Hs Hid) as [_ Hself].
  fold scanned in Hself. rewrite Hurls in Hself. simpl app in Hself.
  assert (Hlen : List.length (_chapterURLs (self scanned)) = Z.to_nat count).
  { rewrite Hself. simpl _chapterURLs. unfold Py.range.
    rewrite !length_map, length_seq. f_equal. lia. }
  apply ExtractChapter_fetch.
  - rewrite Hlen, Z.gtb_ltb. apply Z.ltb_ge. lia.
  - rewrite Hself. simpl _chapterURLs.
    apply (nth_range
             (fun index => GetSiteURL E (URL meta) ++ "/s/" ++ id ++ "/"
                           ++ Py.str index ++ "/")).
    exact Hindex.
Qed.

Lemma ExtractChapter_after_scan_witness :
  let scanned :=
    snd (ExtractorFFNet._InternallyScanStory quiet_site
           "https://www.fanfiction.net/s/12345/1/"
           (story_page
              "Rated: T - Chapters: 3 - Words: 1,234 - Published: 3/31/2011" [])
           plain) in
  getsoup_urls
    (new_events scanned
       (snd (ExtractorFFNet.ExtractChapter quiet_site 2 scanned)))
  = ["https://www.fanfiction.net/s/12345/2/"].
Proof.
  apply (ExtractChapter_after_scan quiet_site
           "https://www.fanfiction.net/s/12345/1/"
           (story_page
              "Rated: T - Chapters: 3 - Words: 1,234 - Published: 3/31/2011" [])
           (mkHeader
              (header_of
                 "Rated: T - Chapters: 3 - Words: 1,234 - Published: 3/31/2011")
              [])
           "Rated: T - Chapters: 3 - Words: 1,234 - Published: 3/31/2011"
           plain [(1%nat, "1,234")] 1234 (Some "2011-03-31") None
           (mkMetadata "https://www.fanfiction.net/s/12345/1/Title"
              "" "" "" "" "" 0 0)
           "12345" 3 2);
    try reflexivity; lia.
Defined.

(** X4. The scan of a page without the header element returns [False] and
    only logs; the scan of a header of fewer than four lines raises
    [IndexError] at the line of details, before anything is changed or
    logged. *)
Theorem InternallyScanStory_header_errors :
  forall E url soup st,
    (profile_top soup = None ->
     ExtractorFFNet._InternallyScanStory E url soup st =
       (Ret false,
        mkState (flaresolverr_session st) (self st) (requests_made st)
          (fetches_made st)
          (trace st ++ [EvLog ERROR "Header element not found."]))) /\
    (forall h,
       profile_top soup = Some h ->
       (List.length
          (Py.split ExtractorFFNet.newline
             (Py.replace "Follow/Fav" "" (header_text h))) < 4)%nat ->
       ExtractorFFNet._InternallyScanStory E url soup st
         = (Raise IndexError, st)).
Proof.
  intros E url soup st. split.
  - intros Hh. unfold ExtractorFFNet._InternallyScanStory. rewrite Hh.
    reflexivity.
  - intros h Hh Hlen. unfold ExtractorFFNet._InternallyScanStory. rewrite Hh.
    cbv zeta. unfold bind at 1.
    replace (Py.getitem _ 3) with (@None string); [reflexivity|].
    symmetry. unfold Py.getitem.
    replace (3 <? Z.of_nat _) with false by (symmetry; lia).
    replace (3 <? 0) with false by reflexivity.
    rewrite !Bool.andb_false_r. reflexivity.
Qed.

Lemma InternallyScanStory_header_errors_witness :
  ExtractorFFNet._InternallyScanStory quiet_site
    "https://www.fanfiction.net/s/12345/1/"
    (mkSoup (Some (mkHeader "Some Title" [])) [] [] None None) plain
  = (Raise IndexError, plain).
Proof.
  apply (proj2 (InternallyScanStory_header_errors quiet_site
                  "https://www.fanfiction.net/s/12345/1/"
                  (mkSoup (Some (mkHeader "Some Title" [])) [] [] None None)
                  plain) (mkHeader "Some Title" []) eq_refl).
  vm_compute. lia.
Defined.

(* ================================================================== *)
(** ** More about the FlareSolverr client *)

(** X5. [CreateSession] sends at most one request.  A session it returns
    is cached: the next call returns the same session and does nothing. A
    creation that fails leaves no session behind, so that the next call
    tries again. *)
Theorem CreateSession_reuses_session :
  forall http port st,
    let first := FlareSolverr.CreateSession http port st in
    exists s,
      fst first = Ret s /\
      (List.length (requests_sent (new_events st (snd first))) <= 1)%nat /\
      (Json.truthy s = true ->
       FlareSolverr.CreateSession http port (snd first) = (Ret s, snd first)) /\
      (Json.truthy s = false ->
       Json.truthy (flaresolverr_session (snd first)) = false).
Proof.
  intros http port st first.
  destruct (Json.truthy (flaresolverr_session st)) eqn:Hc.
  - exists (flaresolverr_session st). subst first.
    rewrite (CreateSession_cached http port st Hc). simpl.
    rewrite new_events_same. simpl. repeat split.
    + lia.
    + intros _. apply CreateSession_cached. exact Hc.
    + intros Hs. congruence.
  - destruct (CreateSession_fresh http port st Hc) as (c & l & m & Heq & Hk).
    exists (created_session (http (requests_made st) (create_request port))).
    subst first. rewrite Heq. simpl. repeat split.
    + rewrite (new_events_app st _ [EvRequest (create_request port); EvLog l m])
        by reflexivity.
      simpl. lia.
    + intros Hs. destruct Hk as [-> | [_ Hnull]].
      * apply CreateSession_cached. exact Hs.
      * rewrite Hnull in Hs. discriminate.
    + intros Hs. destruct Hk as [-> | [-> _]]; assumption.
Qed.

Lemma CreateSession_reuses_session_witness :
  let first := FlareSolverr.CreateSession http_stale_session (Some 8191) idle in
  FlareSolverr.CreateSession http_stale_session (Some 8191) (snd first)
    = (Ret (JStr "s0"), snd first).
Proof.
  destruct (CreateSession_reuses_session http_stale_session (Some 8191) idle)
    as (s & Hfst & _ & Hreuse & _).
  vm_compute in Hfst. injection Hfst as <-.
  apply Hreuse. reflexivity.
Defined.

(** X6. [DestroySession] does not raise and leaves no session cached.  It
    sends one request, with the cached session and a timeout of ten
    seconds, when a session was cached, and none when there was none.  The
    [CreateSession] that follows never reuses the destroyed session: it
    sends a request for a new one. *)
Theorem DestroySession_forgets_session :
  forall http port st,
    let run := FlareSolverr.DestroySession http port st in
    let destroyed := snd run in
    fst run = Ret tt /\
    Json.truthy (flaresolverr_session destroyed) = false /\
    requests_sent (new_events st destroyed) =
      (if Json.truthy (flaresolverr_session st)
       then [POST (FlareSolverr.GetFlareSolverrURL port)
               (JObj [("cmd", JStr "sessions.destroy");
                      ("session", flaresolverr_session st)]) 10]
       else []) /\
    requests_sent
      (new_events destroyed
         (snd (FlareSolverr.CreateSession http port destroyed)))
      = [create_request port].
Proof.
  intros http port st run destroyed.
  assert (Hrun : exists evs,
             run = (Ret tt,
                    mkState (if Json.truthy (flaresolverr_session st)
                             then JNull else flaresolverr_session st)
                      (self st)
                      (if Json.truthy (flaresolverr_session st)
                       then S (requests_made st) else requests_made st)
                      (fetches_made st) (trace st ++ evs)) /\
             requests_sent evs =
               (if Json.truthy (flaresolverr_session st)
                then [POST (FlareSolverr.GetFlareSolverrURL port)
                        (JObj [("cmd", JStr "sessions.destroy");
                               ("session", flaresolverr_session st)]) 10]
                else [])).
  { subst run. unfold FlareSolverr.DestroySession. run.
    destruct (Json.truthy (flaresolverr_session st)) eqn:Hc; run.
    - destruct (http (requests_made st) _); run; rewrite <- ?app_assoc;
        eexists; (split; [reflexivity|reflexivity]).
    - exists []. rewrite app_nil_r. destruct st; split; reflexivity. }
  destruct Hrun as (evs & Heq & Hreq).
  assert (Hfalsy : Json.truthy (flaresolverr_session destroyed) = false).
  { subst destroyed. rewrite Heq. simpl.
    destruct (Json.truthy (flaresolverr_session st)) eqn:Hc; auto. }
  split; [rewrite Heq; reflexivity|]. split; [exact Hfalsy|]. split.
  - subst destroyed. rewrite Heq. simpl.
    rewrite (new_events_app st _ evs) by reflexivity. exact Hreq.
  - destruct (CreateSession_fresh http port destroyed Hfalsy)
      as (c & l & m & Hcreate & _).
    rewrite Hcreate. simpl.
    rewrite (new_events_app destroyed _
               [EvRequest (create_request port); EvLog l m]) by reflexivity.
    reflexivity.
Qed.

Lemma sleeps_app (a b : list event) :
  sleeps (a ++ b) = (sleeps a ++ sleeps b)%list.
Proof.
  induction a as [|e a IH]; simpl; auto.
  destruct e; simpl; rewrite ?IH; reflexivity.
Qed.

Lemma calm_events (evs : list event) :
  Forall calm evs -> solve_timeouts evs = [] /\ sleeps evs = [].
Proof.
  induction 1 as [|e evs [He1 He2] _ [IH1 IH2]]; [split; reflexivity|].
  change (e :: evs) with ([e] ++ evs)%list.
  rewrite solve_timeouts_app, sleeps_app, He1, He2, IH1, IH2.
  split; reflexivity.
Qed.

Lemma calm_log l m : calm (EvLog l m).
Proof. split; reflexivity. Qed.

Lemma calm_create port : calm (EvRequest (create_request port)).
Proof. split; reflexivity. Qed.

Section Bounds.

Variable http : nat -> request -> http_result.
Variables (url : string) (port : FlareSolverr.port_t).
Variables (maxTimeout maxRetries : Z).

Lemma CreateSession_calm : quiet calm (FlareSolverr.CreateSession http port).
Proof.
  unfold FlareSolverr.CreateSession. quiet_steps;
    try (apply quiet_emit, calm_log).
  apply quiet_send, calm_create.
Qed.

(** One round of the loop: one solve request, and at most one delay, of
    two seconds, which is not made in the last round. *)
Lemma one_attempt_events attempt session st :
  exists r st' evs,
    FlareSolverr.one_attempt http url port maxTimeout maxRetries attempt
      session st = (Ret r, st') /\
    trace st' = (trace st ++ evs)%list /\
    List.length (solve_timeouts evs) = 1%nat /\
    (sleeps evs = [] \/ (sleeps evs = [2] /\ attempt < maxRetries - 1)).
Proof.
  unfold FlareSolverr.one_attempt, try_except.
  assert (Hbody : exists evs,
             trace (snd (FlareSolverr.attempt_try http url port maxTimeout
                           attempt session st))
             = (trace st ++ EvRequest (solve_request url port maxTimeout session)
                  :: evs)%list /\ Forall calm evs).
  { unfold FlareSolverr.attempt_try. fold (solve_request url port maxTimeout session).
    unfold bind at 1.
    assert (Hsend : trace (snd (FlareSolverr.send http
                                  (solve_request url port maxTimeout session) st))
                    = (trace st ++
                       [EvRequest (solve_request url port maxTimeout session)])%list).
    { unfold FlareSolverr.send. destruct (http _ _); reflexivity. }
    destruct (FlareSolverr.send http _ st) as [[resp|x] st1]; simpl in Hsend |- *.
    - match goal with
      | |- context [bind ?m ?f st1] =>
          assert (Hrest : quiet calm (bind m f))
      end.
      { quiet_steps;
          first [apply quiet_emit, calm_log | apply quiet_send, calm_create]. }
      destruct (Hrest st1) as ((evs & T & F) & _).
      exists evs. rewrite T, Hsend, <- app_assoc. auto.
    - exists []. auto. }
  destruct Hbody as (evs1 & T1 & F1).
  destruct (calm_events evs1 F1) as [C1 S1].
  assert (Hone : List.length
                   (solve_timeouts
                      (EvRequest (solve_request url port maxTimeout session)
                       :: evs1)) = 1%nat).
  { change (EvRequest (solve_request url port maxTimeout session) :: evs1)
      with ([EvRequest (solve_request url port maxTimeout session)] ++ evs1)%list.
    rewrite solve_timeouts_app, C1. reflexivity. }
  assert (Hnone : sleeps (EvRequest (solve_request url port maxTimeout session)
                          :: evs1) = []).
  { simpl. exact S1. }
  destruct (FlareSolverr.attempt_try http url port maxTimeout attempt session st)
    as [[r|x] st1]; simpl in T1.
  - exists r, st1. eexists. repeat split; eauto.
  - assert (Hh : exists m,
               trace (snd ((log WARNING m ;;
                            (if attempt <? maxRetries - 1 then sleep 2 else ret tt) ;;
                            ret (inr session) : M (json + json)) st1))
               = (trace st1 ++ EvLog WARNING m ::
                    (if attempt <? maxRetries - 1 then [EvSleep 2] else []))%list
               /\ FlareSolverr.attempt_except maxRetries attempt session x
                  = Some (log WARNING m ;;
                          (if attempt <? maxRetries - 1 then sleep 2 else ret tt) ;;
                          ret (inr session)) /\
               fst ((log WARNING m ;;
                     (if attempt <? maxRetries - 1 then sleep 2 else ret tt) ;;
                     ret (inr session) : M (json + json)) st1)
               = Ret (inr session)).
    { eexists. split; [|split; [unfold FlareSolverr.attempt_except; reflexivity|]].
      - run. destruct (attempt <? maxRetries - 1); run;
          rewrite <- ?app_assoc; reflexivity.
      - run. destruct (attempt <? maxRetries - 1); reflexivity. }
    destruct Hh as (m & T2 & -> & R2).
    match goal with
    | |- context [?h st1] => destruct (h st1) as [r2 st2]
    end.
    simpl in T2, R2. subst r2.
    exists (inr session), st2.
    exists ((EvRequest (solve_request url port maxTimeout session) :: evs1)
            ++ EvLog WARNING m ::
               (if attempt <? maxRetries - 1 then [EvSleep 2] else []))%list.
    split; [reflexivity|]. split; [rewrite T2, T1, <- app_assoc; reflexivity|].
    rewrite solve_timeouts_app, sleeps_app, Hnone, length_app, Hone.
    destruct (attempt <? maxRetries - 1) eqn:Hlt; simpl; split; auto.
    right. split; [reflexivity|lia].
Qed.

Lemma attempts_events n :
  forall attempt session st,
    (n <> 0%nat -> attempt + Z.of_nat n = maxRetries) ->
    exists evs,
      trace (snd (FlareSolverr.attempts http url port maxTimeout maxRetries
                    n attempt session st)) = (trace st ++ evs)%list /\
      (List.length (solve_timeouts evs) <= n)%nat /\
      (List.length (sleeps evs) <= n - 1)%nat /\
      Forall (eq 2) (sleeps evs).
Proof.
  induction n as [|n IH]; intros attempt session st Hn.
  - simpl. run. eexists. split; [reflexivity|]. simpl. repeat split; auto.
  - cbn [FlareSolverr.attempts]. unfold bind at 1.
    destruct (one_attempt_events attempt session st)
      as (r & st1 & evs1 & Heq & T1 & C1 & S1).
    rewrite Heq. destruct r as [v|s].
    + exists evs1. simpl. split; [exact T1|]. split; [lia|].
      destruct S1 as [-> | [-> Hlt]]; simpl; split; auto; lia.
    + destruct (IH (attempt + 1) s st1) as (evs2 & T2 & C2 & S2 & F2); [lia|].
      exists (evs1 ++ evs2)%list. split; [rewrite T2, T1, app_assoc; reflexivity|].
      rewrite solve_timeouts_app, sleeps_app, !length_app.
      split; [lia|].
      destruct S1 as [-> | [-> Hlt]]; simpl; split; auto; lia.
Qed.

End Bounds.

(** X7. Whatever the network answers, [SolveChallenge] sends at most
    [maxRetries] solve requests and sleeps at most [maxRetries - 1] times,
    two seconds each time; with [maxRetries <= 0] it sends no solve
    request, does not sleep and returns [None]. *)
Theorem SolveChallenge_bounded :
  forall http url port maxTimeout maxRetries st,
    let run := FlareSolverr.SolveChallenge http url port maxTimeout maxRetries st in
    let evs := new_events st (snd run) in
    (List.length (solve_timeouts evs) <= Z.to_nat maxRetries)%nat /\
    (List.length (sleeps evs) <= Z.to_nat maxRetries - 1)%nat /\
    Forall (eq 2) (sleeps evs) /\
    (maxRetries <= 0 -> fst run = Ret JNull).
Proof.
  intros http url port maxTimeout maxRetries st run evs.
  subst evs run. unfold FlareSolverr.SolveChallenge. unfold bind at 1 2 3 4.
  destruct (CreateSession_no_raise http port st) as [s Hs].
  destruct (CreateSession_calm http port st) as ((evs0 & T0 & F0) & _).
  destruct (FlareSolverr.CreateSession http port st) as [r st1].
  simpl in Hs, T0. subst r.
  destruct (calm_events evs0 F0) as [C0 S0].
  destruct (attempts_events http url port maxTimeout maxRetries
              (Z.to_nat maxRetries) 0 s st1) as (evs1 & T1 & C1 & S1 & F1);
    [intros Hn; lia|].
  rewrite (new_events_app st _ (evs0 ++ evs1))
    by (rewrite T1, T0, app_assoc; reflexivity).
  rewrite solve_timeouts_app, sleeps_app, C0, S0. simpl.
  repeat split; auto.
  intros Hle. replace (Z.to_nat maxRetries) with 0%nat by lia. reflexivity.
Qed.

Lemma SolveChallenge_bounded_witness :
  fst (FlareSolverr.SolveChallenge always_timeout
         "https://www.fanfiction.net/s/1/1/" (Some 8191) 60000 0 idle)
    = Ret JNull.
Proof.
  destruct (SolveChallenge_bounded always_timeout
              "https://www.fanfiction.net/s/1/1/" (Some 8191) 60000 0 idle)
    as (_ & _ & _ & Hnone).
  apply Hnone. lia.
Defined.

Section Retry.

Variable http : nat -> request -> http_result.
Variables (url : string) (port : FlareSolverr.port_t).
Variables (maxTimeout maxRetries : Z).

(** An attempt that meets a failure mode: one request, one warning, a
    delay unless the attempt is the last one; the session is kept. *)
Lemma attempt_failure_run attempt session st :
  failure_mode (http (requests_made st) (solve_request url port maxTimeout session))
    = true ->
  exists m,
    FlareSolverr.one_attempt http url port maxTimeout maxRetries attempt session st
    = (Ret (inr session),
       mkState (flaresolverr_session st) (self st) (S (requests_made st))
         (fetches_made st)
         (trace st ++
          [EvRequest (solve_request url port maxTimeout session); EvLog WARNING m]
          ++ (if attempt <? maxRetries - 1 then [EvSleep 2] else []))).
Proof.
  intros H. unfold FlareSolverr.one_attempt, FlareSolverr.attempt_try,
    FlareSolverr.attempt_except, solve_request in *.
  run.
  destruct (http _ _) as [| |c [d|]]; run;
    try (destruct (attempt <? maxRetries - 1); run;
         rewrite <- ?app_assoc; simpl; eexists; reflexivity);
    simpl in H; destruct ((400 <=? c) && (c <? 600)); try discriminate; run;
    destruct (attempt <? maxRetries - 1); run;
    rewrite <- ?app_assoc; simpl; eexists; reflexivity.
Qed.

Lemma attempts_retry (session : json) (c : Z) (d sol : list (string * json)) :
  (400 <=? c) && (c <? 600) = false ->
  Json.eq_str (Json.get "status" d JNull) "ok" = true ->
  Json.get "solution" d (JObj []) = JObj sol ->
  forall k n attempt st,
    (k < n)%nat ->
    attempt + Z.of_nat n = maxRetries ->
    (forall i, (i < k)%nat ->
       failure_mode (http (requests_made st + i)%nat
                       (solve_request url port maxTimeout session)) = true) ->
    http (requests_made st + k)%nat (solve_request url port maxTimeout session)
      = Response c (Some (JObj d)) ->
    exists st' evs,
      FlareSolverr.attempts http url port maxTimeout maxRetries n attempt
        session st = (Ret (Json.get "response" sol JNull), st') /\
      trace st' = (trace st ++ evs)%list /\
      flaresolverr_session st' = flaresolverr_session st /\
      requests_sent evs =
        repeat (solve_request url port maxTimeout session) (S k) /\
      sleeps evs = repeat 2 k.
Proof.
  intros Hc Hs Hsol.
  induction k as [|k IH]; intros n attempt st Hlt Hn Hfail Hok;
    (destruct n as [|n]; [lia|]); cbn [FlareSolverr.attempts]; unfold bind at 1.
  - rewrite Nat.add_0_r in Hok.
    rewrite (attempt_success http url port maxTimeout maxRetries attempt
               session st c d sol Hok Hc Hs Hsol).
    eexists. eexists. split; [reflexivity|]. simpl. repeat split.
  - destruct (attempt_failure_run attempt session st) as [m Heq].
    { rewrite <- (Nat.add_0_r (requests_made st)). apply Hfail. lia. }
    rewrite Heq.
    replace (attempt <? maxRetries - 1) with true by (symmetry; lia).
    match goal with
    | |- context [FlareSolverr.attempts _ _ _ _ _ n (attempt + 1) session ?s] =>
        destruct (IH n (attempt + 1) s) as (st' & evs & Hrun & T & Hsess & Hreq & Hsl)
    end.
    + lia.
    + lia.
    + intros i Hi. simpl requests_made.
      replace (S (requests_made st) + i)%nat with (requests_made st + S i)%nat
        by lia.
      apply Hfail. lia.
    + simpl requests_made.
      replace (S (requests_made st) + k)%nat with (requests_made st + S k)%nat
        by lia.
      exact Hok.
    + exists st'. eexists. split; [exact Hrun|]. simpl in T, Hsess.
      split; [rewrite T, <- app_assoc; reflexivity|].
      split; [exact Hsess|]. simpl. rewrite Hreq, Hsl. split; reflexivity.
Qed.

End Retry.

(** X8. With a session in the cache: when the first [k] solve requests
    meet a failure mode (a timeout, a connection failure, an error status
    or a body that is not JSON), the next one is answered "ok" and
    [k < maxRetries], [SolveChallenge] returns the [response] of that
    answer's solution, after [k + 1] solve requests, all with the cached
    session, and [k] delays of two seconds; the session stays cached. *)
Theorem SolveChallenge_retries_until_success :
  forall http url port maxTimeout maxRetries st k c d sol,
    Json.truthy (flaresolverr_session st) = true ->
    Z.of_nat k < maxRetries ->
    (forall i, (i < k)%nat ->
       failure_mode
         (http (requests_made st + i)%nat
            (solve_request url port maxTimeout (flaresolverr_session st)))
       = true) ->
    http (requests_made st + k)%nat
      (solve_request url port maxTimeout (flaresolverr_session st))
      = Response c (Some (JObj d)) ->
    (400 <=? c) && (c <? 600) = false ->
    Json.eq_str (Json.get "status" d JNull) "ok" = true ->
    Json.get "solution" d (JObj []) = JObj sol ->
    let run := FlareSolverr.SolveChallenge http url port maxTimeout maxRetries st in
    fst run = Ret (Json.get "response" sol JNull) /\
    requests_sent (new_events st (snd run)) =
      repeat (solve_request url port maxTimeout (flaresolverr_session st)) (S k) /\
    sleeps (new_events st (snd run)) = repeat 2 k /\
    flaresolverr_session (snd run) = flaresolverr_session st.
Proof.
  intros http url port maxTimeout maxRetries st k c d sol
    Hcached Hk Hfail Hok Hc Hs Hsol run.
  subst run. unfold FlareSolverr.SolveChallenge. unfold bind.
  rewrite (CreateSession_cached http port st Hcached).
  destruct (attempts_retry http url port maxTimeout maxRetries
              (flaresolverr_session st) c d sol Hc Hs Hsol k
              (Z.to_nat maxRetries) 0 st)
    as (st' & evs & Hrun & T & Hsess & Hreq & Hsl); try assumption; try lia.
  rewrite Hrun. simpl. rewrite (new_events_app st st' evs T). auto.
Qed.

Lemma SolveChallenge_retries_until_success_witness :
  let http := fun (n : nat) (_ : request) =>
    match n with
    | 0%nat => NetTimeout
    | 1%nat => Response 500 None
    | _ => Response 200
             (Some (JObj [("status", JStr "ok");
                          ("solution", JObj [("response", JStr "<html/>")])]))
    end in
  let st := mkState (JStr "s0") (mkExtractor true true true "html5lib" [] None)
              0 0 [] in
  let run := FlareSolverr.SolveChallenge http "https://www.fanfiction.net/s/1/1/"
               (Some 8191) 60000 3 st in
  fst run = Ret (JStr "<html/>") /\
  requests_sent (new_events st (snd run)) =
    repeat (solve_request "https://www.fanfiction.net/s/1/1/" (Some 8191) 60000
              (JStr "s0")) 3 /\
  sleeps (new_events st (snd run)) = [2; 2] /\
  flaresolverr_session (snd run) = JStr "s0".
Proof.
  intros http st.
  apply (SolveChallenge_retries_until_success http
           "https://www.fanfiction.net/s/1/1/" (Some 8191) 60000 3 st 2 200
           [("status", JStr "ok");
            ("solution", JObj [("response", JStr "<html/>")])]
           [("response", JStr "<html/>")]);
    try reflexivity; try lia.
  intros [|[|i]] Hi; try reflexivity. lia.
Defined.

(* ================================================================== *)
(** ** The availability check and the scan of a story *)

(** What [_CheckFlareSolverr] does, case by case. *)
Lemma CheckFlareSolverr_run E st :
  let probe :=
    GET ("http://localhost:" ++ FlareSolverr.port_str (FlareSolverrPort E) ++ "/") 5 in
  let b :=
    if _flareSolverrChecked (self st) then _flareSolverrAvailable (self st)
    else _useFlareSolverr (self st) && probe_ok (http E (requests_made st) probe) in
  exists evs,
    ExtractorFFNet._CheckFlareSolverr E st =
      (Ret b,
       mkState (flaresolverr_session st)
         (mkExtractor (_useFlareSolverr (self st)) true b
            (_chapterParserName (self st)) (_chapterURLs (self st))
            (Story (self st)))
         (if negb (_flareSolverrChecked (self st)) && _useFlareSolverr (self st)
          then S (requests_made st) else requests_made st)
         (fetches_made st) (trace st ++ evs)) /\
    requests_sent evs =
      (if negb (_flareSolverrChecked (self st)) && _useFlareSolverr (self st)
       then [probe] else []) /\
    Forall not_getsoup evs /\
    (_flareSolverrChecked (self st) = true -> evs = []).
Proof.
  destruct st as [sess [use chk av parser urls story] reqs fetches tr].
  unfold ExtractorFFNet._CheckFlareSolverr, FlareSolverr.IsFlareSolverrRunning.
  destruct chk; [|destruct use]; run.
  - exists []. rewrite app_nil_r. repeat split. constructor.
  - destruct (http E reqs _) as [| |c body]; run;
      try destruct (c =? 200); run; rewrite <- ?app_assoc; simpl;
      eexists; (split; [reflexivity|split; [reflexivity|split]]);
      try discriminate; repeat constructor.
  - rewrite <- ?app_assoc; simpl.
    eexists; (split; [reflexivity|split; [reflexivity|split]]);
      try discriminate; repeat constructor.
Qed.

(** X9. [_CheckFlareSolverr] probes the service at most once in the life
    of the extractor.  The first call sends the probe only when a port is
    configured, and answers that the service is configured and the probe
    succeeded; it records both that the check was made and its answer.
    Every later call gives the recorded answer and does nothing. *)
Theorem CheckFlareSolverr_checks_once :
  forall E st,
    let first := ExtractorFFNet._CheckFlareSolverr E st in
    let probe :=
      GET ("http://localhost:" ++ FlareSolverr.port_str (FlareSolverrPort E) ++ "/")
          5 in
    exists b,
      fst first = Ret b /\
      _flareSolverrChecked (self (snd first)) = true /\
      _flareSolverrAvailable (self (snd first)) = b /\
      ExtractorFFNet._CheckFlareSolverr E (snd first) = (Ret b, snd first) /\
      (_flareSolverrChecked (self st) = false ->
       b = _useFlareSolverr (self st)
           && probe_ok (http E (requests_made st) probe) /\
       requests_sent (new_events st (snd first)) =
         (if _useFlareSolverr (self st) then [probe] else [])) /\
      (_flareSolverrChecked (self st) = true ->
       b = _flareSolverrAvailable (self st) /\ snd first = st).
Proof.
  intros E st first probe.
  destruct (CheckFlareSolverr_run E st) as (evs & Heq & Hreq & _ & Hnil).
  subst first. rewrite Heq. eexists. split; [reflexivity|]. simpl.
  split; [reflexivity|]. split; [reflexivity|]. split; [|split].
  - match goal with
    | |- ExtractorFFNet._CheckFlareSolverr E ?s = _ =>
        destruct (CheckFlareSolverr_run E s) as (evs' & Heq' & _ & _ & Hnil');
        rewrite Heq'
    end.
    simpl. rewrite (Hnil' eq_refl), app_nil_r. reflexivity.
  - intros Hchk. rewrite Hchk in *. simpl in *. split; [reflexivity|].
    rewrite (new_events_app st _ evs) by reflexivity. exact Hreq.
  - intros Hchk. rewrite Hchk in *. simpl in *. split; [reflexivity|].
    rewrite (Hnil eq_refl), app_nil_r. clear Heq Hreq Hnil.
    destruct st as [sess [use chk av parser urls story] reqs fetches tr].
    simpl in *. subst chk. reflexivity.
Qed.

Lemma CheckFlareSolverr_checks_once_witness :
  let first := ExtractorFFNet._CheckFlareSolverr quiet_site idle in
  fst first = Ret false /\
  requests_sent (new_events idle (snd first)) = [GET "http://localhost:8191/" 5].
Proof.
  destruct (CheckFlareSolverr_checks_once quiet_site idle)
    as (b & Hfst & _ & _ & _ & Hunchecked & _).
  destruct (Hunchecked eq_refl) as [Hb Hreq].
  cbv zeta. rewrite Hfst, Hb. split; [reflexivity|exact Hreq].
Defined.

Lemma append_chapterURLs_emits (P : event -> Prop) baseURL storyID indices :
  emits P (ExtractorFFNet.append_chapterURLs baseURL storyID indices).
Proof.
  induction indices as [|index rest IH]; simpl.
  - auto with emits.
  - apply emits_bind; [emits_steps|intros _; exact IH].
Qed.

Lemma InternallyScanStory_emits E url soup :
  emits not_getsoup (ExtractorFFNet._InternallyScanStory E url soup).
Proof.
  unfold ExtractorFFNet._InternallyScanStory.
  destruct (profile_top soup) as [h|]; [|emits_steps].
  cbv zeta.
  apply emits_bind; [auto with emits|intros line3].
  destruct (Re.search ExtractorFFNet.re_words line3) as [w|]; [|emits_steps].
  destruct (ExtractorFFNet.pick_timestamps (header_xutime h)) as [p u].
  repeat (apply emits_bind; [emits_steps|intros ?]).
  destruct (ExtractorFFNet._GetStoryID _); [|emits_steps].
  apply emits_bind; [apply append_chapterURLs_emits|intros _].
  auto with emits.
Qed.

(** X10. [ScanStory] on an extractor that is not initialized returns
    [False] and only logs: no request is sent and no page is fetched.  On
    an initialized extractor it calls [_GetSoup] exactly once, for the
    normalized URL of the story; a page that cannot be fetched makes it
    return [False]. *)
Theorem ScanStory_fetches_once :
  forall E st,
    let run := ExtractorFFNet.ScanStory E st in
    (Story (self st) = None ->
     run = (Ret false,
            mkState (flaresolverr_session st) (self st) (requests_made st)
              (fetches_made st)
              (trace st ++ [EvLog ERROR "The extractor isn't initialized."]))) /\
    (forall meta,
       Story (self st) = Some meta ->
       getsoup_urls (new_events st (snd run))
         = [_GetNormalizedStoryURL E (URL meta)] /\
       (fst (ExtractorFFNet._GetSoup E (_GetNormalizedStoryURL E (URL meta))
               (_chapterParserName (self st))
               (snd (ExtractorFFNet._CheckFlareSolverr E st))) = Ret None ->
        fst run = Ret false)).
Proof.
  intros E st run. split.
  - intros Hs. subst run. unfold ExtractorFFNet.ScanStory.
    unfold bind at 1, get_self. cbv beta iota. rewrite Hs. reflexivity.
  - intros meta Hs.
    set (after := fun soup : option Soup =>
           match soup with
           | Some soup =>
               ExtractorFFNet._InternallyScanStory E
                 (_GetNormalizedStoryURL E (URL meta)) soup
           | None =>
               log ERROR "Failed to download tag soup: {normalizedURL}." ;;
               ret false
           end).
    assert (Hrun : run =
              bind (ExtractorFFNet._CheckFlareSolverr E)
                (fun _ =>
                   bind (ExtractorFFNet._GetSoup E
                           (_GetNormalizedStoryURL E (URL meta))
                           (_chapterParserName (self st))) after) st).
    { subst run. unfold ExtractorFFNet.ScanStory.
      unfold bind at 1, get_self. cbv beta iota. rewrite Hs. reflexivity. }
    rewrite Hrun. clear Hrun run.
    unfold bind at 1 3.
    destruct (CheckFlareSolverr_run E st) as (evs0 & Heq & _ & F0 & _).
    rewrite Heq. cbv beta iota zeta. simpl snd.
    match goal with
    | |- context [bind _ after ?s] => set (checked := s)
    end.
    assert (Hafter : forall r, emits not_getsoup (after r)).
    { intros [soup|]; subst after; cbv beta.
      - apply InternallyScanStory_emits.
      - emits_steps. }
    split.
    + destruct (GetSoup_trace E (_GetNormalizedStoryURL E (URL meta))
                  (_chapterParserName (self st)) checked) as (evs1 & T1 & F1).
      unfold bind.
      destruct (ExtractorFFNet._GetSoup E _ _ checked) as [[r|x] st1];
        simpl in T1.
      * destruct (Hafter r st1) as (evs2 & T2 & F2).
        rewrite (new_events_app st _
                   (evs0 ++ (EvGetSoup (_GetNormalizedStoryURL E (URL meta))
                               (_chapterParserName (self st)) :: evs1) ++ evs2)).
        -- rewrite !getsoup_urls_app. simpl.
           rewrite (getsoup_urls_none _ F0), F1, (getsoup_urls_none _ F2).
           reflexivity.
        -- rewrite T2, T1. subst checked. simpl. rewrite <- !app_assoc.
           reflexivity.
      * simpl.
        rewrite (new_events_app st _
                   (evs0 ++ (EvGetSoup (_GetNormalizedStoryURL E (URL meta))
                               (_chapterParserName (self st)) :: evs1))).
        -- rewrite !getsoup_urls_app. simpl.
           rewrite (getsoup_urls_none _ F0), F1. reflexivity.
        -- rewrite T1. subst checked. simpl. rewrite <- !app_assoc.
           reflexivity.
    + intros Hnone.
      change (fst (ExtractorFFNet._GetSoup E
                     (_GetNormalizedStoryURL E (URL meta))
                     (_chapterParserName (self st)) checked) = Ret None)
        in Hnone.
      change (fst (bind (ExtractorFFNet._GetSoup E
                           (_GetNormalizedStoryURL E (URL meta))
                           (_chapterParserName (self st))) after checked)
              = Ret false).
      unfold bind.
      destruct (ExtractorFFNet._GetSoup E _ _ checked) as [[r|x] st1];
        simpl in Hnone; try discriminate.
      injection Hnone as ->. subst after. reflexivity.
Qed.

Lemma ScanStory_fetches_once_witness :
  getsoup_urls (new_events plain (snd (ExtractorFFNet.ScanStory quiet_site plain)))
  = ["https://www.fanfiction.net/s/12345/1/Title"].
Proof.
  apply (proj2 (ScanStory_fetches_once quiet_site plain)
           (mkMetadata "https://www.fanfiction.net/s/12345/1/Title"
              "" "" "" "" "" 0 0) eq_refl).
Defined.

(* ================================================================== *)
(** ** More about the dates *)

Lemma strptime_valid (s fmt : string) (dt : Dates.date) :
  Dates.strptime s fmt = Some dt -> Dates.valid dt = true.
Proof.
  unfold Dates.strptime.
  destruct (Dates.pattern false fmt) as [r|]; [|discriminate].
  destruct (Re.match_ r s) as [[g [|c rest]]|]; try discriminate.
  destruct (Dates.found_year g) as [y|]; [|discriminate].
  destruct (Dates.found_month g) as [m|]; [|discriminate].
  destruct (Dates.found_day g) as [d|]; [|discriminate].
  cbv zeta. destruct (Dates.valid (Dates.mkDate y m d)) eqn:Hv; [|discriminate].
  intros H. injection H as <-. exact Hv.
Qed.

Lemma replace_year_valid (d dt : Dates.date) (y : Z) :
  Dates.replace_year d y = Some dt -> Dates.valid dt = true.
Proof.
  unfold Dates.replace_year. cbv zeta.
  destruct (Dates.valid (Dates.mkDate y (Dates.month d) (Dates.day d))) eqn:Hv;
    [|discriminate].
  intros H. injection H as <-. exact Hv.
Qed.

Lemma parse_with_valid E (s : string) (fmts : list string) (out : string) :
  ExtractorFFNet.parse_with E s fmts = Some out ->
  exists dt, Dates.valid dt = true /\ out = Dates.strftime dt.
Proof.
  induction fmts as [|fmt rest IH]; simpl; [discriminate|].
  destruct (Dates.strptime s fmt) as [parsed|] eqn:Hp; [|exact IH].
  destruct (fmt =? "%m/%d")%string.
  - destruct (Dates.replace_year parsed (current_year E)) as [parsed'|] eqn:Hr;
      [|exact IH].
    intros H. injection H as <-. exists parsed'. split; [|reflexivity].
    apply (replace_year_valid parsed parsed' (current_year E) Hr).
  - intros H. injection H as <-. exists parsed. split; [|reflexivity].
    apply (strptime_valid s fmt parsed Hp).
Qed.

Lemma strftime_no_space (dt : Dates.date) : no_space (Dates.strftime dt) = true.
Proof.
  destruct dt as [y m d].
  unfold Dates.strftime, Dates.pad4, Dates.pad2. simpl.
  rewrite !is_space_digit_char. reflexivity.
Qed.

Lemma strftime_shape (dt : Dates.date) :
  exists c rest, Dates.strftime dt = String c rest.
Proof.
  destruct dt as [y m d]. unfold Dates.strftime, Dates.pad4. simpl. eauto.
Qed.

(** The canonical text of a date is parsed by the ISO format, the first
    seven formats failing on a text that starts with three digits. *)
Lemma parse_with_strftime E (dt : Dates.date) :
  Dates.valid dt = true ->
  ExtractorFFNet.parse_with E (Dates.strftime dt) ExtractorFFNet.formats
    = Some (Dates.strftime dt).
Proof.
  destruct dt as [y m d]. intros Hv.
  destruct (strptime_three_digits (y / 1000) (y / 100) (y / 10)
              (String (Dates.digit_char y)
                 ("-" ++ Dates.pad2 m ++ "-" ++ Dates.pad2 d)))
    as (H1 & H2 & H3 & H4 & H5 & H6 & H7).
  change (String (Dates.digit_char (y / 1000)) _)
    with (Dates.strftime (Dates.mkDate y m d)) in H1, H2, H3, H4, H5, H6, H7.
  unfold ExtractorFFNet.formats.
  cbv beta iota delta [ExtractorFFNet.parse_with].
  rewrite H1, H2, H3, H4, H5, H6, H7, (strptime_iso _ Hv).
  reflexivity.
Qed.

(** X11. Whatever text [_ParseDateString] is given, a date it returns is
    the canonical text YYYY-MM-DD of a valid calendar date, and parsing
    that result again gives it back: the function is idempotent.  A text
    that is empty or blank has no date. *)
Theorem ParseDateString_canonical :
  forall E dateStr,
    (forall out,
       ExtractorFFNet._ParseDateString E dateStr = Some out ->
       (exists dt, Dates.valid dt = true /\ out = Dates.strftime dt) /\
       ExtractorFFNet._ParseDateString E out = Some out) /\
    (Py.strip dateStr = "" -> ExtractorFFNet._ParseDateString E dateStr = None).
Proof.
  intros E dateStr. split.
  - intros out H. unfold ExtractorFFNet._ParseDateString in H.
    destruct (dateStr =? "")%string; [discriminate|].
    apply parse_with_valid in H. destruct H as (dt & Hv & ->).
    split; [exists dt; auto|].
    unfold ExtractorFFNet._ParseDateString.
    destruct (strftime_shape dt) as (c & rest & Hshape).
    rewrite Hshape at 1. cbn [String.eqb].
    rewrite (strip_no_space _ (strftime_no_space dt)).
    apply parse_with_strftime. exact Hv.
  - intros Hblank. unfold ExtractorFFNet._ParseDateString.
    destruct (dateStr =? "")%string; [reflexivity|].
    rewrite Hblank. reflexivity.
Qed.

Lemma ParseDateString_canonical_witness :
  ExtractorFFNet._ParseDateString quiet_site "2011-03-31" = Some "2011-03-31" /\
  ExtractorFFNet._ParseDateString quiet_site "   " = None.
Proof.
  split.
  - apply (proj1 (ParseDateString_canonical quiet_site " Mar 31, 2011 ")
             "2011-03-31").
    reflexivity.
  - apply (proj2 (ParseDateString_canonical quiet_site "   ")). reflexivity.
Defined.

Lemma run_marker {R} (l : string) (c : ascii) (r : Re.re) :
  forall s g (k : string -> Re.groups -> option R),
    prefix (l ++ String c "") s = false ->
    Re.run (Re.Seq (Re.lit l) (Re.Seq (Re.chr c) r)) s g k = None.
Proof.
  induction l as [|a l IH]; intros s g k H.
  - cbn [Re.lit Re.run Re.chr]. destruct s as [|c' s]; [reflexivity|].
    simpl in H. destruct (ascii_dec c c') as [->|Hn].
    + destruct s; discriminate.
    + apply Ascii.eqb_neq in Hn. rewrite Hn. reflexivity.
  - destruct s as [|a' s]; [reflexivity|].
    simpl in H. cbn [Re.lit Re.run Re.chr].
    destruct (ascii_dec a a') as [->|Hn].
    + rewrite Ascii.eqb_refl. apply (IH s g k H).
    + apply Ascii.eqb_neq in Hn. rewrite Hn. reflexivity.
Qed.

Lemma search_without_marker (l : string) (c : ascii) (r : Re.re) :
  forall s,
    Py.contains (l ++ String c "") s = false ->
    Re.search (Re.Seq (Re.lit l) (Re.Seq (Re.chr c) r)) s = None.
Proof.
  induction s as [|a s IH]; intros H; rewrite contains_unfold in H;
    apply orb_false_elim in H; destruct H as [Hp Hs].
  - cbn [Re.search]. rewrite run_marker by exact Hp. reflexivity.
  - cbn [Re.search]. rewrite run_marker by exact Hp. apply IH. exact Hs.
Qed.

Lemma extract_with_valid E (text : string) (patterns : list Re.re) (out : string) :
  ExtractorFFNet.extract_with E text patterns = Some out ->
  out <> "" /\ exists dt, Dates.valid dt = true /\ out = Dates.strftime dt.
Proof.
  induction patterns as [|pattern rest IH]; simpl; [discriminate|].
  destruct (Re.search pattern text) as [g|]; [|exact IH].
  destruct (ExtractorFFNet._ParseDateString E (ExtractorFFNet.group_str 1 g))
    as [[|c parsed]|] eqn:Hp; simpl; try exact IH.
  intros H. injection H as <-. split; [discriminate|].
  unfold ExtractorFFNet._ParseDateString in Hp.
  destruct (_ =? "")%string; [discriminate|].
  apply (parse_with_valid E _ _ _ Hp).
Qed.

(** X12. [_ExtractDateFromText], asked for the "Published" or the
    "Updated" date: a text in which the word is nowhere followed by a
    colon has no date, and a date that is found is the canonical text of a
    valid calendar date. *)
Theorem ExtractDateFromText_canonical :
  forall E text dateType,
    In dateType ["Published"; "Updated"] ->
    (Py.contains (dateType ++ ":") text = false ->
     ExtractorFFNet._ExtractDateFromText E text dateType = None) /\
    (forall out,
       ExtractorFFNet._ExtractDateFromText E text dateType = Some out ->
       out <> "" /\
       exists dt, Dates.valid dt = true /\ out = Dates.strftime dt).
Proof.
  intros E text dateType Hin. split.
  - intros Habsent. unfold ExtractorFFNet._ExtractDateFromText.
    destruct (text =? "")%string; [reflexivity|].
    unfold ExtractorFFNet.date_patterns. cbv zeta.
    cbn [ExtractorFFNet.extract_with Re.seq].
    rewrite !search_without_marker by exact Habsent. reflexivity.
  - intros out H. unfold ExtractorFFNet._ExtractDateFromText in H.
    destruct (text =? "")%string; [discriminate|].
    apply (extract_with_valid E _ _ _ H).
Qed.

Lemma ExtractDateFromText_canonical_witness :
  ExtractorFFNet._ExtractDateFromText quiet_site
    "Rated: T - Words: 1,234 - Published: 3/31/2011" "Updated" = None /\
  exists dt, Dates.valid dt = true /\ "2011-03-31" = Dates.strftime dt.
Proof.
  split.
  - apply (proj1 (ExtractDateFromText_canonical quiet_site
                    "Rated: T - Words: 1,234 - Published: 3/31/2011" "Updated"
                    (or_intror (or_introl eq_refl)))).
    reflexivity.
  - apply (proj2 (ExtractDateFromText_canonical quiet_site
                    "Rated: T - Words: 1,234 - Published: 3/31/2011"
                    "Published" (or_introl eq_refl)) "2011-03-31").
    reflexivity.
Defined.

(** X13. [_TimestampToDate] gives no date for a text that is empty or no
    integer.  For an integer inside the 64-bit range it never raises (a
    year outside 1..9999 gives no date), and outside that range the
    [OverflowError] of [fromtimestamp], which the handler does not catch,
    goes to the caller. *)
Theorem TimestampToDate_errors :
  forall E timestamp,
    (timestamp = "" \/ Py.int timestamp = None ->
     ExtractorFFNet._TimestampToDate E timestamp = Ret None) /\
    (forall ts,
       timestamp <> "" -> Py.int timestamp = Some ts ->
       (- 2 ^ 63 <= ts < 2 ^ 63 ->
        exists r, ExtractorFFNet._TimestampToDate E timestamp = Ret r) /\
       (ts < - 2 ^ 63 \/ 2 ^ 63 <= ts ->
        ExtractorFFNet._TimestampToDate E timestamp = Raise OverflowError)).
Proof.
  intros E timestamp. unfold ExtractorFFNet._TimestampToDate. split.
  - intros [-> | Hint]; [reflexivity|].
    destruct (timestamp =? "")%string; [reflexivity|].
    rewrite Hint. reflexivity.
  - intros ts Hne Hint.
    destruct (String.eqb_spec timestamp ""); [contradiction|].
    rewrite Hint. unfold Dates.fromtimestamp. split.
    + intros Hrange.
      replace ((ts <? - 2 ^ 63) || (2 ^ 63 <=? ts)) with false
        by (symmetry; apply orb_false_intro; lia).
      cbv zeta. destruct (_ && _); simpl; eauto.
    + intros Hout.
      replace ((ts <? - 2 ^ 63) || (2 ^ 63 <=? ts)) with true
        by (symmetry; apply orb_true_iff; lia).
      reflexivity.
Qed.

Lemma TimestampToDate_errors_witness :
  ExtractorFFNet._TimestampToDate quiet_site "abc" = Ret None /\
  ExtractorFFNet._TimestampToDate quiet_site "9223372036854775808"
    = Raise OverflowError.
Proof.
  split.
  - apply (proj1 (TimestampToDate_errors quiet_site "abc")).
    right. reflexivity.
  - apply (proj2 (TimestampToDate_errors quiet_site "9223372036854775808")
             9223372036854775808); [discriminate|reflexivity|].
    right. lia.
Defined.

(** X14. [_ReformatDate] has no date for the empty text only.  For any
    other text it returns the canonical text of a valid date, or the
    current date when the text cannot be parsed; a canonical text is
    returned as it is. *)
Theorem ReformatDate_never_fails :
  forall E date,
    ExtractorFFNet._ReformatDate E "" = None /\
    (date <> "" ->
     exists out,
       ExtractorFFNet._ReformatDate E date = Some out /\
       (out = GetCurrentDate E \/
        exists dt, Dates.valid dt = true /\ out = Dates.strftime dt)) /\
    (forall dt,
       Dates.valid dt = true ->
       ExtractorFFNet._ReformatDate E (Dates.strftime dt)
         = Some (Dates.strftime dt)).
Proof.
  intros E date. split; [reflexivity|]. split.
  - intros Hne. unfold ExtractorFFNet._ReformatDate.
    destruct (String.eqb_spec date ""); [contradiction|].
    destruct (ExtractorFFNet._ParseDateString E date) as [[|c r]|] eqn:Hp;
      eauto.
    eexists. split; [reflexivity|]. right.
    unfold ExtractorFFNet._ParseDateString in Hp.
    destruct (date =? "")%string; [discriminate|].
    apply (parse_with_valid E _ _ _ Hp).
  - intros dt Hv. unfold ExtractorFFNet._ReformatDate,
      ExtractorFFNet._ParseDateString.
    destruct (strftime_shape dt) as (c & rest & Hshape).
    rewrite Hshape at 1 2. cbn [String.eqb].
    rewrite (strip_no_space _ (strftime_no_space dt)).
    rewrite (parse_with_strftime E dt Hv). rewrite Hshape. reflexivity.
Qed.

Lemma ReformatDate_never_fails_witness :
  (exists out,
     ExtractorFFNet._ReformatDate quiet_site "someday" = Some out /\
     (out = "2026-11-04" \/
      exists dt, Dates.valid dt = true /\ out = Dates.strftime dt)) /\
  ExtractorFFNet._ReformatDate quiet_site "2011-03-31" = Some "2011-03-31".
Proof.
  split.
  - apply (proj1 (proj2 (ReformatDate_never_fails quiet_site "someday"))).
    discriminate.
  - apply (proj2 (proj2 (ReformatDate_never_fails quiet_site ""))
             (Dates.mkDate 2011 3 31)).
    reflexivity.
Defined.

(* ================================================================== *)
(** ** More about collections and channels *)

Lemma listing_id_group (text : string) (g : Re.groups) :
  Re.search ExtractorFFNet.re_story_id text = Some g ->
  ExtractorFFNet.group_str 1 g <> "" /\
  all_chars Py.is_digit (ExtractorFFNet.group_str 1 g) = true.
Proof.
  intros H. apply search_sound in H.
  destruct H as (t & m & s' & _ & _ & Hc).
  unfold ExtractorFFNet.re_story_id in Hc. cbn [Re.seq] in Hc.
  inversion Hc as [| |a b m1 m2 g0 g1 g2 H1 H2| | | | |]; subst.
  apply (captures_lit "/s/") in H1. destruct H1 as [-> ->].
  inversion H2 as [| | | | | | |i a m0 g0 g1 H3]; subst.
  apply captures_plus_cls in H3. destruct H3 as (Hne & Hd & ->).
  unfold ExtractorFFNet.group_str. simpl. auto.
Qed.

(** The ids of a listing are non-empty runs of digits. *)
Lemma listing_ids_digits (elements : list (option Anchor)) (id : string) :
  In id (listing_ids elements) ->
  id <> "" /\ all_chars Py.is_digit id = true.
Proof.
  induction elements as [|[[t [h|]]|] rest IH]; simpl; try exact IH;
    [contradiction|].
  destruct (Re.search ExtractorFFNet.re_story_id h) as [g|] eqn:Hg;
    [|exact IH].
  intros [<- | Hin]; [|exact (IH Hin)].
  apply (listing_id_group h g Hg).
Qed.

(** The loop over a listing: the ids of the entries that have one are
    appended in the order of the listing, every other entry is passed over
    with one log record, and nothing else happens. *)
Lemma scan_listing_run (elements : list (option Anchor)) :
  forall storyIDs st,
    exists evs,
      ExtractorFFNet.scan_listing elements storyIDs st =
        (Ret (storyIDs ++ listing_ids elements)%list,
         mkState (flaresolverr_session st) (self st) (requests_made st)
           (fetches_made st) (trace st ++ evs)%list) /\
      Forall not_getsoup evs /\
      (List.length evs + List.length (listing_ids elements))%nat
        = List.length elements.
Proof.
  induction elements as [|[[t [h|]]|] rest IH]; intros ids st; simpl.
  - exists []. rewrite !app_nil_r. destruct st. repeat split. constructor.
  - destruct (Re.search ExtractorFFNet.re_story_id h) as [g|].
    + destruct (IH (ids ++ [ExtractorFFNet.group_str 1 g])%list st)
        as (evs & Heq & F & L).
      exists evs. rewrite Heq, <- app_assoc. simpl. repeat split; auto. lia.
    + run.
      match goal with
      | |- context [ExtractorFFNet.scan_listing rest ids ?s] =>
          destruct (IH ids s) as (evs & Heq & F & L); rewrite Heq
      end.
      simpl. rewrite <- app_assoc. eexists. split; [reflexivity|].
      split; [constructor; [exact I|exact F]|]. simpl. lia.
  - run.
    match goal with
    | |- context [ExtractorFFNet.scan_listing rest ids ?s] =>
        destruct (IH ids s) as (evs & Heq & F & L); rewrite Heq
    end.
    simpl. rewrite <- app_assoc. eexists. split; [reflexivity|].
    split; [constructor; [exact I|exact F]|]. simpl. lia.
  - run.
    match goal with
    | |- context [ExtractorFFNet.scan_listing rest ids ?s] =>
        destruct (IH ids s) as (evs & Heq & F & L); rewrite Heq
    end.
    simpl. rewrite <- app_assoc. eexists. split; [reflexivity|].
    split; [constructor; [exact I|exact F]|]. simpl. lia.
Qed.

(** When the solving service cannot be reached, [_GetSoup] gives what the
    fallback fetcher gives. *)
Lemma GetSoup_by_fallback_any E (site : string -> option Soup) :
  (forall n r, failure_mode (http E n r) = true) ->
  (forall n url parserName, webSession_GetSoup E n url parserName = site url) ->
  forall url parserName st,
    fst (ExtractorFFNet._GetSoup E url parserName st) = Ret (site url).
Proof.
  intros Hnet Hweb url parserName st.
  destruct (_useFlareSolverr (self st)) eqn:Huse.
  - rewrite (GetSoup_configured E url parserName st Huse). unfold bind at 1.
    pose proof (SolveChallenge_failing (http E) url (FlareSolverrPort E)
                  60000 3
                  (mkState (flaresolverr_session st) (self st)
                     (requests_made st) (fetches_made st)
                     (trace st ++ [EvGetSoup url parserName])) Hnet) as Hs.
    destruct (FlareSolverr.SolveChallenge _ _ _ _ _ _) as [r st1].
    simpl in Hs. subst r. simpl Json.truthy. cbv iota.
    unfold ExtractorFFNet.webSession_fetch. run.
    rewrite Hweb. reflexivity.
  - unfold ExtractorFFNet._GetSoup. run. rewrite Huse. simpl.
    rewrite Hweb. reflexivity.
Qed.

Section Pages.

Variable E : environment.
Variable site : string -> option Soup.
Hypothesis fetch_by_url :
  forall url st,
    fst (ExtractorFFNet._GetSoup E url "html.parser" st) = Ret (site url).
Variable collectionURL : string.

(** One round of the page loop. *)
Lemma scan_page (pageIndex : Z) (rest : list Z) (storyIDs : list string)
    (st : state) :
  exists st1 evs,
    trace st1 =
      (trace st ++
       EvGetSoup (ExtractorFFNet.page_url collectionURL pageIndex) "html.parser"
       :: evs)%list /\
    getsoup_urls evs = [] /\
    ExtractorFFNet.scan_pages E collectionURL (pageIndex :: rest) storyIDs st =
      match site (ExtractorFFNet.page_url collectionURL pageIndex) with
      | Some soup =>
          ExtractorFFNet.scan_pages E collectionURL rest
            (storyIDs ++ listing_ids (z_list soup))%list st1
      | None =>
          (Ret None,
           mkState (flaresolverr_session st1) (self st1) (requests_made st1)
             (fetches_made st1)
             (trace st1 ++
              [EvLog ERROR "Failed to download page: {pageURL}."])%list)
      end.
Proof.
  cbn [ExtractorFFNet.scan_pages]. cbv zeta. unfold bind at 1.
  pose proof (fetch_by_url (ExtractorFFNet.page_url collectionURL pageIndex) st)
    as Hf.
  destruct (GetSoup_trace E (ExtractorFFNet.page_url collectionURL pageIndex)
              "html.parser" st) as (evs1 & T1 & F1).
  destruct (ExtractorFFNet._GetSoup E _ "html.parser" st) as [r st1].
  simpl in Hf, T1. subst r.
  destruct (site (ExtractorFFNet.page_url collectionURL pageIndex)) as [soup|].
  - unfold bind at 1.
    destruct (scan_listing_run (z_list soup) storyIDs st1)
      as (evs2 & Heq & F2 & _).
    rewrite Heq. eexists. exists (evs1 ++ evs2)%list.
    split; [|split; [|reflexivity]].
    + simpl. rewrite T1, <- app_assoc. reflexivity.
    + rewrite getsoup_urls_app, F1, (getsoup_urls_none _ F2). reflexivity.
  - exists st1, evs1. split; [exact T1|]. split; [exact F1|]. reflexivity.
Qed.

(** The page loop over pages that can all be fetched. *)
Lemma scan_pages_collects (pages : list Z) :
  (forall p, In p pages ->
     site (ExtractorFFNet.page_url collectionURL p) <> None) ->
  forall storyIDs st,
    exists st' evs,
      ExtractorFFNet.scan_pages E collectionURL pages storyIDs st =
        (Ret (Some (storyIDs ++
                    flat_map
                      (fun p =>
                         match site (ExtractorFFNet.page_url collectionURL p) with
                         | Some soup => listing_ids (z_list soup)
                         | None => []
                         end)
                      pages)%list), st') /\
      trace st' = (trace st ++ evs)%list /\
      getsoup_urls evs = map (ExtractorFFNet.page_url collectionURL) pages.
Proof.
  induction pages as [|p rest IH]; intros Hok ids st.
  - exists st, []. simpl. rewrite !app_nil_r. auto.
  - destruct (scan_page p rest ids st) as (st1 & evs1 & T1 & F1 & Heq).
    rewrite Heq. cbn [flat_map].
    destruct (site (ExtractorFFNet.page_url collectionURL p)) as [soup|] eqn:Hp.
    + destruct (IH (fun q Hq => Hok q (or_intror Hq))
                  (ids ++ listing_ids (z_list soup))%list st1)
        as (st' & evs & Hrun & T & F).
      exists st'. eexists. split; [rewrite Hrun, <- app_assoc; reflexivity|].
      split; [rewrite T, T1, <- app_assoc; reflexivity|].
      simpl. rewrite getsoup_urls_app, F1, F. reflexivity.
    + exfalso. apply (Hok p (or_introl eq_refl)). exact Hp.
Qed.

(** The page loop stops at the first page that cannot be fetched. *)
Lemma scan_pages_stops (before : list Z) (k : Z) (after : list Z) :
  (forall p, In p before ->
     site (ExtractorFFNet.page_url collectionURL p) <> None) ->
  site (ExtractorFFNet.page_url collectionURL k) = None ->
  forall storyIDs st,
    exists st' evs,
      ExtractorFFNet.scan_pages E collectionURL (before ++ k :: after)%list
        storyIDs st = (Ret None, st') /\
      trace st' = (trace st ++ evs)%list /\
      getsoup_urls evs =
        map (ExtractorFFNet.page_url collectionURL) (before ++ [k])%list.
Proof.
  intros Hok Hk.
  induction before as [|p rest IH]; intros ids st.
  - destruct (scan_page k after ids st) as (st1 & evs1 & T1 & F1 & Heq).
    simpl app. rewrite Heq, Hk. eexists. eexists. split; [reflexivity|].
    split; [simpl; rewrite T1, <- app_assoc; reflexivity|].
    simpl. rewrite getsoup_urls_app, F1. reflexivity.
  - destruct (scan_page p (rest ++ k :: after)%list ids st)
      as (st1 & evs1 & T1 & F1 & Heq).
    simpl app. rewrite Heq.
    destruct (site (ExtractorFFNet.page_url collectionURL p)) as [soup|] eqn:Hp.
    + destruct (IH (fun q Hq => Hok q (or_intror Hq))
                  (ids ++ listing_ids (z_list soup))%list st1)
        as (st' & evs & Hrun & T & F).
      exists st'. eexists. split; [exact Hrun|].
      split; [rewrite T, T1, <- app_assoc; reflexivity|].
      simpl. rewrite getsoup_urls_app, F1, F. reflexivity.
    + exfalso. apply (Hok p (or_introl eq_refl)). exact Hp.
Qed.

End Pages.

Lemma map_seq_from (lo : Z) (b : nat) :
  forall n,
    map (fun i => lo + Z.of_nat i) (seq n b)
    = map (fun i => lo + Z.of_nat n + Z.of_nat i) (seq 0 b).
Proof.
  induction b as [|b IH]; intros n; simpl; [reflexivity|].
  f_equal; [lia|].
  rewrite IH, <- seq_shift, map_map. apply map_ext. intros i. lia.
Qed.

Lemma range_split (lo k hi : Z) :
  lo <= k < hi ->
  Py.range lo hi = (Py.range lo k ++ k :: Py.range (k + 1) hi)%list.
Proof.
  intros H. unfold Py.range.
  replace (Z.to_nat (hi - lo))
    with (Z.to_nat (k - lo) + S (Z.to_nat (hi - (k + 1))))%nat by lia.
  rewrite seq_app, map_app. f_equal. simpl seq. cbn [map].
  f_equal; [lia|].
  rewrite map_seq_from. apply map_ext. intros i. lia.
Qed.

Lemma In_range (lo hi x : Z) : In x (Py.range lo hi) -> lo <= x < hi.
Proof.
  unfold Py.range. intros H. apply in_map_iff in H.
  destruct H as (i & <- & Hi). apply in_seq in Hi. lia.
Qed.

(** X15. When every page can be fetched, [_ScanCollection] returns the
    URLs [base/s/id/] of the stories listed on the pages 1 to [N], in the
    order of the pages and of the listings; an entry without a link,
    without an [href] or without a story id in it is left out.  Every id is
    a non-empty run of digits. *)
Theorem ScanCollection_story_urls :
  forall E site URL g lastLink N st,
    (forall url st',
       fst (ExtractorFFNet._GetSoup E url "html.parser" st')
         = Ret (Some (site url))) ->
    Re.search ExtractorFFNet.re_community URL = Some g ->
    let collectionURL :=
      GetSiteURL E URL ++ "/community/" ++ ExtractorFFNet.group_str 1 g
        ++ "/" ++ ExtractorFFNet.group_str 2 g in
    ExtractorFFNet.find_last_link
      (center_links (site (ExtractorFFNet.page_url collectionURL 1)))
      = Ret lastLink ->
    ExtractorFFNet.last_page_index lastLink = Ret N ->
    let ids :=
      flat_map
        (fun p =>
           listing_ids (z_list (site (ExtractorFFNet.page_url collectionURL p))))
        (Py.range 1 (N + 1)) in
    fst (ExtractorFFNet._ScanCollection E URL st) =
      Ret (Some (map (fun ID => GetSiteURL E URL ++ "/s/" ++ ID ++ "/") ids)) /\
    (forall id, In id ids -> id <> "" /\ all_chars Py.is_digit id = true).
Proof.
  intros E site URL g lastLink N st Hfetch Hurl collectionURL Hlast HN ids.
  split.
  - unfold ExtractorFFNet._ScanCollection. rewrite Hurl.
    cbv zeta. fold collectionURL.
    change (collectionURL ++ "/99/0/1/0/0/0/0/")
      with (ExtractorFFNet.page_url collectionURL 1).
    unfold bind at 1.
    pose proof (Hfetch (ExtractorFFNet.page_url collectionURL 1) st) as Hf.
    destruct (ExtractorFFNet._GetSoup E _ "html.parser" st) as [r st1].
    simpl in Hf. subst r.
    unfold bind at 1, lift. rewrite Hlast.
    unfold bind at 1. rewrite HN.
    unfold bind at 1.
    destruct (scan_pages_collects E (fun url => Some (site url)) Hfetch
                collectionURL (Py.range 1 (N + 1))
                ltac:(intros; discriminate) [] st1)
      as (st2 & evs2 & Heq & _ & _).
    rewrite Heq. reflexivity.
  - intros id Hin. subst ids. apply in_flat_map in Hin.
    destruct Hin as (p & _ & Hin).
    apply (listing_ids_digits _ _ Hin).
Qed.

Lemma ScanCollection_story_urls_witness :
  fst (ExtractorFFNet._ScanCollection listed_site
         "https://www.fanfiction.net/community/Foo/123/" plain) =
    Ret (Some ["https://www.fanfiction.net/s/111/";
               "https://www.fanfiction.net/s/222/"]).
Proof.
  apply (ScanCollection_story_urls listed_site (fun _ => listed_soup)
           "https://www.fanfiction.net/community/Foo/123/"
           [(2%nat, "123"); (1%nat, "Foo")] None 1 plain).
  - intros url st'.
    apply (GetSoup_by_fallback listed_site (fun _ => listed_soup));
      intros; reflexivity.
  - reflexivity.
  - reflexivity.
  - reflexivity.
Defined.

(** X16. [_ScanCollection] gives up early, with the result [None]: on a
    URL without "/community/" in it, which it only logs, fetching nothing;
    and when the first page cannot be fetched, after that one fetch. *)
Theorem ScanCollection_early_failures :
  forall E URL st,
    let run := ExtractorFFNet._ScanCollection E URL st in
    (Py.contains "/community/" URL = false ->
     run = (Ret None,
            mkState (flaresolverr_session st) (self st) (requests_made st)
              (fetches_made st)
              (trace st ++
               [EvLog ERROR "Failed to retrieve collection name/ID."]))) /\
    (forall g,
       Re.search ExtractorFFNet.re_community URL = Some g ->
       let normalizedURL :=
         (GetSiteURL E URL ++ "/community/" ++ ExtractorFFNet.group_str 1 g
            ++ "/" ++ ExtractorFFNet.group_str 2 g) ++ "/99/0/1/0/0/0/0/" in
       fst (ExtractorFFNet._GetSoup E normalizedURL "html.parser" st) = Ret None ->
       fst run = Ret None /\
       getsoup_urls (new_events st (snd run)) = [normalizedURL]).
Proof.
  intros E URL st run. split.
  - intros Habsent. subst run. unfold ExtractorFFNet._ScanCollection.
    unfold ExtractorFFNet.re_community. cbn [Re.seq].
    rewrite search_without_literal by exact Habsent. reflexivity.
  - intros g Hurl normalizedURL Hnone.
    assert (Hrun : exists st' evs,
               run = (Ret None, st') /\
               trace st' = (trace st ++ evs)%list /\
               getsoup_urls evs = [normalizedURL]).
    { subst run. unfold ExtractorFFNet._ScanCollection. rewrite Hurl. cbv zeta.
      fold normalizedURL. unfold bind at 1.
      destruct (GetSoup_trace E normalizedURL "html.parser" st)
        as (evs1 & T1 & F1).
      destruct (ExtractorFFNet._GetSoup E normalizedURL "html.parser" st)
        as [r st1].
      simpl in Hnone, T1. subst r. run.
      eexists. eexists. split; [reflexivity|]. split.
      - simpl. rewrite T1, <- app_assoc. reflexivity.
      - rewrite getsoup_urls_app. simpl. rewrite F1. reflexivity. }
    destruct Hrun as (st' & evs & -> & T & F). simpl. split; [reflexivity|].
    rewrite (new_events_app st _ evs T). exact F.
Qed.

Lemma ScanCollection_early_failures_witness :
  fst (ExtractorFFNet._ScanCollection quiet_site
         "https://www.fanfiction.net/u/12345/" plain) = Ret None /\
  getsoup_urls
    (new_events plain
       (snd (ExtractorFFNet._ScanCollection offline_site
               "https://www.fanfiction.net/community/Foo/123/" plain)))
  = ["https://www.fanfiction.net/community/Foo/123/99/0/1/0/0/0/0/"].
Proof.
  split.
  - rewrite (proj1 (ScanCollection_early_failures quiet_site
                      "https://www.fanfiction.net/u/12345/" plain));
      reflexivity.
  - apply (proj2 (ScanCollection_early_failures offline_site
                    "https://www.fanfiction.net/community/Foo/123/" plain)
             [(2%nat, "123"); (1%nat, "Foo")]);
      reflexivity.
Defined.

(** X17. [_ScanCollection] stops at the first page that cannot be
    fetched: with the pages before page [k] fetched and page [k] not, the
    result is [None], the stories found so far are dropped, and no page
    after [k] is asked for. *)
Theorem ScanCollection_stops_at_failed_page :
  forall E site URL g soup1 lastLink N k st,
    (forall url st',
       fst (ExtractorFFNet._GetSoup E url "html.parser" st') = Ret (site url)) ->
    Re.search ExtractorFFNet.re_community URL = Some g ->
    let collectionURL :=
      GetSiteURL E URL ++ "/community/" ++ ExtractorFFNet.group_str 1 g
        ++ "/" ++ ExtractorFFNet.group_str 2 g in
    site (ExtractorFFNet.page_url collectionURL 1) = Some soup1 ->
    ExtractorFFNet.find_last_link (center_links soup1) = Ret lastLink ->
    ExtractorFFNet.last_page_index lastLink = Ret N ->
    1 <= k <= N ->
    (forall p, 1 <= p < k ->
       site (ExtractorFFNet.page_url collectionURL p) <> None) ->
    site (ExtractorFFNet.page_url collectionURL k) = None ->
    let run := ExtractorFFNet._ScanCollection E URL st in
    fst run = Ret None /\
    getsoup_urls (new_events st (snd run)) =
      ExtractorFFNet.page_url collectionURL 1
      :: map (ExtractorFFNet.page_url collectionURL) (Py.range 1 (k + 1)).
Proof.
  intros E site URL g soup1 lastLink N k st Hfetch Hurl collectionURL
    Hfirst Hlast HN Hk Hbefore Hfail run.
  assert (Hrun : exists st' evs,
             run = (Ret None, st') /\
             trace st' = (trace st ++ evs)%list /\
             getsoup_urls evs =
               ExtractorFFNet.page_url collectionURL 1
               :: map (ExtractorFFNet.page_url collectionURL)
                    (Py.range 1 (k + 1))).
  { subst run. unfold ExtractorFFNet._ScanCollection. rewrite Hurl.
    cbv zeta. fold collectionURL.
    change (collectionURL ++ "/99/0/1/0/0/0/0/")
      with (ExtractorFFNet.page_url collectionURL 1).
    unfold bind at 1.
    pose proof (Hfetch (ExtractorFFNet.page_url collectionURL 1) st) as Hf.
    destruct (GetSoup_trace E (ExtractorFFNet.page_url collectionURL 1)
                "html.parser" st) as (evs1 & T1 & F1).
    destruct (ExtractorFFNet._GetSoup E _ "html.parser" st) as [r st1].
    simpl in Hf, T1. subst r. rewrite Hfirst.
    unfold bind at 1, lift. rewrite Hlast.
    unfold bind at 1. rewrite HN.
    unfold bind at 1.
    rewrite (range_split 1 k (N + 1)) by lia.
    destruct (scan_pages_stops E site Hfetch collectionURL
                (Py.range 1 k) k (Py.range (k + 1) (N + 1))) with
      (storyIDs := @nil string) (st := st1)
      as (st2 & evs2 & Heq & T2 & F2).
    - intros p Hp. apply In_range in Hp. apply Hbefore. lia.
    - exact Hfail.
    - rewrite Heq. exists st2. eexists. split; [reflexivity|]. split.
      + rewrite T2, T1, <- app_assoc. reflexivity.
      + rewrite getsoup_urls_app. simpl. rewrite F1, F2.
        rewrite (range_split 1 k (k + 1)) by lia.
        replace (Py.range (k + 1) (k + 1)) with (@nil Z)
          by (unfold Py.range; rewrite Z.sub_diag; reflexivity).
        reflexivity. }
  destruct Hrun as (st' & evs & -> & T & F). simpl. split; [reflexivity|].
  rewrite (new_events_app st _ evs T). exact F.
Qed.

Lemma ScanCollection_stops_at_failed_page_witness :
  let run := ExtractorFFNet._ScanCollection broken_site
               "https://www.fanfiction.net/community/Foo/123/" plain in
  fst run = Ret None /\
  getsoup_urls (new_events plain (snd run))
  = ["https://www.fanfiction.net/community/Foo/123/99/0/1/0/0/0/0/";
     "https://www.fanfiction.net/community/Foo/123/99/0/1/0/0/0/0/";
     "https://www.fanfiction.net/community/Foo/123/99/0/2/0/0/0/0/";
     "https://www.fanfiction.net/community/Foo/123/99/0/3/0/0/0/0/"].
Proof.
  apply (ScanCollection_stops_at_failed_page broken_site
           (fun url => webSession_GetSoup broken_site 0 url "html.parser")
           "https://www.fanfiction.net/community/Foo/123/"
           [(2%nat, "123"); (1%nat, "Foo")] paged_soup
           (Some "/community/Foo/123/99/0/5/0/0/0/0/") 5 3 plain).
  - intros url st'.
    apply (GetSoup_by_fallback_any broken_site
             (fun url => webSession_GetSoup broken_site 0 url "html.parser"));
      intros; reflexivity.
  - reflexivity.
  - reflexivity.
  - reflexivity.
  - reflexivity.
  - lia.
  - intros p Hp.
    assert (Hcases : p = 1 \/ p = 2) by lia.
    destruct Hcases as [-> | ->]; discriminate.
  - reflexivity.
Defined.

Lemma find_last_link_raises (candidates : list Anchor) (e : exn) :
  ExtractorFFNet.find_last_link candidates = Raise e -> e = KeyError.
Proof.
  induction candidates as [|[t h] rest IH]; simpl; [discriminate|].
  destruct (Py.strip t =? "Last")%string; [|exact IH].
  destruct h; [discriminate|]. intros H. injection H as <-. reflexivity.
Qed.

Lemma last_page_index_raises (link : option string) (e : exn) :
  ExtractorFFNet.last_page_index link = Raise e -> e = ValueError.
Proof.
  unfold ExtractorFFNet.last_page_index.
  destruct link as [[|c u]|]; try discriminate. cbv zeta.
  destruct (8 <? List.length (Py.split "/" (String c u)))%nat eqn:Hlen;
    [|discriminate].
  apply Nat.ltb_lt in Hlen.
  rewrite (getitem_negative _ (-6) "") by lia.
  destruct (Py.int _); [discriminate|].
  intros H. injection H as <-. reflexivity.
Qed.

(** X18. The only exceptions [_ScanCollection] lets out while it reads
    the number of pages are the [KeyError] of a "Last" link without
    [href] and the [ValueError] of a page index that is no integer; the
    index it reads is always there.  Either one goes to the caller after
    the single fetch of the first page. *)
Theorem ScanCollection_last_link_errors :
  forall E URL g soup e st,
    Re.search ExtractorFFNet.re_community URL = Some g ->
    let normalizedURL :=
      (GetSiteURL E URL ++ "/community/" ++ ExtractorFFNet.group_str 1 g
         ++ "/" ++ ExtractorFFNet.group_str 2 g) ++ "/99/0/1/0/0/0/0/" in
    fst (ExtractorFFNet._GetSoup E normalizedURL "html.parser" st)
      = Ret (Some soup) ->
    match ExtractorFFNet.find_last_link (center_links soup) with
    | Ret link => ExtractorFFNet.last_page_index link
    | Raise x => Raise x
    end = Raise e ->
    let run := ExtractorFFNet._ScanCollection E URL st in
    fst run = Raise e /\
    (e = KeyError \/ e = ValueError) /\
    getsoup_urls (new_events st (snd run)) = [normalizedURL].
Proof.
  intros E URL g soup e st Hurl normalizedURL Hsoup Hraise run.
  assert (Hrun : exists st' evs,
             run = (Raise e, st') /\
             trace st' = (trace st ++ evs)%list /\
             getsoup_urls evs = [normalizedURL]).
  { subst run. unfold ExtractorFFNet._ScanCollection. rewrite Hurl. cbv zeta.
    fold normalizedURL. unfold bind at 1.
    destruct (GetSoup_trace E normalizedURL "html.parser" st)
      as (evs1 & T1 & F1).
    destruct (ExtractorFFNet._GetSoup E normalizedURL "html.parser" st)
      as [r st1].
    simpl in Hsoup, T1. subst r. unfold bind at 1, lift.
    destruct (ExtractorFFNet.find_last_link (center_links soup)) as [link|x].
    - unfold bind at 1. rewrite Hraise.
      exists st1. eexists. split; [reflexivity|]. split; [exact T1|].
      simpl. rewrite F1. reflexivity.
    - injection Hraise as ->.
      exists st1. eexists. split; [reflexivity|]. split; [exact T1|].
      simpl. rewrite F1. reflexivity. }
  destruct Hrun as (st' & evs & -> & T & F). simpl. split; [reflexivity|].
  split.
  - destruct (ExtractorFFNet.find_last_link (center_links soup)) as [link|x]
      eqn:Hlink.
    + right. apply (last_page_index_raises link e Hraise).
    + injection Hraise as ->. left. apply (find_last_link_raises _ e Hlink).
  - rewrite (new_events_app st _ evs T). exact F.
Qed.

Lemma ScanCollection_last_link_errors_witness :
  fst (ExtractorFFNet._ScanCollection unlinked_site
         "https://www.fanfiction.net/community/Foo/123/" plain)
  = Raise KeyError.
Proof.
  apply (ScanCollection_last_link_errors unlinked_site
           "https://www.fanfiction.net/community/Foo/123/"
           [(2%nat, "123"); (1%nat, "Foo")]
           (mkSoup None [mkAnchor "Last" None] [] None None) KeyError plain);
    reflexivity.
Defined.

Lemma supported_host (host : string) :
  existsb (String.eqb host) ExtractorFFNet.GetSupportedHostnames = true <->
  In host ["fanfiction.net"; "fictionpress.com"].
Proof.
  unfold ExtractorFFNet.GetSupportedHostnames. rewrite existsb_exists. split.
  - intros (x & Hin & Heq). apply String.eqb_eq in Heq. subst x. exact Hin.
  - intros Hin. exists host. split; [exact Hin|apply String.eqb_refl].
Qed.

Lemma user_id_group (text : string) (g : Re.groups) :
  Re.search ExtractorFFNet.re_user_id text = Some g ->
  ExtractorFFNet.group_str 1 g <> "" /\
  all_chars Py.is_digit (ExtractorFFNet.group_str 1 g) = true.
Proof.
  intros H. apply search_sound in H.
  destruct H as (t & m & s' & _ & _ & Hc).
  unfold ExtractorFFNet.re_user_id in Hc. cbn [Re.seq] in Hc.
  inversion Hc as [| |a b m1 m2 g0 g1 g2 H1 H2| | | | |]; subst.
  apply (captures_lit "/u/") in H1. destruct H1 as [-> ->].
  inversion H2 as [| | | | | | |i a m0 g0 g1 H3]; subst.
  apply captures_plus_cls in H3. destruct H3 as (Hne & Hd & ->).
  unfold ExtractorFFNet.group_str. simpl. auto.
Qed.

(** X19. [ScanChannel] answers [None] at once, without a fetch or a log
    record, for an empty URL, for a URL of another host, and for a URL of
    a supported host that has neither "/community/" nor "/u/" in it; a URL
    of a supported host with "/community/" in it is handed to
    [_ScanCollection]. *)
Theorem ScanChannel_dispatch :
  forall E GetHostname mystories URL st,
    let run := ExtractorFFNet.ScanChannel E GetHostname mystories URL st in
    (URL = "" \/
     ~ In (GetHostname URL) ["fanfiction.net"; "fictionpress.com"] ->
     run = (Ret None, st)) /\
    (URL <> "" ->
     In (GetHostname URL) ["fanfiction.net"; "fictionpress.com"] ->
     (Py.contains "/community/" URL = true ->
      run = ExtractorFFNet._ScanCollection E URL st) /\
     (Py.contains "/community/" URL = false ->
      Py.contains "/u/" URL = false ->
      run = (Ret None, st))).
Proof.
  intros E GetHostname mystories URL st run. subst run.
  unfold ExtractorFFNet.ScanChannel. split.
  - intros [-> | Hhost]; [reflexivity|].
    destruct (existsb _ _) eqn:Hex.
    + exfalso. apply Hhost. apply supported_host. exact Hex.
    + rewrite Bool.orb_true_r. reflexivity.
  - intros Hne Hhost.
    destruct (String.eqb_spec URL ""); [contradiction|].
    apply supported_host in Hhost. rewrite Hhost. simpl. split.
    + intros ->. reflexivity.
    + intros -> Huser. unfold ExtractorFFNet.re_user_id. cbn [Re.seq].
      rewrite search_without_literal by exact Huser. reflexivity.
Qed.

Lemma ScanChannel_dispatch_witness :
  ExtractorFFNet.ScanChannel quiet_site (fun _ => "archiveofourown.org")
    (fun _ => []) "https://archiveofourown.org/users/someone" plain
    = (Ret None, plain) /\
  ExtractorFFNet.ScanChannel quiet_site (fun _ => "fanfiction.net")
    (fun _ => []) "https://www.fanfiction.net/community/Foo/123/" plain
    = ExtractorFFNet._ScanCollection quiet_site
        "https://www.fanfiction.net/community/Foo/123/" plain.
Proof.
  split.
  - apply (proj1 (ScanChannel_dispatch quiet_site
                    (fun _ => "archiveofourown.org") (fun _ => [])
                    "https://archiveofourown.org/users/someone" plain)).
    right. intros [H | [H | []]]; discriminate.
  - apply (proj2 (ScanChannel_dispatch quiet_site
                    (fun _ => "fanfiction.net") (fun _ => [])
                    "https://www.fanfiction.net/community/Foo/123/" plain)).
    + discriminate.
    + left. reflexivity.
    + reflexivity.
Defined.

(** X20. [ScanChannel] on the URL of an author page: the user id it reads
    is a non-empty run of digits, and the page [base/u/id/] is fetched,
    once.  When the page cannot be fetched the result is [None]; else it
    is the list of the URLs [base/s/id/] of the stories of the page that
    have a link with a story id, in the order of the page. *)
Theorem ScanChannel_author_page :
  forall E GetHostname mystories URL g st,
    URL <> "" ->
    In (GetHostname URL) ["fanfiction.net"; "fictionpress.com"] ->
    Py.contains "/community/" URL = false ->
    Re.search ExtractorFFNet.re_user_id URL = Some g ->
    let userID := ExtractorFFNet.group_str 1 g in
    let normalizedURL := GetSiteURL E URL ++ "/u/" ++ userID ++ "/" in
    let run := ExtractorFFNet.ScanChannel E GetHostname mystories URL st in
    (userID <> "" /\ all_chars Py.is_digit userID = true) /\
    getsoup_urls (new_events st (snd run)) = [normalizedURL] /\
    (fst (ExtractorFFNet._GetSoup E normalizedURL "html.parser" st) = Ret None ->
     fst run = Ret None) /\
    (forall pageSoup,
       fst (ExtractorFFNet._GetSoup E normalizedURL "html.parser" st)
         = Ret (Some pageSoup) ->
       fst run =
         Ret (Some (map (fun ID => GetSiteURL E URL ++ "/s/" ++ ID ++ "/")
                      (listing_ids (mystories pageSoup))))).
Proof.
  intros E GetHostname mystories URL g st Hne Hhost Hcomm Huser
    userID normalizedURL run.
  split; [apply (user_id_group URL g Huser)|].
  set (after := fun pageSoup : option Soup =>
         match pageSoup with
         | Some pageSoup =>
             storyIDs <- ExtractorFFNet.scan_listing (mystories pageSoup) [] ;;
             ret (Some (map (fun ID => GetSiteURL E URL ++ "/s/" ++ ID ++ "/")
                          storyIDs))
         | None => ret None
         end).
  assert (Hrun : run =
            bind (ExtractorFFNet._GetSoup E normalizedURL "html.parser") after st).
  { subst run. unfold ExtractorFFNet.ScanChannel.
    destruct (String.eqb_spec URL ""); [contradiction|].
    apply supported_host in Hhost. rewrite Hhost, Hcomm, Huser. reflexivity. }
  rewrite Hrun. clear Hrun run. split; [|split].
  - apply GetSoup_then. intros [pageSoup|]; subst after; cbv beta.
    + apply emits_bind; [apply scan_listing_emits|intros ids].
      apply emits_ret.
    + apply emits_ret.
  - intros Hnone. unfold bind.
    destruct (ExtractorFFNet._GetSoup E normalizedURL "html.parser" st)
      as [r st1].
    simpl in Hnone. subst r. reflexivity.
  - intros pageSoup Hsoup. unfold bind at 1.
    destruct (ExtractorFFNet._GetSoup E normalizedURL "html.parser" st)
      as [r st1].
    simpl in Hsoup. subst r. subst after. cbv beta iota. unfold bind.
    destruct (scan_listing_run (mystories pageSoup) [] st1)
      as (evs & Heq & _ & _).
    rewrite Heq. reflexivity.
Qed.

Lemma ScanChannel_author_page_witness :
  let run :=
    ExtractorFFNet.ScanChannel listed_site (fun _ => "fanfiction.net") z_list
      "https://www.fanfiction.net/u/12345/Somebody" plain in
  getsoup_urls (new_events plain (snd run))
    = ["https://www.fanfiction.net/u/12345/"] /\
  fst run = Ret (Some ["https://www.fanfiction.net/s/111/";
                       "https://www.fanfiction.net/s/222/"]).
Proof.
  destruct (ScanChannel_author_page listed_site (fun _ => "fanfiction.net")
              z_list "https://www.fanfiction.net/u/12345/Somebody"
              [(1%nat, "12345")] plain)
    as (_ & Hfetch & _ & Hurls).
  - discriminate.
  - left. reflexivity.
  - reflexivity.
  - reflexivity.
  - split; [exact Hfetch|]. apply (Hurls listed_soup). reflexivity.
Defined.

(* ================================================================== *)
(** ** The chapter of a page *)

Lemma chapter_title_group (text : string) (g : Re.groups) :
  Re.search ExtractorFFNet.re_chapter_title text = Some g ->
  let title := ExtractorFFNet.group_str 1 g in
  all_chars (fun c => negb (Ascii.eqb c ExtractorFFNet.newline)) title = true /\
  exists number,
    number <> "" /\ all_chars Py.is_digit number = true /\
    Py.contains (number ++ ". " ++ title) text = true.
Proof.
  intros H. apply search_sound in H.
  destruct H as (t & m & s' & Hsuf & Ht & Hc).
  unfold ExtractorFFNet.re_chapter_title in Hc. cbn [Re.seq] in Hc.
  inversion Hc as [| |a b m1 m2 g0 g1 g2 H1 H2| | | | |]; subst.
  apply captures_plus_cls in H1. destruct H1 as (Hne & Hd & ->).
  inversion H2 as [| |a b m3 m4 g0 g3 g4 H3 H4| | | | |]; subst.
  apply (captures_lit ". ") in H3. destruct H3 as [-> ->].
  inversion H4 as [| | | | | | |i a m0 g0 g5 H5]; subst.
  apply captures_star_cls in H5. destruct H5 as [Hnl ->].
  unfold ExtractorFFNet.group_str. simpl Re.group. cbv iota.
  split; [exact Hnl|].
  exists m1. repeat split; auto.
  apply (contains_suffix _ _ _ Hsuf).
  rewrite <- !append_assoc. apply prefix_append.
Qed.

(** *** What the matcher finds *)

(** A starred class is greedy: it takes the whole run of characters of
    the class when what follows is accepted there. *)
Lemma run_star_cls {R} (p : ascii -> bool) (tail : string) (g : Re.groups)
    (k : string -> Re.groups -> option R) (x : R) :
  match tail with
  | String c _ => p c = false
  | EmptyString => True
  end ->
  k tail g = Some x ->
  forall d,
    all_chars p d = true ->
    Re.run (Re.Star (Re.Cls p)) (d ++ tail) g k = Some x.
Proof.
  intros Htail Hk d Hd. cbn [Re.run].
  assert (Hn : (String.length d <= String.length (d ++ tail))%nat)
    by (rewrite length_append; lia).
  revert Hn. generalize (String.length (d ++ tail)) as n. intros n.
  revert d Hd. induction n as [|n IH]; intros d Hd Hn.
  - destruct d; [exact Hk|simpl in Hn; lia].
  - destruct d as [|c d].
    + simpl append. destruct tail as [|c tail]; cbv beta match fix;
        [exact Hk|].
      rewrite Htail. exact Hk.
    + simpl in Hd. apply andb_prop in Hd. destruct Hd as [Hc Hd].
      simpl append. cbv beta match fix. rewrite Hc.
      replace (String.length (d ++ tail) <? String.length (String c (d ++ tail)))%nat
        with true by (symmetry; apply Nat.ltb_lt; simpl; lia).
      rewrite (IH d Hd) by (simpl in Hn; lia). reflexivity.
Qed.

Lemma run_lit_prefix {R} (l : string) :
  forall s g (k : string -> Re.groups -> option R),
    Re.run (Re.lit l) (l ++ s) g k = k s g.
Proof.
  induction l as [|c l IH]; intros s g k; [reflexivity|].
  cbn [Re.lit Re.run Re.chr append]. rewrite Ascii.eqb_refl. apply IH.
Qed.

(** The title pattern at the start of a number. *)
Lemma run_chapter_title (number t rest : string) :
  number <> "" ->
  all_chars Py.is_digit number = true ->
  all_chars (fun c => negb (Ascii.eqb c ExtractorFFNet.newline)) t = true ->
  (rest = "" \/ exists r, rest = String ExtractorFFNet.newline r) ->
  Re.run ExtractorFFNet.re_chapter_title (number ++ ". " ++ t ++ rest) []
         (fun _ g => Some g)
  = Some [(1%nat, t)].
Proof.
  intros Hne Hd Ht Hrest.
  destruct number as [|c d]; [congruence|].
  simpl in Hd. apply andb_prop in Hd. destruct Hd as [Hc Hd].
  unfold ExtractorFFNet.re_chapter_title. cbn [Re.seq].
  unfold Re.plus at 1, Re.digit.
  change (Re.run (Re.Seq (Re.Seq ?a ?b) ?r) ?s ?g ?k)
    with (Re.run a s g (fun s1 g1 => Re.run b s1 g1
                          (fun s2 g2 => Re.run r s2 g2 k))).
  cbn [Re.run append]. rewrite Hc.
  apply (run_star_cls Py.is_digit (". " ++ t ++ rest)); [reflexivity| |exact Hd].
  change (Re.run (Re.Seq ?a ?b) ?s ?g ?k)
    with (Re.run a s g (fun s1 g1 => Re.run b s1 g1 k)).
  rewrite run_lit_prefix.
  change (Re.run (Re.Grp ?i ?a) ?s ?g ?k)
    with (Re.run a s g
            (fun s1 g1 =>
               k s1 ((i, substring 0 (String.length s - String.length s1) s)
                     :: g1))).
  apply run_star_cls; [| |exact Ht].
  - destruct Hrest as [-> | (r & ->)]; [exact I|].
    rewrite Ascii.eqb_refl. reflexivity.
  - rewrite substring_prefix. reflexivity.
Qed.

(** No match of the title pattern starts at a character that is no
    digit. *)
Lemma search_skips (r : Re.re) (pre s : string) :
  all_chars (fun c => negb (Py.is_digit c)) pre = true ->
  Re.search (Re.Seq (Re.plus Re.digit) r) (pre ++ s)
  = Re.search (Re.Seq (Re.plus Re.digit) r) s.
Proof.
  induction pre as [|c pre IH]; intros Hpre; [reflexivity|].
  simpl in Hpre. apply andb_prop in Hpre. destruct Hpre as [Hc Hpre].
  apply Bool.negb_true_iff in Hc.
  simpl append. cbn [Re.search].
  replace (Re.run (Re.Seq (Re.plus Re.digit) r) (String c (pre ++ s)) []
             (fun _ g => Some g)) with (@None Re.groups).
  - apply IH. exact Hpre.
  - unfold Re.plus, Re.digit. cbn [Re.run]. rewrite Hc. reflexivity.
Qed.

Lemma search_chapter_title (pre number t rest : string) :
  all_chars (fun c => negb (Py.is_digit c)) pre = true ->
  number <> "" ->
  all_chars Py.is_digit number = true ->
  all_chars (fun c => negb (Ascii.eqb c ExtractorFFNet.newline)) t = true ->
  (rest = "" \/ exists r, rest = String ExtractorFFNet.newline r) ->
  Re.search ExtractorFFNet.re_chapter_title (pre ++ number ++ ". " ++ t ++ rest)
  = Some [(1%nat, t)].
Proof.
  intros Hpre Hne Hd Ht Hrest.
  pose proof (run_chapter_title number t rest Hne Hd Ht Hrest) as Hrun.
  unfold ExtractorFFNet.re_chapter_title in *. cbn [Re.seq] in *.
  rewrite (search_skips _ pre _ Hpre).
  destruct number as [|c d]; [congruence|].
  simpl append in *. cbn [Re.search]. rewrite Hrun. reflexivity.
Qed.

Lemma search_without_digit (r : Re.re) (s : string) :
  all_chars (fun c => negb (Py.is_digit c)) s = true ->
  Re.search (Re.Seq (Re.plus Re.digit) r) s = None.
Proof.
  induction s as [|c s IH]; intros Hs; [reflexivity|].
  simpl in Hs. apply andb_prop in Hs. destruct Hs as [Hc Hs].
  apply Bool.negb_true_iff in Hc.
  cbn [Re.search].
  replace (Re.run (Re.Seq (Re.plus Re.digit) r) (String c s) []
             (fun _ g => Some g)) with (@None Re.groups).
  - apply IH. exact Hs.
  - unfold Re.plus, Re.digit. cbn [Re.run]. rewrite Hc. reflexivity.
Qed.

(** X21. [_InternallyExtractChapter] returns no chapter, and logs, when
    the page has no story text.  Else it returns, without any effect, the
    stringified contents with a title.  The title is [None] when no
    chapter is selected.  When the stripped text of the selected option
    holds no digit, the title is that text.  When the text is some words
    without a digit, then a number, a period and a space, the title is
    what follows them up to the end of the line, the words and the number
    being dropped.  In every case the title is the stripped text, or a
    text without a newline that stands in it after a number, a period and
    a space. *)
Theorem InternallyExtractChapter_title :
  forall E url soup st,
    let run := ExtractorFFNet._InternallyExtractChapter E url soup st in
    (storytext soup = None ->
     run = (Ret None,
            mkState (flaresolverr_session st) (self st) (requests_made st)
              (fetches_made st)
              (trace st ++ [EvLog ERROR "Story text element not found."]))) /\
    (forall contents,
       storytext soup = Some contents ->
       (selected_option soup = None ->
        run = (Ret (Some (mkChapter None (Stringify E contents))), st)) /\
       (forall text,
          selected_option soup = Some text ->
          all_chars (fun c => negb (Py.is_digit c)) (Py.strip text) = true ->
          run = (Ret (Some (mkChapter (Some (Py.strip text))
                              (Stringify E contents))), st)) /\
       (forall text pre number t rest,
          selected_option soup = Some text ->
          Py.strip text = pre ++ number ++ ". " ++ t ++ rest ->
          all_chars (fun c => negb (Py.is_digit c)) pre = true ->
          number <> "" ->
          all_chars Py.is_digit number = true ->
          all_chars (fun c => negb (Ascii.eqb c ExtractorFFNet.newline)) t
            = true ->
          (rest = "" \/ exists r, rest = String ExtractorFFNet.newline r) ->
          run = (Ret (Some (mkChapter (Some t) (Stringify E contents))), st)) /\
       (forall text,
          selected_option soup = Some text ->
          exists title,
            run = (Ret (Some (mkChapter (Some title) (Stringify E contents))),
                   st) /\
            (title = Py.strip text \/
             exists number,
               all_chars (fun c => negb (Ascii.eqb c ExtractorFFNet.newline))
                 title = true /\
               number <> "" /\ all_chars Py.is_digit number = true /\
               Py.contains (number ++ ". " ++ title) (Py.strip text) = true))).
Proof.
  intros E url soup st run. subst run.
  unfold ExtractorFFNet._InternallyExtractChapter. split.
  - intros ->. reflexivity.
  - intros contents ->. cbv zeta. split; [|split; [|split]].
    + intros ->. reflexivity.
    + intros text -> Hnone. simpl option_map. cbv iota.
      destruct (Py.strip text) as [|c s] eqn:Hstrip; [reflexivity|].
      unfold ExtractorFFNet.re_chapter_title. cbn [Re.seq].
      rewrite (search_without_digit _ _ Hnone). reflexivity.
    + intros text pre number t rest -> Hstrip Hpre Hne Hd Ht Hrest.
      simpl option_map. cbv iota. rewrite Hstrip.
      pose proof (search_chapter_title pre number t rest Hpre Hne Hd Ht Hrest)
        as Hsearch.
      destruct (pre ++ number ++ ". " ++ t ++ rest) as [|c s] eqn:Hshape.
      * destruct pre; destruct number; try congruence; discriminate.
      * rewrite Hsearch. reflexivity.
    + intros text ->. simpl option_map. cbv iota.
      destruct (Py.strip text) as [|c s] eqn:Hstrip;
        [eexists; split; [reflexivity|left; reflexivity]|].
      destruct (Re.search ExtractorFFNet.re_chapter_title (String c s))
        as [g|] eqn:Hg;
        [|eexists; split; [reflexivity|left; reflexivity]].
      destruct (chapter_title_group _ g Hg) as (Hnl & number & Hn).
      eexists. split; [reflexivity|]. right. exists number. auto.
Qed.

Lemma InternallyExtractChapter_title_witness :
  ExtractorFFNet._InternallyExtractChapter quiet_site
    "https://www.fanfiction.net/s/12345/2/"
    (mkSoup None [] [] (Some " Part 2. The End ") (Some "<p>Text</p>")) plain
  = (Ret (Some (mkChapter (Some "The End") "<p>Text</p>")), plain).
Proof.
  destruct (proj2 (InternallyExtractChapter_title quiet_site
                     "https://www.fanfiction.net/s/12345/2/"
                     (mkSoup None [] [] (Some " Part 2. The End ")
                        (Some "<p>Text</p>")) plain)
              "<p>Text</p>" eq_refl) as (_ & _ & Hnumbered & _).
  apply (Hnumbered " Part 2. The End " "Part " "2" "The End" "");
    try reflexivity.
  - discriminate.
  - left. reflexivity.
Defined.

(** X22. Two ways the scan of a story ends in an exception.  An
    exception of the conversion of the published time stamp leaves the run
    before anything is changed or logged.  A word count without a digit
    (commas only) makes the scan raise [ValueError] after the title, the
    author, the summary, the dates and the chapter count have been set:
    the story is left half filled, with its former word count and no new
    chapter URL. *)
Theorem InternallyScanStory_exceptions :
  forall E url soup h line3 st w,
    profile_top soup = Some h ->
    Py.getitem
      (Py.split ExtractorFFNet.newline
         (Py.replace "Follow/Fav" "" (header_text h))) 3 = Some line3 ->
    Re.search ExtractorFFNet.re_words line3 = Some w ->
    let run := ExtractorFFNet._InternallyScanStory E url soup st in
    (forall e,
       ExtractorFFNet.resolve_date E
         (fst (ExtractorFFNet.pick_timestamps (header_xutime h))) line3
         "Published" = Raise e ->
       run = (Raise e, st)) /\
    (forall dp du meta count,
       ExtractorFFNet.resolve_date E
         (fst (ExtractorFFNet.pick_timestamps (header_xutime h))) line3
         "Published" = Ret dp ->
       ExtractorFFNet.resolve_date E
         (snd (ExtractorFFNet.pick_timestamps (header_xutime h))) line3
         "Updated" = Ret du ->
       Story (self st) = Some meta ->
       match Re.search ExtractorFFNet.re_chapters line3 with
       | Some g => Py.int (ExtractorFFNet.group_str 1 g)
       | None => Some 1
       end = Some count ->
       Py.int (Py.replace "," "" (ExtractorFFNet.group_str 1 w)) = None ->
       fst run = Raise ValueError /\
       _chapterURLs (self (snd run)) = _chapterURLs (self st) /\
       option_map ChapterCount (Story (self (snd run))) = Some count /\
       option_map WordCount (Story (self (snd run))) = Some (WordCount meta)).
Proof.
  intros E url soup h line3 st w Hh H3 Hw run. subst run. split.
  - intros e Hp. unfold ExtractorFFNet._InternallyScanStory.
    rewrite Hh. scan. rewrite H3. scan. rewrite Hw.
    destruct (ExtractorFFNet.pick_timestamps (header_xutime h)) as [tp tu].
    simpl in Hp. scan. rewrite Hp. destruct st; reflexivity.
  - intros dp du meta count Hp Hu Hstory Hcount Hwc.
    destruct (getitem_first_lines _ _ H3) as (l0 & l1 & l2 & H0 & H1 & H2).
    destruct st as [sess [use chk avail parser urls story] reqs fetches tr].
    simpl in Hstory. subst story.
    destruct meta as [mu mt ma ms mp mupd mc mw].
    unfold ExtractorFFNet._InternallyScanStory.
    rewrite Hh. scan. rewrite H3. scan. rewrite Hw.
    destruct (ExtractorFFNet.pick_timestamps (header_xutime h)) as [tp tu].
    simpl in Hp, Hu. scan. rewrite Hp. scan.
    destruct dp as [[|c d]|]; scan; rewrite Hu; scan; rewrite H0, H1, H2; scan;
      destruct (Re.search ExtractorFFNet.re_chapters line3) as [g|]; scan;
      rewrite ?Hcount; try (injection Hcount as <-); scan;
      rewrite Hwc; scan; auto.
Qed.

Lemma InternallyScanStory_exceptions_witness :
  let run :=
    ExtractorFFNet._InternallyScanStory quiet_site
      "https://www.fanfiction.net/s/12345/1/"
      (story_page "Rated: T - Chapters: 3 - Words: , - Published: 3/31/2011" [])
      plain in
  fst run = Raise ValueError /\
  _chapterURLs (self (snd run)) = [] /\
  option_map ChapterCount (Story (self (snd run))) = Some 3 /\
  option_map WordCount (Story (self (snd run))) = Some 0.
Proof.
  apply (proj2 (InternallyScanStory_exceptions quiet_site
                  "https://www.fanfiction.net/s/12345/1/"
                  (story_page
                     "Rated: T - Chapters: 3 - Words: , - Published: 3/31/2011" [])
                  (mkHeader
                     (header_of
                        "Rated: T - Chapters: 3 - Words: , - Published: 3/31/2011")
                     [])
                  "Rated: T - Chapters: 3 - Words: , - Published: 3/31/2011"
                  plain [(1%nat, ",")] eq_refl eq_refl eq_refl)
           (Some "2011-03-31") None
           (mkMetadata "https://www.fanfiction.net/s/12345/1/Title"
              "" "" "" "" "" 0 0) 3);
    reflexivity.
Defined.

(* ================================================================== *)
(** ** The link to the last page *)

Lemma split_not_nil (sep : ascii) (s : string) : Py.split sep s <> [].
Proof.
  destruct s as [|c s]; simpl; [discriminate|].
  destruct (Ascii.eqb c sep); [discriminate|].
  destruct (Py.split sep s); discriminate.
Qed.

Lemma split_app (sep : ascii) (p q : string) :
  Py.split sep (p ++ String sep q) = (Py.split sep p ++ Py.split sep q)%list.
Proof.
  induction p as [|c p IH]; simpl.
  - rewrite Ascii.eqb_refl. reflexivity.
  - destruct (Ascii.eqb c sep); [rewrite IH; reflexivity|].
    rewrite IH.
    pose proof (split_not_nil sep p) as Hne.
    destruct (Py.split sep p) as [|x xs]; [congruence|]. reflexivity.
Qed.

Lemma split_plain (sep : ascii) (s : string) :
  all_chars (fun c => negb (Ascii.eqb c sep)) s = true ->
  Py.split sep s = [s].
Proof.
  induction s as [|c s IH]; simpl; [reflexivity|].
  intros H. apply andb_prop in H. destruct H as [Hc Hs].
  apply Bool.negb_true_iff in Hc. rewrite Hc, (IH Hs). reflexivity.
Qed.

(** X23. The number of pages of a collection is read in the sixth part
    from the end of the link to the last page.  For a link of the shape
    the extractor itself gives to its page URLs, [.../<page>/0/0/0/0/],
    that part is the page index; a link with too few parts before it
    silently counts as one page. *)
Theorem last_page_index_reads_page :
  forall front page,
    all_chars (fun c => negb (Ascii.eqb c "/")) page = true ->
    let link := front ++ "/" ++ page ++ "/0/0/0/0/" in
    ((2 < List.length (Py.split "/" front))%nat ->
     ExtractorFFNet.last_page_index (Some link) =
       match Py.int page with
       | Some n => Ret n
       | None => Raise ValueError
       end) /\
    ((List.length (Py.split "/" front) <= 2)%nat ->
     ExtractorFFNet.last_page_index (Some link) = Ret 1).
Proof.
  intros front page Hpage link.
  assert (Hsplit : Py.split "/" link =
                   (Py.split "/" front ++ [page; "0"; "0"; "0"; "0"; ""])%list).
  { subst link. change ("/" ++ page ++ "/0/0/0/0/")
      with (String "/" (page ++ "/0/0/0/0/")).
    rewrite split_app. f_equal.
    change (page ++ "/0/0/0/0/") with (page ++ String "/" "0/0/0/0/").
    rewrite split_app, (split_plain _ _ Hpage). reflexivity. }
  assert (Hshape : exists c u, link = String c u).
  { subst link. destruct front; simpl; eauto. }
  destruct Hshape as (c & u & Hshape).
  unfold ExtractorFFNet.last_page_index. rewrite Hshape. cbv zeta.
  rewrite <- Hshape, Hsplit, length_app. simpl List.length.
  split; intros Hlen.
  - replace (8 <? _)%nat with true by (symmetry; apply Nat.ltb_lt; lia).
    rewrite (getitem_negative _ (-6) "")
      by (rewrite length_app; simpl List.length; lia).
    rewrite length_app. simpl List.length.
    replace (Z.to_nat (Z.of_nat (List.length (Py.split "/" front) + 6) + -6))
      with (List.length (Py.split "/" front) + 0)%nat by lia.
    rewrite app_nth2_plus. reflexivity.
  - replace (8 <? _)%nat with false by (symmetry; apply Nat.ltb_ge; lia).
    reflexivity.
Qed.

Lemma last_page_index_reads_page_witness :
  ExtractorFFNet.last_page_index (Some "/community/Foo/123/99/0/5/0/0/0/0/")
    = Ret 5 /\
  ExtractorFFNet.last_page_index (Some "/5/0/0/0/0/") = Ret 1.
Proof.
  split.
  - apply (proj1 (last_page_index_reads_page "/community/Foo/123/99/0" "5"
                    eq_refl)).
    vm_compute. lia.
  - apply (proj2 (last_page_index_reads_page "" "5" eq_refl)).
    vm_compute. lia.
Defined.
